(** * prediksi-sinta: the SINTA metrics scraper and the metric store

    A shallow embedding of [parse_metrics_page] (src/scraping_module.py and
    src/new_scraping.py hold the same function, statement for statement) and
    of [SintaDataManager] (src/data_manager.py), with the properties of the
    specification settled against them.

    Conventions.
    - A Python [str] is a [string] holding its UTF-8 bytes.  Substring
      search and the replacement of one ASCII character by another are the
      same on code points and on UTF-8 bytes.
    - A call that may raise returns an [outcome]: [Ok v] or [Raised e].
    - BeautifulSoup's HTML parser is a library: the embedding starts at the
      tree it returns ([node]), and models the tree methods the code calls
      ([find], [find_all], [get_text], attribute access). *)

From Stdlib Require Import ZArith Ascii String SpecFloat.
From stdpp Require Import base option list strings gmap fin_maps.

Open Scope string_scope.

#[local] Set Warnings "-register-all".

(** ** Exceptions and outcomes *)

Inductive exn : Set :=
| IndexError
| KeyError
| TypeError
| AttributeError
| ValueError
| OverflowError.

Inductive outcome (A : Type) : Type :=
| Ok (a : A)
| Raised (e : exn).

Arguments Ok {A} a.
Arguments Raised {A} e.

#[global] Instance outcome_ret : MRet outcome := fun A a => Ok a.

#[global] Instance outcome_bind : MBind outcome := fun A B k m =>
  match m with
  | Ok a => k a
  | Raised e => Raised e
  end.

(** A [for] loop whose body may raise: the first exception ends the loop. *)
Fixpoint for_each {S X} (body : S → X → outcome S) (xs : list X) (s : S)
  : outcome S :=
  match xs with
  | [] => Ok s
  | x :: xs' => s' ← body s x; for_each body xs' s'
  end.

(** ** Python string operations *)

Module PyStr.

(** [sub in s] *)
Fixpoint contains (sub s : string) : bool :=
  if String.prefix sub s then true
  else match s with
       | EmptyString => false
       | String _ s' => contains sub s'
       end.

(** [s.replace(old, new)] for single characters [old] and [new]. *)
Fixpoint replace_char (old new : ascii) (s : string) : string :=
  match s with
  | EmptyString => EmptyString
  | String c s' =>
      String (if Ascii.eqb c old then new else c) (replace_char old new s')
  end.

Definition bytes (l : list nat) : string :=
  string_of_list_ascii (map ascii_of_nat l).

(** The characters [str.strip()] removes: those with [str.isspace()],
    each as its UTF-8 encoding. *)
Definition whitespace : list string :=
  map bytes
    [ [9]; [10]; [11]; [12]; [13]; [28]; [29]; [30]; [31]; [32];
      [194; 133]; [194; 160]; [225; 154; 128];
      [226; 128; 128]; [226; 128; 129]; [226; 128; 130]; [226; 128; 131];
      [226; 128; 132]; [226; 128; 133]; [226; 128; 134]; [226; 128; 135];
      [226; 128; 136]; [226; 128; 137]; [226; 128; 138];
      [226; 128; 168]; [226; 128; 169]; [226; 128; 175];
      [226; 129; 159]; [227; 128; 128] ]%nat.

Fixpoint drop_str (n : nat) (s : string) : string :=
  match n, s with
  | S n', String _ s' => drop_str n' s'
  | _, _ => s
  end.

(** Removes from the front of [s] the strings of [ws], as long as one of
    them is a prefix.  Each round removes at least one byte, so a fuel of
    the length of [s] is enough. *)
Fixpoint lstrip_of (ws : list string) (fuel : nat) (s : string) : string :=
  match fuel with
  | O => s
  | S fuel' =>
      match List.find (fun w => String.prefix w s) ws with
      | Some w => lstrip_of ws fuel' (drop_str (String.length w) s)
      | None => s
      end
  end.

Definition lstrip (s : string) : string :=
  lstrip_of whitespace (String.length s) s.

Definition rstrip (s : string) : string :=
  String.rev
    (lstrip_of (map String.rev whitespace) (String.length s) (String.rev s)).

(** [s.strip()] *)
Definition strip (s : string) : string := rstrip (lstrip s).

(** [sep.join(l)] *)
Fixpoint join (sep : string) (l : list string) : string :=
  match l with
  | [] => ""
  | [s] => s
  | s :: l' => s +:+ sep +:+ join sep l'
  end.

End PyStr.

(** ** The parsed document *)

Module Soup.

(** An attribute value: a string, or a list of strings for the
    multi-valued attributes ([class], [headers], ...). *)
Inductive attr_value : Set :=
| AStr (s : string)
| AList (l : list string).

(** A node of the tree: a text node or an element.  Comments and the
    other special strings are left out: [get_text] skips them and [find]
    only returns elements. *)
Inductive node : Set :=
| NavigableString (s : string)
| Tag (name : string) (attrs : list (string * attr_value))
      (contents : list node).

(** [tag.get(key)], [None] when the attribute is absent. *)
Fixpoint attr_get (key : string) (attrs : list (string * attr_value))
  : option attr_value :=
  match attrs with
  | [] => None
  | (k, v) :: attrs' => if String.eqb k key then Some v else attr_get key attrs'
  end.

Definition get (key : string) (n : node) : option attr_value :=
  match n with
  | NavigableString _ => None
  | Tag _ attrs _ => attr_get key attrs
  end.

(** [tag.descendants]: every node below [n], in document order. *)
Fixpoint descendants (n : node) : list node :=
  match n with
  | NavigableString _ => []
  | Tag _ _ contents =>
      (fix below (cs : list node) : list node :=
         match cs with
         | [] => []
         | c :: cs' => c :: descendants c ++ below cs'
         end) contents
  end.

(** [tag.find_all(...)] and [tag.find(...)] for a filter [p] on nodes:
    [find] is the first result of [find_all]. *)
Definition find_all (p : node → bool) (n : node) : list node :=
  List.filter p (descendants n).

Definition find (p : node → bool) (n : node) : option node :=
  head (find_all p n).

Definition has_name (names : list string) (n : node) : bool :=
  match n with
  | NavigableString _ => false
  | Tag name _ _ => existsb (String.eqb name) names
  end.

(** How an attribute filter is matched against an attribute value: a
    multi-valued attribute matches when one of its items does, or when
    the items joined by spaces do. *)
Definition attr_matches (f : option string → bool) (v : option attr_value)
  : bool :=
  match v with
  | None => f None
  | Some (AStr s) => f (Some s)
  | Some (AList l) =>
      existsb (fun s => f (Some s)) l || f (Some (PyStr.join " " l))
  end.

(** The filter [attr=True]: the attribute is present. *)
Definition is_present (x : option string) : bool :=
  match x with Some _ => true | None => false end.

(** The filter [attr='value']. *)
Definition equals (value : string) (x : option string) : bool :=
  match x with Some s => String.eqb s value | None => false end.

(** The filter [lambda x: x and marker in x]. *)
Definition truthy_and_contains (marker : string) (x : option string) : bool :=
  match x with
  | None => false
  | Some "" => false
  | Some s => PyStr.contains marker s
  end.

Definition text_of (n : node) : option string :=
  match n with
  | NavigableString s => Some s
  | Tag _ _ _ => None
  end.

(** [tag.get_text()]: the text nodes below the tag, concatenated. *)
Definition get_text (n : node) : string :=
  PyStr.join "" (omap text_of (descendants n)).

(** [tag.get_text(strip=True)]: each text node is stripped, and dropped
    when nothing is left of it. *)
Definition get_text_strip (n : node) : string :=
  PyStr.join ""
    (List.filter (fun s => negb (String.eqb s ""))
       (map PyStr.strip (omap text_of (descendants n)))).

End Soup.

(** ** [parse_metrics_page] *)

Module Scraper.
Import Soup.

(** The dictionaries appended to the lists of [sections]: a detail row
    [{'code', 'name', 'weight', 'value', 'total'}] or a subtotal
    [{'label', 'value'}]. *)
Inductive entry : Set :=
| ScoreRow (code name weight value total : string)
| SubtotalEntry (label value : string).

(** A value of [sections]: a list of entries, or the string stored under
    ['TOTAL ALL SCORE']. *)
Inductive section_value : Set :=
| SList (l : list entry)
| SStr (s : string).

(** [sections] is a Python [dict], which keeps its keys in insertion
    order: an association list with one binding per key. *)
Definition dict : Set := list (string * section_value).

Fixpoint dict_get (k : string) (d : dict) : option section_value :=
  match d with
  | [] => None
  | (k', v) :: d' => if String.eqb k' k then Some v else dict_get k d'
  end.

(** [d[k] = v]: an existing key keeps its place, a new one goes last. *)
Fixpoint dict_set (k : string) (v : section_value) (d : dict) : dict :=
  match d with
  | [] => [(k, v)]
  | (k', v') :: d' =>
      if String.eqb k' k then (k, v) :: d' else (k', v') :: dict_set k v d'
  end.

Definition keys (d : dict) : list string := map fst d.

(** The two variables the loop updates. *)
Record pstate : Set := mk_pstate {
  sections : dict;
  current_section : option string
}.

Definition border_left : string := "border-left: 3px solid".

(** [row.find('th', colspan=True, style=lambda x: x and 'border-left: 3px solid' in x)] *)
Definition header_cell (row : node) : option node :=
  find (fun n => has_name ["th"] n
                 && attr_matches is_present (get "colspan" n)
                 && attr_matches (truthy_and_contains border_left) (get "style" n))
       row.

(** [row.find('th', style=lambda x: x and '#FF6B1A' in x)] *)
Definition total_all_cell (row : node) : option node :=
  find (fun n => has_name ["th"] n
                 && attr_matches (truthy_and_contains "#FF6B1A") (get "style" n))
       row.

(** [row.find('th', style=lambda x: x and 'font-style: italic' in x)] *)
Definition italic_cell (row : node) : option node :=
  find (fun n => has_name ["th"] n
                 && attr_matches (truthy_and_contains "font-style: italic") (get "style" n))
       row.

(** [row.find_all('th')[-1]] *)
Definition last_th (row : node) : outcome node :=
  match last (find_all (has_name ["th"]) row) with
  | Some th => Ok th
  | None => Raised IndexError
  end.

(** [row.find_all(['th', 'td'])] *)
Definition cols (row : node) : list node :=
  find_all (has_name ["th"; "td"]) row.

(** [cols[i]] *)
Definition index (l : list node) (i : nat) : outcome node :=
  match l !! i with
  | Some n => Ok n
  | None => Raised IndexError
  end.

(** [cols[0].get('style') and 'border-left: 3px solid' in cols[0]['style']] *)
Definition first_cell_styled (c : node) : bool :=
  match get "style" c with
  | None => false
  | Some (AStr "") => false
  | Some (AStr s) => PyStr.contains border_left s
  | Some (AList []) => false
  | Some (AList l) => existsb (String.eqb border_left) l
  end.

(** [current_section + ' (subtotal)'] *)
Definition subtotal_key (cur : option string) : outcome string :=
  match cur with
  | None => Raised TypeError
  | Some s => Ok (s +:+ " (subtotal)")
  end.

(** [sections.setdefault(key, []).append(e)] *)
Definition setdefault_append (key : string) (e : entry) (d : dict)
  : outcome dict :=
  match dict_get key d with
  | None => Ok (dict_set key (SList [e]) d)
  | Some (SList l) => Ok (dict_set key (SList (l ++ [e])) d)
  | Some (SStr _) => Raised AttributeError
  end.

(** [sections[key].append(e)] *)
Definition getitem_append (key : string) (e : entry) (d : dict)
  : outcome dict :=
  match dict_get key d with
  | None => Raised KeyError
  | Some (SList l) => Ok (dict_set key (SList (l ++ [e])) d)
  | Some (SStr _) => Raised AttributeError
  end.

Definition comma_to_dot (s : string) : string :=
  PyStr.replace_char "," "." s.

(** The five reads [cols[1]] ... [cols[5]] of the detail block, and the
    dictionary built from them. *)
Definition read_detail (cols : list node) : outcome entry :=
  c1 ← index cols 1;
  let code := get_text_strip c1 in
  c2 ← index cols 2;
  let name := get_text_strip c2 in
  c3 ← index cols 3;
  let weight := get_text_strip c3 in
  c4 ← index cols 4;
  let value := comma_to_dot (get_text_strip c4) in
  c5 ← index cols 5;
  let total := comma_to_dot (get_text_strip c5) in
  Ok (ScoreRow code name weight value total).

(** The test of the detail block:
    [len(cols) >= 5 and cols[0].get('style') and 'border-left: 3px solid' in cols[0]['style']] *)
Definition detail_test (cols : list node) : bool :=
  (5 <=? length cols)%nat
  && match cols !! 0%nat with
     | Some c => first_cell_styled c
     | None => false
     end.

(** The last block of the loop body ("Ambil data baris biasa"). *)
Definition detail_step (st : pstate) (row : node) : outcome pstate :=
  let cols := cols row in
  if detail_test cols then
    e ← read_detail cols;
    match current_section st with
    | None | Some "" => Ok st
    | Some cur =>
        d ← getitem_append cur e (sections st);
        Ok (mk_pstate d (current_section st))
    end
  else Ok st.

(** The subtotal block and what follows it. *)
Definition subtotal_step (st : pstate) (row : node) : outcome pstate :=
  match italic_cell row with
  | Some italic_total =>
      let text := get_text_strip italic_total in
      if PyStr.contains "Total Score" text then
        th ← last_th row;
        let value := get_text_strip th in
        key ← subtotal_key (current_section st);
        d ← setdefault_append key (SubtotalEntry text value) (sections st);
        Ok (mk_pstate d (current_section st))
      else Ok st
  | None => detail_step st row
  end.

(** The grand-total block and what follows it. *)
Definition total_all_step (st : pstate) (row : node) : outcome pstate :=
  match total_all_cell row with
  | Some total_all =>
      if PyStr.contains "TOTAL ALL SCORE" (get_text total_all) then
        th ← last_th row;
        let total_score := get_text_strip th in
        Ok (mk_pstate
              (dict_set "TOTAL ALL SCORE" (SStr total_score) (sections st))
              (current_section st))
      else subtotal_step st row
  | None => subtotal_step st row
  end.

(** One iteration of [for row in rows]: the section-header block and what
    follows it.  A [continue] ends the iteration, so each block hands the
    row to the next one only when its own test fails. *)
Definition process_row (st : pstate) (row : node) : outcome pstate :=
  match header_cell row with
  | Some header =>
      if negb (PyStr.contains "Total" (get_text header)) then
        let section_text := get_text_strip header in
        if PyStr.contains "Score in" section_text then
          Ok (mk_pstate (dict_set section_text (SList []) (sections st))
                        (Some section_text))
        else Ok st
      else total_all_step st row
  | None => total_all_step st row
  end.

(** When a block lets a row through to the next one. *)
Definition skips_header (row : node) : bool :=
  match header_cell row with
  | Some header => PyStr.contains "Total" (get_text header)
  | None => true
  end.

Definition skips_total_all (row : node) : bool :=
  match total_all_cell row with
  | Some total_all => negb (PyStr.contains "TOTAL ALL SCORE" (get_text total_all))
  | None => true
  end.

Definition skips_subtotal (row : node) : bool :=
  match italic_cell row with
  | Some _ => false
  | None => true
  end.

(** The rows that get to the detail block. *)
Definition reaches_detail (row : node) : bool :=
  skips_header row && skips_total_all row && skips_subtotal row.

(** The caption under which a row opens a section, if it opens one. *)
Definition section_caption (row : node) : option string :=
  match header_cell row with
  | Some header =>
      if negb (PyStr.contains "Total" (get_text header))
         && PyStr.contains "Score in" (get_text_strip header)
      then Some (get_text_strip header)
      else None
  | None => None
  end.

(** What holds of the two loop variables between iterations: the
    current section, when there is one, has "Score in" in its caption and
    a list under its caption in [sections]. *)
Definition section_invariant (st : pstate) : Prop :=
  match current_section st with
  | None => True
  | Some cur =>
      PyStr.contains "Score in" cur = true
      ∧ ∃ l, dict_get cur (sections st) = Some (SList l)
  end.

(** A detail row the parser reads the entry [e] from: it gets to the
    detail block, passes its test, and the five reads succeed. *)
Definition reads (row : node) (e : entry) : Prop :=
  reaches_detail row = true
  ∧ detail_test (cols row) = true
  ∧ read_detail (cols row) = Ok e.

(** An element whose [class] attribute lists the class [c]. *)
Definition carries_class (c : string) (n : node) : Prop :=
  match get "class" n with
  | Some (AStr s) => s = c
  | Some (AList l) => In c l
  | None => False
  end.

Definition initial : pstate := mk_pstate [] None.

(** [soup.find('table', class_='table')] *)
Definition find_table (soup : node) : option node :=
  find (fun n => has_name ["table"] n
                 && attr_matches (equals "table") (get "class" n))
       soup.

(** [parse_metrics_page], from the tree [BeautifulSoup(html_content,
    'html.parser')] returns: [Ok None] is the [return None]. *)
Definition parse_metrics_page (soup : node) : outcome (option dict) :=
  match find_table soup with
  | None => Ok None
  | Some table =>
      let rows := find_all (has_name ["tr"]) table in
      st ← for_each process_row rows initial;
      Ok (Some (sections st))
  end.

End Scraper.

(** ** Sample pages

    Rows shaped like those of the SINTA metrics table, used to run the
    parser on concrete input. *)

Module Samples.
Import Soup Scraper.

Definition cell (tag : string) (attrs : list (string * attr_value))
    (text : string) : node :=
  Tag tag attrs [NavigableString text].

Definition left_border : list (string * attr_value) :=
  [("style", AStr "border-left: 3px solid #3c8dbc;")].

(** [<tr><th colspan="6" style="border-left: ...">caption</th></tr>] *)
Definition section_row (caption : string) : node :=
  Tag "tr" [] [cell "th" (("colspan", AStr "6") :: left_border) caption].

(** A marker cell followed by code, name, weight, value and total. *)
Definition detail_row (code name weight value total : string) : node :=
  Tag "tr" []
    [ Tag "td" left_border []; cell "td" [] code; cell "td" [] name;
      cell "td" [] weight; cell "td" [] value; cell "td" [] total ].

(** A styled first cell and four more: five cells in all. *)
Definition five_cell_row (code name weight value total : string) : node :=
  Tag "tr" []
    [ cell "td" left_border code; cell "td" [] name; cell "td" [] weight;
      cell "td" [] value; cell "td" [] total ].

Definition subtotal_row (label value : string) : node :=
  Tag "tr" []
    [ cell "th" [("colspan", AStr "5"); ("style", AStr "font-style: italic;")]
        label;
      cell "th" [] value ].

Definition grand_total_row (value : string) : node :=
  Tag "tr" []
    [ cell "th" [("colspan", AStr "5"); ("style", AStr "color: #FF6B1A;")]
        "TOTAL ALL SCORE";
      cell "th" [] value ].

(** A multi-column, left-border-styled heading cell with a caption that
    has neither "Score in" nor "Total", followed by five data cells. *)
Definition odd_heading_row : node :=
  Tag "tr" []
    [ cell "th" (("colspan", AStr "2") :: left_border) "Summary";
      cell "td" [] "AI9"; cell "td" [] "Other"; cell "td" [] "10";
      cell "td" [] "3,5"; cell "td" [] "35,0" ].

Definition page (rows : list node) : node :=
  Tag "[document]" []
    [ Tag "html" []
        [ Tag "body" []
            [ Tag "table" [("class", AList ["table"; "table-bordered"])]
                rows ] ] ].

(** A page whose only table does not carry the class [table]. *)
Definition page_without_table : node :=
  Tag "[document]" []
    [ Tag "html" []
        [ Tag "body" []
            [ Tag "h1" [] [NavigableString "Not found"];
              Tag "table" [("class", AList ["listing"])]
                [section_row "Publication Score in Scopus"] ] ] ].

Definition publication : string := "Publication Score in Scopus".

Definition repeated_caption_page : node :=
  page [ section_row publication;
         detail_row "AI1" "Q1 articles" "40" "1,5" "60,0";
         section_row publication;
         detail_row "AI2" "Q2 articles" "30" "2,5" "75,0" ].

Definition five_cell_page : node :=
  page [ section_row publication;
         five_cell_row "AI1" "Q1 articles" "40" "1,5" "60,0" ].

Definition early_subtotal_page : node :=
  page [ subtotal_row "Total Score Publication" "12,5" ].

Definition grand_total_page : node :=
  page [ section_row publication;
         detail_row "AI1" "Q1 articles" "40" "1,234" "49,36";
         grand_total_row "543,21" ].

(** The state after a section header with caption [publication]. *)
Definition open_state : pstate :=
  mk_pstate [(publication, SList [])] (Some publication).

Definition subtotal_page : node :=
  page [ section_row publication;
         subtotal_row "Total Score Publication" "12,5";
         section_row publication;
         subtotal_row "Total Score Ternormal" "0,75" ].

Definition leading_rows_page : node :=
  page [ detail_row "AI0" "Orphan" "1" "2,0" "2,0";
         section_row publication;
         detail_row "AI1" "Q1 articles" "40" "1,5" "60,0" ].

Definition research : string := "Research Score in Sinta".

(** The caption [publication] twice, with subtotals, a grand total and
    other sections around. *)
Definition reopened_page : node :=
  page [ section_row publication;
         detail_row "AI1" "Q1 articles" "40" "1,5" "60,0";
         subtotal_row "Total Score Publication" "60,0";
         section_row research;
         detail_row "P1" "Grants" "10" "2,0" "20,0";
         section_row publication;
         detail_row "AI2" "Q2 articles" "30" "2,5" "75,0";
         subtotal_row "Total Score Publication" "75,0";
         grand_total_row "543,21";
         detail_row "AI3" "Q3 articles" "20" "1,0" "20,0";
         section_row research;
         detail_row "P2" "Contracts" "5" "4,0" "20,0" ].

(** A styled row of five cells before any section header. *)
Definition leading_five_cell_page : node :=
  page [ five_cell_row "AI0" "Orphan" "1" "2,0" "2,0";
         section_row publication;
         detail_row "AI1" "Q1 articles" "40" "1,5" "60,0" ].

Definition interleaved_total_page : node :=
  page [ section_row publication;
         detail_row "AI1" "Q1 articles" "40" "1,5" "60,0";
         grand_total_row "543,21";
         detail_row "AI2" "Q2 articles" "30" "2,5" "75,0" ].

End Samples.

(** ** Python floats and the builtin [float()] *)

Module PyFloat.

(** A Python [float] is an IEEE 754 binary64 number: [spec_float] at
    precision 53 and maximal exponent 1024. *)
Definition prec : Z := 53.
Definition emax : Z := 1024.

Definition zero : spec_float := S754_zero false.

(** [x < y] on floats; false when either is a NaN. *)
Definition ltb (x y : spec_float) : bool := SFltb x y.

(** [float(n)] for an [int]: rounded to nearest even, [OverflowError]
    when the result is beyond the largest float. *)
Definition of_int (n : Z) : outcome spec_float :=
  match binary_normalize prec emax n 0 false with
  | S754_infinity _ => Raised OverflowError
  | f => Ok f
  end.

(** The float nearest to [m * 10^e] with sign [neg], for [0 <= m]. *)
Definition of_decimal (neg : bool) (m e : Z) : spec_float :=
  if (m =? 0)%Z then S754_zero neg
  else if (0 <=? e)%Z then
    binary_normalize prec emax ((if neg then Z.opp m else m) * 10 ^ e) 0 false
  else
    let '(q, e', l) := SFdiv_core_binary prec emax m 0 (10 ^ (- e)) 0 in
    binary_round_aux prec emax neg q e' l.

Definition is_digit (c : ascii) : bool :=
  let n := nat_of_ascii c in (48 <=? n)%nat && (n <=? 57)%nat.

Definition digit_value (c : ascii) : Z := Z.of_nat (nat_of_ascii c) - 48.

Definition lower (c : ascii) : ascii :=
  let n := nat_of_ascii c in
  if (65 <=? n)%nat && (n <=? 90)%nat then ascii_of_nat (n + 32) else c.

Fixpoint lower_str (s : string) : string :=
  match s with
  | EmptyString => EmptyString
  | String c s' => String (lower c) (lower_str s')
  end.

(** The digits that follow a digit: a digit, or one underscore and a
    digit.  Returns the digits read and what is left. *)
Fixpoint more_digits (s : string) : list ascii * string :=
  match s with
  | String c s' =>
      if is_digit c then
        let '(ds, rest) := more_digits s' in (c :: ds, rest)
      else if Ascii.eqb c "_" then
        match s' with
        | String d s'' =>
            if is_digit d then
              let '(ds, rest) := more_digits s'' in (d :: ds, rest)
            else ([], s)
        | EmptyString => ([], s)
        end
      else ([], s)
  | EmptyString => ([], s)
  end.

(** A possibly empty run of digits, underscores allowed between digits. *)
Definition digit_part (s : string) : list ascii * string :=
  match s with
  | String c s' =>
      if is_digit c then
        let '(ds, rest) := more_digits s' in (c :: ds, rest)
      else ([], s)
  | EmptyString => ([], s)
  end.

Definition number (ds : list ascii) : Z :=
  foldl (fun n c => 10 * n + digit_value c)%Z 0%Z ds.

(** An optional sign: whether it is a minus, and what is left. *)
Definition sign (s : string) : bool * string :=
  match s with
  | String "-" s' => (true, s')
  | String "+" s' => (false, s')
  | _ => (false, s)
  end.

(** An optional exponent [e[+-]digits]; [None] when it is malformed or
    when something follows it. *)
Definition exponent (s : string) : option Z :=
  match s with
  | EmptyString => Some 0%Z
  | String c s' =>
      if Ascii.eqb (lower c) "e" then
        let '(neg, s1) := sign s' in
        match digit_part s1 with
        | ((_ :: _) as ds, EmptyString) =>
            Some (if neg then - number ds else number ds)%Z
        | _ => None
        end
      else None
  end.

(** The code points of a string, from its UTF-8 encoding; [None] for a
    byte sequence that encodes none. *)
Definition continuation (c : ascii) : option N :=
  let b := N_of_ascii c in
  if (128 <=? b)%N && (b <? 192)%N then Some (b - 128)%N else None.

Fixpoint code_points (s : string) : list (option N) :=
  match s with
  | EmptyString => []
  | String c0 s1 =>
      let b0 := N_of_ascii c0 in
      if (b0 <? 128)%N then Some b0 :: code_points s1
      else if (b0 <? 192)%N || (248 <=? b0)%N then [None]
      else
        match s1 with
        | String c1 s2 =>
            match continuation c1 with
            | None => [None]
            | Some x1 =>
                if (b0 <? 224)%N
                then Some ((b0 - 192) * 64 + x1)%N :: code_points s2
                else
                  match s2 with
                  | String c2 s3 =>
                      match continuation c2 with
                      | None => [None]
                      | Some x2 =>
                          if (b0 <? 240)%N
                          then Some (((b0 - 224) * 64 + x1) * 64 + x2)%N
                               :: code_points s3
                          else
                            match s3 with
                            | String c3 s4 =>
                                match continuation c3 with
                                | None => [None]
                                | Some x3 =>
                                    Some ((((b0 - 240) * 64 + x1) * 64 + x2)
                                          * 64 + x3)%N
                                    :: code_points s4
                                end
                            | EmptyString => [None]
                            end
                      end
                  | EmptyString => [None]
                  end
            end
        | EmptyString => [None]
        end
  end.

(** The code points from 127 on that [Py_UNICODE_ISSPACE] accepts. *)
Definition unicode_space (cp : N) : bool :=
  bool_decide (cp ∈ [133; 160; 5760; 8232; 8233; 8239; 8287; 12288]%N)
  || (8192 <=? cp)%N && (cp <=? 8202)%N.

(** The decimal digits of Unicode 14.0, the version of Python 3.11, by
    the code point of their zero: each zero starts a run of ten digits,
    [0] to [9]. *)
Definition decimal_zeros : list N :=
  [ 48; 1632; 1776; 1984; 2406; 2534; 2662; 2790; 2918; 3046; 3174; 3302;
    3430; 3558; 3664; 3792; 3872; 4160; 4240; 6112; 6160; 6470; 6608;
    6784; 6800; 6992; 7088; 7232; 7248; 42528; 43216; 43264; 43472; 43504;
    43600; 44016; 65296; 66720; 68912; 69734; 69872; 69942; 70096; 70384;
    70736; 70864; 71248; 71360; 71472; 71904; 72016; 72784; 73040; 73120;
    92768; 92864; 93008; 120782; 120792; 120802; 120812; 120822; 123200;
    123632; 125264; 130032 ]%N.

(** [Py_UNICODE_TODECIMAL] *)
Definition to_decimal (cp : N) : option N :=
  zero ← List.find (fun zero => (zero <=? cp)%N && (cp <? zero + 10)%N)
           decimal_zeros;
  Some (cp - zero)%N.

(** What [float()] does first to a string that is not ASCII: a
    character below 127 is kept, a space of Unicode becomes [" "], a
    decimal digit of Unicode becomes the ASCII digit, and the string is
    cut at the first character that is none of these, which becomes a
    question mark. *)
Fixpoint to_ascii (cps : list (option N)) : string :=
  match cps with
  | [] => ""
  | Some cp :: rest =>
      if (cp <? 127)%N then String (ascii_of_N cp) (to_ascii rest)
      else if unicode_space cp then String " " (to_ascii rest)
      else match to_decimal cp with
           | Some d => String (ascii_of_N (48 + d)) (to_ascii rest)
           | None => "?"
           end
  | None :: _ => "?"
  end.

Fixpoint is_ascii (s : string) : bool :=
  match s with
  | EmptyString => true
  | String c s' => (N_of_ascii c <? 128)%N && is_ascii s'
  end.

Definition transform_decimal_and_space_to_ascii (s : string) : string :=
  if is_ascii s then s else to_ascii (code_points s).

(** [Py_ISSPACE]: the six ASCII characters the parser of [float()] skips
    at both ends; the characters 28 to 31, which [str.strip()] removes,
    are not among them. *)
Definition ascii_space : list string :=
  map PyStr.bytes [ [9]; [10]; [11]; [12]; [13]; [32] ]%nat.

Definition strip_ascii_space (s : string) : string :=
  String.rev
    (PyStr.lstrip_of (map String.rev ascii_space) (String.length s)
       (String.rev (PyStr.lstrip_of ascii_space (String.length s) s))).

(** [float(s)] for a [str]: [None] is the [ValueError]. *)
Definition of_string (s : string) : option spec_float :=
  let '(neg, body) :=
    sign (strip_ascii_space (transform_decimal_and_space_to_ascii s)) in
  let word := lower_str body in
  if String.eqb word "inf" || String.eqb word "infinity" then
    Some (S754_infinity neg)
  else if String.eqb word "nan" then Some S754_nan
  else
    let '(int_digits, s1) := digit_part body in
    let '(frac_digits, s2) :=
      match s1 with
      | String "." s1' => digit_part s1'
      | _ => ([], s1)
      end in
    match (int_digits ++ frac_digits)%list with
    | [] => None
    | mantissa =>
        e ← exponent s2;
        Some (of_decimal neg (number mantissa)
                (e - Z.of_nat (length frac_digits)))
    end.

End PyFloat.

(** ** Python values and [try ... except] *)

(** The values a store can hold, as far as they are modelled: those of
    the types [json.load] returns, whether they come from a file or from
    a caller of [set_value]. *)
Inductive pyval : Set :=
| PNone
| PBool (b : bool)
| PInt (n : Z)
| PFloat (f : spec_float)
| PStr (s : string)
| PList (l : list pyval)
| PDict (l : list (string * pyval)).

(** The builtin [float(v)]. *)
Definition float (v : pyval) : outcome spec_float :=
  match v with
  | PFloat f => Ok f
  | PInt n => PyFloat.of_int n
  | PBool b => PyFloat.of_int (if b then 1 else 0)
  | PStr s =>
      match PyFloat.of_string s with
      | Some f => Ok f
      | None => Raised ValueError
      end
  | PNone | PList _ | PDict _ => Raised TypeError
  end.

(** The default of [sys.int_max_str_digits]: since Python 3.11 the
    decimal text of an [int] of more digits is refused. *)
Definition int_max_str_digits : Z := 4300.

(** The depth to which lists and dictionaries are nested in a value. *)
Fixpoint nesting (v : pyval) : nat :=
  match v with
  | PList l => S (list_max (map nesting l))
  | PDict l => S (list_max (map (fun kv => let '(_, x) := kv in nesting x) l))
  | PNone | PBool _ | PInt _ | PFloat _ | PStr _ => 0
  end.

(** [str()] writes a list or a dictionary by recursion on its nesting,
    and raises [RecursionError] when the interpreter's stack gives out,
    after a thousand calls by default.  Like the exhaustion of memory,
    this is left out of the model of [str()] below, which is for the
    values an ordinary run has room for: those nested no deeper than
    [nesting_bound].  The statements that depend on the text of a value
    say so by [shallow]. *)
Definition nesting_bound : nat := 100.

Definition shallow (v : pyval) : Prop := (nesting v ≤ nesting_bound)%nat.

(** Whether [str(v)] raises, as it does with [ValueError] when it has to
    write an [int] of more than 4300 digits: [v] itself, or an element at
    any depth of a list or of a dictionary. *)
Fixpoint str_raises (v : pyval) : bool :=
  match v with
  | PInt n => (10 ^ int_max_str_digits <=? Z.abs n)%Z
  | PList l => existsb str_raises l
  | PDict l => existsb (fun kv => let '(_, x) := kv in str_raises x) l
  | PNone | PBool _ | PFloat _ | PStr _ => false
  end.

(** The replacement field [{v}] of an f-string: the text is [str(v)],
    of which only whether it can be built is kept. *)
Definition format (v : pyval) : outcome unit :=
  if str_raises v then Raised ValueError else Ok ().

(** [try: body  except classes: handler] *)
Definition try_except {A} (body : outcome A) (classes : exn → bool)
    (handler : outcome A) : outcome A :=
  match body with
  | Ok a => Ok a
  | Raised e => if classes e then handler else Raised e
  end.

(** [(ValueError, TypeError)] *)
Definition value_or_type_error (e : exn) : bool :=
  match e with
  | ValueError | TypeError => true
  | _ => false
  end.

(** ** [SintaDataManager] *)

Module DataManager.

(** [st.session_state] before the manager is built: either key may be
    missing. *)
Record session_state : Type := mk_session_state {
  raw_db : option (gmap string pyval);
  raw_defaults : option (gmap string pyval)
}.

(** [st.session_state] once [_ensure_session_state] has run: both
    ["SINTA_DB"] and ["default_values"] are there, and no method removes
    them. *)
Record session : Type := mk_session {
  SINTA_DB : gmap string pyval;
  default_values : gmap string pyval
}.

(** A float literal of the source. *)
Definition lit (s : string) : pyval :=
  PFloat (default S754_nan (PyFloat.of_string s)).

(** The table [_ensure_session_state] stores under ["default_values"]. *)
Definition canonical_defaults : gmap string pyval :=
  list_to_map
    [ ("AI1", lit "0.092"); ("AI2", lit "0.076"); ("AI3", lit "0.139");
      ("AI4", lit "0.034"); ("AI5", lit "0.034");
      ("AI6", lit "0.151"); ("AI7", lit "343.01"); ("AI8", lit "0.349");
      ("AN1", lit "0.021"); ("AN2", lit "0.202"); ("AN3", lit "0.441");
      ("AN4", lit "2.366"); ("AN5", lit "2.294"); ("AN6", lit "0.122");
      ("AN7", lit "1.483"); ("AN8", lit "0.013"); ("AN9", lit "0.0");
      ("AN10", lit "0.0");
      ("DGS1", lit "22.092"); ("DGS2", lit "2.426"); ("DGS3", lit "9.828");
      ("B1", lit "0.202"); ("B2", lit "0.622"); ("B3", lit "0.025");
      ("P1", lit "0.0"); ("P2", lit "0.0"); ("P3", lit "18.0");
      ("P4", lit "7.0"); ("P5", lit "486.0"); ("P6", lit "10.0");
      ("P7", lit "2523.96");
      ("PM1", lit "0.0"); ("PM2", lit "0.0"); ("PM3", lit "6.0");
      ("PM4", lit "3.0"); ("PM5", lit "476.0"); ("PM6", lit "13.0");
      ("PM7", lit "793.35");
      ("KI1", lit "0.0"); ("KI2", lit "0.0"); ("KI3", lit "0.004");
      ("KI4", lit "0.0"); ("KI5", lit "0.0"); ("KI6", lit "0.0");
      ("KI7", lit "0.004"); ("KI8", lit "0.143"); ("KI9", lit "6.0");
      ("KI10", lit "0.0");
      ("R1", lit "0.0"); ("R2", lit "0.0"); ("R3", lit "0.0");
      ("DOS1", lit "0.004"); ("DOS2", lit "0.054"); ("DOS3", lit "0.43");
      ("DOS4", lit "0.318"); ("DOS5", lit "0.193"); ("REV1", lit "0.0");
      ("APS1", lit "0.0"); ("APS2", lit "0.833"); ("APS3", lit "0.167");
      ("APS4", lit "0.0");
      ("JO1", lit "0.0"); ("JO2", lit "0.0"); ("JO3", lit "0.0");
      ("JO4", lit "4.0"); ("JO5", lit "9.0"); ("JO6", lit "1.0") ].

(** [_ensure_session_state]: [not d] on a dict is [len(d) == 0]. *)
Definition _ensure_session_state (ss : session_state) : session :=
  let db := default ∅ (raw_db ss) in
  let defaults := default canonical_defaults (raw_defaults ss) in
  mk_session (if Nat.eqb (size db) 0 then defaults else db) defaults.

(** What the manager shows to the user: [st.warning] and [st.error]. *)
Inductive message : Set :=
| NotNumericWarning (key : string) (value : pyval)
| FileNotFoundMessage (filename : string)
| LoadError.

(** [get_value] *)
Definition get_value (st : session) (key : string) (dflt : pyval)
  : outcome spec_float :=
  try_except (float (default dflt (SINTA_DB st !! key)))
    value_or_type_error
    (float dflt).

(** [set_value] as it acts on the session: the session it leaves and
    what the call gives, the warnings shown or the exception raised.  The
    store is written before the text of the warning is built, so that a
    call that raises there has changed the store; a call that raises in
    [float(value)] has not. *)
Definition set_value_state (st : session) (key : string) (value : pyval)
  : session * outcome (list message) :=
  match float value with
  | Ok numeric_value =>
      (mk_session (<[key := PFloat numeric_value]> (SINTA_DB st))
                  (default_values st), Ok [])
  | Raised e =>
      if value_or_type_error e then
        (mk_session (<[key := value]> (SINTA_DB st)) (default_values st),
         _ ← format value; Ok [NotNumericWarning key value])
      else (st, Raised e)
  end.

(** [set_value]: the new session and the warnings emitted, for a call
    that returns. *)
Definition set_value (st : session) (key : string) (value : pyval)
  : outcome (session * list message) :=
  let '(st', result) := set_value_state st key value in
  shown ← result; Ok (st', shown).

(** [get_all_values] *)
Definition get_all_values (st : session) : gmap string pyval := SINTA_DB st.

(** [reset_data] *)
Definition reset_data (st : session) : session :=
  mk_session (default_values st) (default_values st).

(** What the file system holds under a name, as [load_from_file] sees
    it: nothing; something that makes [open] or [json.load] raise; a JSON
    object, the persisted form of a store; or a JSON document of another
    kind.  [dict.update] walks such a document as a sequence of pairs:
    [JsonPairs] has the pairs it stores before it comes to the end
    ([finished]) or to an element that makes it raise, which is the
    first one for a number, [true], [false], [null] or a string that is
    not empty.  A pair whose key is not a string is not covered: the
    store of this model is keyed by strings. *)
Inductive file : Type :=
| Missing
| Unreadable
| JsonObject (loaded_data : gmap string pyval)
| JsonPairs (pairs : list (string * pyval)) (finished : bool).

(** [d.update(pairs)], pair by pair. *)
Definition update_pairs (pairs : list (string * pyval))
    (d : gmap string pyval) : gmap string pyval :=
  foldl (fun d '(key, value) => <[key := value]> d) d pairs.

(** [load_from_file]: [dict.update] with a dictionary is a union that
    prefers the loaded bindings.  Returns the session, the boolean and
    the errors shown. *)
Definition load_from_file (fs : string → file) (st : session)
    (filename : string) : session * bool * list message :=
  match fs filename with
  | Missing => (st, false, [FileNotFoundMessage filename])
  | Unreadable => (st, false, [LoadError])
  | JsonObject loaded_data =>
      (mk_session (loaded_data ∪ SINTA_DB st) (default_values st), true, [])
  | JsonPairs pairs finished =>
      (mk_session (update_pairs pairs (SINTA_DB st)) (default_values st),
       finished, if finished then [] else [LoadError])
  end.

(** The entries of the mapping [validate_data] returns; the message text
    is determined by the constructor and its arguments. *)
Inductive issue : Set :=
| MissingField (field : string)
| MustBeNonNegative (key : string) (value : pyval)
| MustBeNumeric (key : string) (value : pyval).

(** One iteration of the second loop of [validate_data].  The text of
    an issue is built where the source builds it: in the [try] for a
    negative value, in the [except] clause for a value [float()]
    rejects. *)
Definition validate_item (errors : gmap string issue)
    (item : string * pyval) : outcome (gmap string issue) :=
  let '(key, value) := item in
  try_except
    (num_value ← float value;
     if PyFloat.ltb num_value PyFloat.zero
     then _ ← format value;
          Ok (<[key := MustBeNonNegative key value]> errors)
     else Ok errors)
    value_or_type_error
    (_ ← format value;
     Ok (<[key := MustBeNumeric key value]> errors)).

(** [validate_data].  The loops run over the keys and items in the order
    [map_to_list] gives them.  A result does not depend on that order,
    since each iteration writes under its own key; when several values
    make the second loop raise, the exception is that of the first of
    them in the order of the items. *)
Definition validate_data (st : session) : outcome (gmap string issue) :=
  let required_fields := (map_to_list (default_values st)).*1 in
  let errors :=
    foldl (fun (errors : gmap string issue) field =>
             match SINTA_DB st !! field with
             | None => <[field := MissingField field]> errors
             | Some _ => errors
             end) ∅ required_fields in
  for_each validate_item (map_to_list (SINTA_DB st)) errors.

(** The test [validate_data] applies to a stored value: it converts to a
    float that is not below zero. *)
Definition is_non_negative_float (v : pyval) : bool :=
  match float v with
  | Ok f => negb (PyFloat.ltb f PyFloat.zero)
  | Raised _ => false
  end.

(** [backup_current_state] *)
Definition backup_current_state (st : session) : gmap string pyval :=
  SINTA_DB st.

(** [restore_from_backup] *)
Definition restore_from_backup (st : session) (backup_data : gmap string pyval)
  : session :=
  mk_session backup_data (default_values st).

End DataManager.

(** ** The shape of the parser's result *)

Module Shape.
Import Soup Scraper.

(** The key of the grand total is the only one that holds a string;
    every other key holds a list. *)
Definition well_shaped (d : dict) : Prop :=
  ∀ k v, dict_get k d = Some v →
    match v with
    | SStr _ => k = "TOTAL ALL SCORE"
    | SList _ => k ≠ "TOTAL ALL SCORE"
    end.

(** A subtotal row the parser reads the entry [e] from: it gets to the
    subtotal block, its italic heading cell has "Total Score", and the
    value is the text of the row's last heading cell. *)
Definition reads_subtotal (row : node) (e : entry) : Prop :=
  skips_header row = true
  ∧ skips_total_all row = true
  ∧ ∃ cell th,
      italic_cell row = Some cell
      ∧ PyStr.contains "Total Score" (get_text_strip cell) = true
      ∧ last_th row = Ok th
      ∧ e = SubtotalEntry (get_text_strip cell) (get_text_strip th).

(** A grand-total row whose last heading cell has the text [total]. *)
Definition reads_grand_total (row : node) (total : string) : Prop :=
  skips_header row = true
  ∧ ∃ cell th,
      total_all_cell row = Some cell
      ∧ PyStr.contains "TOTAL ALL SCORE" (get_text cell) = true
      ∧ last_th row = Ok th
      ∧ total = get_text_strip th.

(** The list under a key, empty when the key is absent. *)
Definition listed (key : string) (d : dict) : list entry :=
  match dict_get key d with
  | Some (SList l) => l
  | _ => []
  end.

(** The two ways an iteration of the loop fails: a detail row with
    exactly five cells, and a subtotal row while no section is open. *)
Definition fails_with (st : pstate) (row : node) (e : exn) : Prop :=
  (e = IndexError
   ∧ reaches_detail row = true
   ∧ detail_test (cols row) = true
   ∧ length (cols row) = 5)
  ∨ (e = TypeError
     ∧ current_section st = None
     ∧ ∃ entry, reads_subtotal row entry).

(** The entry of a row that gets to the detail block, passes its test
    and has the six cells the block reads. *)
Definition detail_entry (row : node) : option entry :=
  if reaches_detail row && detail_test (cols row) then
    match read_detail (cols row) with
    | Ok e => Some e
    | Raised _ => None
    end
  else None.

(** A row that gets to the detail block and passes its test with exactly
    five cells: the read of [cols[5]] fails. *)
Definition five_cell_detail (row : node) : bool :=
  reaches_detail row && detail_test (cols row)
  && (length (cols row) =? 5)%nat.

End Shape.

(** ** Fetching the pages of a list of institutions

    [scrape_institution_data] and [perform_scraping] of
    src/scraping_module.py, and the script at the end of
    src/new_scraping.py.  What they take from outside is a variable of
    the section: the cells of the data frame with their [str()], the HTTP
    request, the HTML parser, [pd.read_csv], the clock, [time.sleep], and
    whether the output file can be written. *)

Module Fetch.
Import Soup Scraper.

#[local] Open Scope list_scope.

(** The two attributes of a [requests] response that the code reads. *)
Record response : Set := mk_response {
  status_code : Z;
  text : string
}.

Section Environment.

(** A cell of the data frame, and its [str()] as an f-string prints it. *)
Variable cell : Type.
Variable str : cell → string.

(** [requests.get(url, timeout=15)]; [None] when it raises. *)
Variable requests_get : string → option response.

(** [BeautifulSoup(html_content, 'html.parser')] *)
Variable BeautifulSoup : string → node.

(** [pd.read_csv(path)]: the rows of the frame, which has the four
    columns the loops read; [None] when it raises. *)
Record csv_row : Type := mk_csv_row {
  column_kode_pt : cell;
  column_nama_institusi : cell;
  column_sinta_id_link : cell;
  column_klaster : cell
}.

Variable read_csv : string → option (list csv_row).

(** The dictionary built for an institution, with its keys ['Kode PT'],
    ['Nama Institusi'], ['Klaster'], ['Sinta ID'] and ['Metrics']. *)
Record institution : Type := mk_institution {
  Kode_PT : cell;
  Nama_Institusi : cell;
  Klaster : cell;
  Sinta_ID : cell;
  Metrics : dict
}.

(** Whether [open(filename, 'w')] and [json.dump(results, ...)] succeed. *)
Variable writes : string → list institution → bool.

(** [datetime.now().strftime("%Y%m%d_%H%M%S")] *)
Variable timestamp : string.

(** [time.sleep(secs)]: it returns after the delay, or raises, as it
    does for a delay that is negative, not a number or of no numeric
    type, or that the platform refuses. *)
Variable time_sleep : pyval → outcome unit.

(** What is shown or printed for one institution: the page could not be
    accessed, it has no metrics table, or an exception was caught (the
    parser's, or [None] for one of [requests.get]). *)
Inductive notice : Type :=
| NoAccess (url : string)
| NoMetrics (nama : cell)
| Caught (nama : cell) (e : option exn).

Definition profile_url (sinta_id : cell) : string :=
  "https://sinta.kemdiktisaintek.go.id/affiliations/profile/"
  +:+ str sinta_id +:+ "/?view=matricscluster2026".

(** [scrape_institution_data]: the value returned and the notices shown. *)
Definition scrape_institution_data (sinta_id nama klaster kode_pt : cell)
  : option institution * list notice :=
  let url := profile_url sinta_id in
  match requests_get url with
  | None => (None, [Caught nama None])
  | Some response =>
      if negb (status_code response =? 200)%Z then (None, [NoAccess url])
      else
        match parse_metrics_page (BeautifulSoup (text response)) with
        | Raised e => (None, [Caught nama (Some e)])
        | Ok None => (None, [NoMetrics nama])
        | Ok (Some metrics) =>
            (Some (mk_institution kode_pt nama klaster sinta_id metrics), [])
        end
  end.

(** The record gathered for a row of the frame, if any. *)
Definition scraped (row : csv_row) : option institution :=
  (scrape_institution_data (column_sinta_id_link row)
     (column_nama_institusi row) (column_klaster row) (column_kode_pt row)).1.

(** The effects of [perform_scraping], in the order they happen. *)
Inductive event : Type :=
| ProgressBar
| StatusScraping (nama sinta_id : cell) (position total : nat)
| Shown (n : notice)
| Progress (processed_count total_count : nat)
| Sleep (delay : pyval)
| WriteJson (filename : string) (results : list institution)
| StatusDone (filename : string).

Definition is_sleep (ev : event) : bool :=
  match ev with Sleep _ => true | _ => false end.

(** The calls of [time.sleep] among the effects. *)
Definition sleeps (lg : list event) : list event := List.filter is_sleep lg.

(** The variables of the loop of [perform_scraping]. *)
Record progress : Type := mk_progress {
  results : list institution;
  processed_count : nat;
  log : list event
}.

(** One iteration of [for idx, row in df.iterrows()] in
    [perform_scraping].  Nothing catches what [time.sleep(delay)]
    raises. *)
Definition scrape_row (total_count : nat) (delay : pyval) (p : progress)
    (row : csv_row) : outcome progress :=
  let sinta_id := column_sinta_id_link row in
  let nama := column_nama_institusi row in
  let klaster := column_klaster row in
  let kode_pt := column_kode_pt row in
  let log := log p ++ [StatusScraping nama sinta_id (processed_count p + 1) total_count] in
  let '(result, notices) := scrape_institution_data sinta_id nama klaster kode_pt in
  let log := log ++ map Shown notices in
  let results :=
    match result with
    | Some r => results p ++ [r]
    | None => results p
    end in
  let processed_count := processed_count p + 1 in
  let log := log ++ [Progress processed_count total_count] in
  if (processed_count <? total_count)%nat then
    _ ← time_sleep delay;
    Ok (mk_progress results processed_count (log ++ [Sleep delay]))
  else Ok (mk_progress results processed_count log).

(** [perform_scraping]: the pair returned and the effects; [None] when
    the call raises, in [pd.read_csv], in [time.sleep] or in the writing
    of the file. *)
Definition perform_scraping (csv_input : string) (delay : pyval)
  : option (string * list institution * list event) :=
  df ← read_csv csv_input;
  let total_count := length df in
  match for_each (scrape_row total_count delay)
          df (mk_progress [] 0 [ProgressBar]) with
  | Raised _ => None
  | Ok p =>
      let output_filename :=
        "sinta_metrics_cluster_" +:+ timestamp +:+ ".json" in
      if writes output_filename (results p) then
        Some (output_filename, results p,
              log p ++ [WriteJson output_filename (results p);
                        StatusDone output_filename])
      else None
  end.

(** *** The script of src/new_scraping.py *)

Definition CSV_INPUT : string := "hasil_sinta_metric.csv".
Definition OUTPUT_JSON : string := "sinta_metrics_cluster_full.json".
Definition DELAY : pyval := PInt 1.

(** What the script prints and does. *)
Inductive output : Type :=
| PrintScraping (position total : nat) (nama sinta_id : cell)
| PrintNoAccess (url : string)
| PrintNoMetrics
| PrintError (e : option exn)
| TimeSleep (delay : pyval)
| DumpJson (filename : string) (results : list institution)
| PrintDone (filename : string).

Definition is_time_sleep (o : output) : bool :=
  match o with TimeSleep _ => true | _ => false end.

Definition time_sleeps (out : list output) : list output :=
  List.filter is_time_sleep out.

(** One iteration of the script's loop, for the row at index [idx].
    [time.sleep(DELAY)] is a sleep of one second. *)
Definition script_row (total : nat)
    (s : list institution * list output) (indexed : nat * csv_row)
  : list institution * list output :=
  let '(results, out) := s in
  let '(idx, row) := indexed in
  let sinta_id := column_sinta_id_link row in
  let nama := column_nama_institusi row in
  let klaster := column_klaster row in
  let out := out ++ [PrintScraping (idx + 1) total nama sinta_id] in
  let url := profile_url sinta_id in
  match requests_get url with
  | None => (results, out ++ [PrintError None])
  | Some response =>
      if negb (status_code response =? 200)%Z
      then (results, out ++ [PrintNoAccess url])
      else
        match parse_metrics_page (BeautifulSoup (text response)) with
        | Raised e => (results, out ++ [PrintError (Some e)])
        | Ok None => (results, out ++ [PrintNoMetrics])
        | Ok (Some metrics) =>
            (results ++ [mk_institution (column_kode_pt row) nama klaster
                           sinta_id metrics],
             out ++ [TimeSleep DELAY])
        end
  end.

(** The script: the list dumped and the output; [None] when
    [pd.read_csv] or the writing of the file raises. *)
Definition script : option (list institution * list output) :=
  df ← read_csv CSV_INPUT;
  let '(results, out) :=
    foldl (script_row (length df)) ([], []) (imap (fun idx row => (idx, row)) df) in
  if writes OUTPUT_JSON results then
    Some (results, out ++ [DumpJson OUTPUT_JSON results; PrintDone OUTPUT_JSON])
  else None.

End Environment.

End Fetch.

(** A small environment to run the loops in: three institutions, of
    which the first has a page with a metrics table, the second answers
    404 and the third cannot be reached. *)

Module FetchSamples.
Import Soup Scraper Samples Fetch.

Definition str (c : string) : string := c.

Definition requests_get (url : string) : option response :=
  if String.eqb url (profile_url string str "101")
  then Some (mk_response 200 "<table class='table'>...</table>")
  else if String.eqb url (profile_url string str "102")
  then Some (mk_response 404 "")
  else None.

Definition BeautifulSoup (html : string) : node :=
  if String.eqb html "" then page_without_table else grand_total_page.

Definition frame : list (csv_row string) :=
  [ mk_csv_row string "001001" "Universitas A" "101" "Mandiri";
    mk_csv_row string "001002" "Universitas B" "102" "Utama";
    mk_csv_row string "001003" "Universitas C" "103" "Madya" ].

Definition read_csv (path : string) : option (list (csv_row string)) :=
  Some frame.

Definition writes (filename : string) (results : list (institution string))
  : bool := true.

Definition timestamp : string := "20260101_120000".

(** A platform on which every delay that is not negative is slept. *)
Definition time_sleep (secs : pyval) : outcome unit :=
  match secs with
  | PInt n => if (n <? 0)%Z then Raised ValueError else Ok ()
  | PBool _ => Ok ()
  | PFloat S754_nan => Raised ValueError
  | PFloat f => if PyFloat.ltb f PyFloat.zero then Raised ValueError else Ok ()
  | PNone | PStr _ | PList _ | PDict _ => Raised TypeError
  end.

End FetchSamples.

(** ** More of [SintaDataManager] and its module-level callers *)

Module Manager.
Import DataManager.

#[local] Open Scope list_scope.

(** What the second loop of [validate_data] records for a stored value
    that [float()] does not overflow on: nothing when it converts to a
    float that is not below zero. *)
Definition check (key : string) (value : pyval) : option issue :=
  match float value with
  | Ok f =>
      if PyFloat.ltb f PyFloat.zero
      then Some (MustBeNonNegative key value) else None
  | Raised _ => Some (MustBeNumeric key value)
  end.

(** The entry of the mapping of [validate_data] under a key: the check of
    the stored value, or the missing field when the key is a default
    field that the store lacks. *)
Definition expected_issue (st : session) (key : string) : option issue :=
  match SINTA_DB st !! key with
  | Some value => check key value
  | None =>
      match default_values st !! key with
      | Some _ => Some (MissingField key)
      | None => None
      end
  end.

(** The exception the second loop of [validate_data] raises at a stored
    value, if it raises there: [OverflowError] for an integer beyond the
    largest float, which [except (ValueError, TypeError)] lets through,
    and [ValueError] for a value [float()] rejects and [str()] cannot
    write, raised in the [except] clause by the text of the issue. *)
Definition refusal (value : pyval) : option exn :=
  match float value with
  | Raised OverflowError => Some OverflowError
  | _ => if str_raises value then Some ValueError else None
  end.

(** [validate_sinta_data]: the boolean returned and the errors shown,
    one line per entry of the mapping after a heading line (nothing is
    shown for an empty mapping). *)
Definition validate_sinta_data (st : session)
  : outcome (bool * gmap string issue) :=
  errors ← validate_data st;
  if Nat.eqb (size errors) 0 then Ok (true, ∅) else Ok (false, errors).

(** The dictionary of [get_data_summary]. *)
Record summary : Set := mk_summary {
  total_fields : nat;
  non_zero_fields : nat;
  last_modified : string;
  total_value : spec_float
}.

(** [len([k for k, v in data.items() if float(v) > 0])]: nothing catches
    what [float(v)] raises.  When several values make it raise, which
    exception comes out depends on the order of the items; the statements
    about it do not. *)
Definition count_non_zero (data : gmap string pyval) : outcome nat :=
  ks ← for_each
         (fun (ks : list string) '(k, v) =>
            f ← float v;
            Ok (if PyFloat.ltb PyFloat.zero f then ks ++ [k] else ks))
         (map_to_list data) [];
  Ok (length ks).

(** [get_data_summary].  The entries are evaluated in the order of the
    dictionary display.  The last two are taken from outside:
    [datetime.now().isoformat()], and the sum under ['total_value'], whose
    filter formats floats with [str()]. *)
Definition get_data_summary (now : string)
    (sum_of_digit_values : gmap string pyval → outcome spec_float)
    (st : session) : outcome summary :=
  let data := SINTA_DB st in
  let fields := size data in
  non_zero ← count_non_zero data;
  total ← sum_of_digit_values data;
  Ok (mk_summary fields non_zero now total).

(** The sessions a run of the manager reaches from a fresh start when
    the store is written through [set_value] and [reset_data] only.  A
    call of [set_value] counts whether it returns or raises. *)
Inductive written : session → Prop :=
| written_fresh :
    written (_ensure_session_state (mk_session_state None None))
| written_set st key value :
    written st → written (set_value_state st key value).1
| written_reset st :
    written st → written (reset_data st).

(** [st.session_state] as the next run of [_ensure_session_state] finds
    it. *)
Definition stored (st : session) : session_state :=
  mk_session_state (Some (SINTA_DB st)) (Some (default_values st)).

End Manager.

(** ** The store as a shared object

    [DataManager] passes dictionaries by value.  In the source the store
    is one dictionary object that [set_value] and [load_from_file] change
    in place, [reset_data], [get_all_values] and [backup_current_state]
    make copies ([.copy()]), and [restore_from_backup] binds the store to
    the very object it is given.  Here dictionaries live in a heap and
    the session holds references, so that what a caller still holds,
    such as a backup, is part of the model. *)

Module Shared.
Import DataManager.

#[local] Open Scope list_scope.

(** The dictionary objects, by address. *)
Abbreviation heap := (gmap nat (gmap string pyval)).

(** [st.session_state]: the objects under ["SINTA_DB"] and
    ["default_values"], and the heap they live in. *)
Record world : Type := mk_world {
  objects : heap;
  db : nat;
  defaults : nat
}.

(** The content of an object. *)
Definition deref (h : heap) (l : nat) : gmap string pyval :=
  default ∅ (h !! l).

(** A new object with the given content, as [d.copy()] creates. *)
Definition alloc (d : gmap string pyval) (h : heap) : nat * heap :=
  let l := fresh (dom h) in (l, <[l := d]> h).


(** The world after [_ensure_session_state] in a fresh session: the
    default table, and its copy as the store. *)
Definition start : world :=
  mk_world {[ 0 := canonical_defaults; 1 := canonical_defaults ]} 1 0.

(** [st.session_state["SINTA_DB"][key] = v] *)
Definition setitem (w : world) (key : string) (v : pyval) : world :=
  mk_world
    (<[db w := <[key := v]> (deref (objects w) (db w))]> (objects w))
    (db w) (defaults w).

(** [get_value] *)
Definition get_value (w : world) (key : string) (dflt : pyval)
  : outcome spec_float :=
  try_except (float (default dflt (deref (objects w) (db w) !! key)))
    value_or_type_error
    (float dflt).

(** [set_value] as it acts on the world: the store object is written
    in place before the text of the warning is built. *)
Definition set_value_state (w : world) (key : string) (value : pyval)
  : world * outcome (list message) :=
  match float value with
  | Ok numeric_value => (setitem w key (PFloat numeric_value), Ok [])
  | Raised e =>
      if value_or_type_error e then
        (setitem w key value,
         _ ← format value; Ok [NotNumericWarning key value])
      else (w, Raised e)
  end.

(** [set_value], for a call that returns. *)
Definition set_value (w : world) (key : string) (value : pyval)
  : outcome (world * list message) :=
  let '(w', result) := set_value_state w key value in
  shown ← result; Ok (w', shown).

(** [get_all_values]: the address of the copy returned. *)
Definition get_all_values (w : world) : nat * world :=
  let '(l, h) := alloc (deref (objects w) (db w)) (objects w) in
  (l, mk_world h (db w) (defaults w)).

(** [reset_data] *)
Definition reset_data (w : world) : world :=
  let '(l, h) := alloc (deref (objects w) (defaults w)) (objects w) in
  mk_world h l (defaults w).

(** [load_from_file] *)
Definition load_from_file (fs : string → file) (w : world)
    (filename : string) : world * bool * list message :=
  match fs filename with
  | Missing => (w, false, [FileNotFoundMessage filename])
  | Unreadable => (w, false, [LoadError])
  | JsonObject loaded_data =>
      (mk_world
         (<[db w := loaded_data ∪ deref (objects w) (db w)]> (objects w))
         (db w) (defaults w),
       true, [])
  | JsonPairs pairs finished =>
      (mk_world
         (<[db w := update_pairs pairs (deref (objects w) (db w))]> (objects w))
         (db w) (defaults w),
       finished, if finished then [] else [LoadError])
  end.

(** [backup_current_state]: the address of the backup returned. *)
Definition backup_current_state (w : world) : nat * world :=
  let '(l, h) := alloc (deref (objects w) (db w)) (objects w) in
  (l, mk_world h (db w) (defaults w)).

(** [restore_from_backup] *)
Definition restore_from_backup (w : world) (backup_data : nat) : world :=
  mk_world (objects w) backup_data (defaults w).


End Shared.

(** * Properties of [parse_metrics_page] *)

Open Scope list_scope.

Section TreeSearch.
Import Soup.

Lemma find_Some (p : node → bool) (n x : node) :
  find p n = Some x → In x (descendants n) ∧ p x = true.
Proof.
  unfold find, find_all. intros H.
  destruct (List.filter p (descendants n)) as [|y l] eqn:E; simplify_eq/=.
  apply filter_In. rewrite E. now left.
Qed.

Lemma find_None (p : node → bool) (n : node) :
  find p n = None ↔ ∀ x, In x (descendants n) → p x = false.
Proof.
  unfold find, find_all. split.
  - intros H x Hx. destruct (p x) eqn:Hp; [|done].
    assert (Hin : In x (List.filter p (descendants n))) by now apply filter_In.
    destruct (List.filter p (descendants n)); [destruct Hin | discriminate].
  - intros H. destruct (List.filter p (descendants n)) as [|y l] eqn:E; [done|].
    assert (Hin : In y (List.filter p (descendants n))) by (rewrite E; now left).
    apply filter_In in Hin as [Hy Hp]. rewrite (H y Hy) in Hp. discriminate.
Qed.

(** Whatever [find] returns for a filter that implies [q] is among the
    results of [find_all q], which is therefore not empty. *)
Lemma find_all_last (p q : node → bool) (n x : node) :
  (∀ y, p y = true → q y = true) →
  find p n = Some x → ∃ y, last (find_all q n) = Some y.
Proof.
  intros Hpq [Hin Hp]%find_Some.
  assert (Hq : In x (find_all q n)) by (apply filter_In; auto).
  destruct (find_all q n) as [|z l] eqn:E using rev_ind; [destruct Hq|].
  exists z. apply last_snoc.
Qed.

End TreeSearch.

Section Dict.
Import Scraper.

Lemma dict_get_set_eq k v d : dict_get k (dict_set k v d) = Some v.
Proof.
  induction d as [|[k' v'] d IH]; simpl.
  - now rewrite String.eqb_refl.
  - destruct (String.eqb k' k) eqn:E; simpl.
    + now rewrite String.eqb_refl.
    + now rewrite E.
Qed.

Lemma dict_get_set_ne k k' v d :
  k ≠ k' → dict_get k' (dict_set k v d) = dict_get k' d.
Proof.
  intros Hne. induction d as [|[k0 v0] d IH]; simpl.
  - now apply String.eqb_neq in Hne as ->.
  - destruct (String.eqb k0 k) eqn:E; simpl.
    + apply String.eqb_eq in E as ->.
      now apply String.eqb_neq in Hne as ->.
    + now rewrite IH.
Qed.

Lemma dict_set_set k v w d : dict_set k w (dict_set k v d) = dict_set k w d.
Proof.
  induction d as [|[k' v'] d IH]; simpl.
  - now rewrite String.eqb_refl.
  - destruct (String.eqb k' k) eqn:E; simpl.
    + now rewrite String.eqb_refl.
    + now rewrite E, IH.
Qed.

Lemma dict_set_id k v d : dict_get k d = Some v → dict_set k v d = d.
Proof.
  induction d as [|[k' v'] d IH]; simpl; [done|].
  destruct (String.eqb k' k) eqn:E.
  - apply String.eqb_eq in E. now intros [= ->]; subst.
  - intros H. now rewrite IH.
Qed.

Lemma dict_get_None_keys k d : dict_get k d = None ↔ k ∉ keys d.
Proof.
  unfold keys. induction d as [|[k' v'] d IH]; simpl.
  - split; [intros _; apply not_elem_of_nil | done].
  - rewrite not_elem_of_cons.
    destruct (String.eqb k' k) eqn:E.
    + apply String.eqb_eq in E as ->. split; [done | now intros [? _]].
    + apply String.eqb_neq in E. rewrite IH.
      split; [intros ?; split; [by intros -> | done] | by intros [_ ?]].
Qed.

Lemma keys_dict_set k v d :
  keys (dict_set k v d) =
  if dict_get k d is Some _ then keys d else keys d ++ [k].
Proof.
  unfold keys. induction d as [|[k' v'] d IH]; simpl; [done|].
  destruct (String.eqb k' k) eqn:E; simpl.
  - now apply String.eqb_eq in E as ->.
  - rewrite IH. now destruct (dict_get k d).
Qed.

(** One binding per key is kept by assignment. *)
Lemma dict_set_NoDup k v d : NoDup (keys d) → NoDup (keys (dict_set k v d)).
Proof.
  intros Hd. rewrite keys_dict_set.
  destruct (dict_get k d) eqn:E; [done|].
  apply NoDup_app. split_and!; [done | | apply NoDup_singleton].
  intros x Hx ->%list_elem_of_singleton. now apply dict_get_None_keys in E.
Qed.

Lemma setdefault_append_NoDup key e d d' :
  setdefault_append key e d = Ok d' → NoDup (keys d) → NoDup (keys d').
Proof.
  unfold setdefault_append.
  destruct (dict_get key d) as [[l|s]|]; intros; simplify_eq;
    now apply dict_set_NoDup.
Qed.

Lemma getitem_append_NoDup key e d d' :
  getitem_append key e d = Ok d' → NoDup (keys d) → NoDup (keys d').
Proof.
  unfold getitem_append.
  destruct (dict_get key d) as [[l|s]|]; intros; simplify_eq;
    now apply dict_set_NoDup.
Qed.

End Dict.

Section Rows.
Import Soup Scraper.

Lemma bind_Ok {A B} (a : A) (k : A → outcome B) : Ok a ≫= k = k a.
Proof. reflexivity. Qed.

Lemma for_each_app {S X} (body : S → X → outcome S) (xs ys : list X) (s : S) :
  for_each body (xs ++ ys) s = s' ← for_each body xs s; for_each body ys s'.
Proof.
  revert s. induction xs as [|x xs IH]; intros s; simpl; [done|].
  destruct (body s x); simpl; [apply IH | done].
Qed.

(** A row that every earlier block lets through is handled by the
    detail block. *)
Lemma process_row_detail st row :
  reaches_detail row = true → process_row st row = detail_step st row.
Proof.
  unfold reaches_detail, skips_header, skips_total_all, skips_subtotal.
  intros [[H1 H2]%andb_prop H3]%andb_prop.
  unfold process_row, total_all_step, subtotal_step.
  destruct (header_cell row); [rewrite H1; simpl|];
    (destruct (total_all_cell row);
       [apply negb_true_iff in H2; rewrite H2|]);
    now destruct (italic_cell row).
Qed.

(** A row with a section caption opens that section with an empty list. *)
Lemma process_row_section st row c :
  section_caption row = Some c →
  process_row st row = Ok (mk_pstate (dict_set c (SList []) (sections st)) (Some c)).
Proof.
  unfold section_caption, process_row.
  destruct (header_cell row) as [h|]; [|done].
  destruct (negb (PyStr.contains "Total" (get_text h))); simpl; [|done].
  destruct (PyStr.contains "Score in" (get_text_strip h)); [|done].
  now intros [= ->].
Qed.

Lemma section_caption_nonempty row c : section_caption row = Some c → c ≠ "".
Proof.
  unfold section_caption. destruct (header_cell row) as [h|]; [|done].
  destruct (negb _); simpl; [|done].
  destruct (PyStr.contains "Score in" (get_text_strip h)) eqn:E; [|done].
  intros [= <-] Hc. now rewrite Hc in E.
Qed.

(** The detail block on a row of six or more cells, in an open section
    whose value is a list: the entry read is appended. *)
Lemma detail_step_appends st row e cur l :
  detail_test (cols row) = true →
  read_detail (cols row) = Ok e →
  current_section st = Some cur → cur ≠ "" →
  dict_get cur (sections st) = Some (SList l) →
  detail_step st row
  = Ok (mk_pstate (dict_set cur (SList (l ++ [e])) (sections st)) (Some cur)).
Proof.
  intros Ht Hr Hc Hne Hg. unfold detail_step. rewrite Ht, Hr, Hc. simpl.
  destruct cur as [|a cur]; [done|].
  unfold getitem_append. now rewrite Hg.
Qed.

(** A run of detail rows in an open section appends their entries, in
    the order of the rows. *)
Lemma detail_rows_append rows es : ∀ st cur l,
  Forall2 reads rows es →
  current_section st = Some cur → cur ≠ "" →
  dict_get cur (sections st) = Some (SList l) →
  for_each process_row rows st
  = Ok (mk_pstate (dict_set cur (SList (l ++ es)) (sections st)) (Some cur)).
Proof.
  intros st cur l H. revert st l.
  induction H as [|row e rows es (Hd & Ht & Hr) _ IH]; intros st l Hc Hne Hg; simpl.
  - rewrite app_nil_r, dict_set_id by done. destruct st; simpl in *. now subst.
  - rewrite process_row_detail, (detail_step_appends _ _ e cur l) by done. simpl.
    rewrite (IH _ (l ++ [e])); simpl; [|done..|apply dict_get_set_eq].
    now rewrite dict_set_set, <- app_assoc.
Qed.

(** Every step keeps one binding per key. *)
Lemma process_row_NoDup st row st' :
  process_row st row = Ok st' →
  NoDup (keys (sections st)) → NoDup (keys (sections st')).
Proof.
  unfold process_row, total_all_step, subtotal_step, detail_step.
  intros H Hd.
  repeat match type of H with
  | Ok _ = Ok _ => simplify_eq; simpl; try done; try by apply dict_set_NoDup
  | Raised _ = Ok _ => discriminate
  | context [match ?x with _ => _ end] =>
      let E := fresh "E" in destruct x eqn:E; simpl in H
  | context [mbind _ ?x] =>
      let E := fresh "E" in destruct x eqn:E; simpl in H
  | context [if ?x then _ else _] =>
      let E := fresh "E" in destruct x eqn:E; simpl in H
  end;
  eauto using setdefault_append_NoDup, getitem_append_NoDup.
Qed.

Lemma for_each_process_row_NoDup rows : ∀ st st',
  for_each process_row rows st = Ok st' →
  NoDup (keys (sections st)) → NoDup (keys (sections st')).
Proof.
  induction rows as [|row rows IH]; intros st st' H Hd; simpl in H.
  - now simplify_eq.
  - destruct (process_row st row) as [st1|] eqn:E; simpl in H; [|done].
    eapply IH; [done|]. eauto using process_row_NoDup.
Qed.

Lemma dict_set_list_keeps k x d cur :
  (∃ l, dict_get cur d = Some (SList l)) →
  ∃ l, dict_get cur (dict_set k (SList x) d) = Some (SList l).
Proof.
  intros Hl. destruct (String.eqb_spec k cur) as [->|Hne].
  - rewrite dict_get_set_eq. eauto.
  - now rewrite dict_get_set_ne.
Qed.

Lemma append_keeps_lists key e d d' cur :
  setdefault_append key e d = Ok d' ∨ getitem_append key e d = Ok d' →
  (∃ l, dict_get cur d = Some (SList l)) →
  ∃ l, dict_get cur d' = Some (SList l).
Proof.
  unfold setdefault_append, getitem_append.
  intros [H|H] Hl; destruct (dict_get key d) as [[l|s]|];
    simplify_eq; now apply dict_set_list_keeps.
Qed.

(** Replacing [sections] keeps the invariant when the captions with
    "Score in" that had a list still have one. *)
Lemma invariant_update st d :
  section_invariant st →
  (∀ cur, PyStr.contains "Score in" cur = true →
          (∃ l, dict_get cur (sections st) = Some (SList l)) →
          ∃ l, dict_get cur d = Some (SList l)) →
  section_invariant (mk_pstate d (current_section st)).
Proof.
  unfold section_invariant. cbn [current_section sections].
  destruct (current_section st) as [cur|]; [|done].
  intros [Hc Hl] Hd. eauto.
Qed.

Lemma detail_step_invariant st row st' :
  detail_step st row = Ok st' → section_invariant st → section_invariant st'.
Proof.
  unfold detail_step. intros H Hinv.
  destruct (detail_test (cols row)); [|by simplify_eq].
  destruct (read_detail (cols row)) as [e|]; [|done].
  rewrite bind_Ok in H.
  destruct (current_section st) as [[|a cur]|] eqn:Hc; try by simplify_eq.
  destruct (getitem_append _ e (sections st)) as [d|] eqn:Hd; [|done].
  rewrite bind_Ok in H. simplify_eq. rewrite <- Hc.
  apply invariant_update; [done|]. eauto using append_keeps_lists.
Qed.

Lemma subtotal_step_invariant st row st' :
  subtotal_step st row = Ok st' → section_invariant st → section_invariant st'.
Proof.
  unfold subtotal_step. intros H Hinv.
  destruct (italic_cell row) as [cell|]; [|eauto using detail_step_invariant].
  destruct (PyStr.contains "Total Score" _); [|by simplify_eq].
  destruct (last_th row) as [th|]; [|done]. rewrite bind_Ok in H.
  destruct (subtotal_key (current_section st)) as [key|]; [|done].
  rewrite bind_Ok in H.
  destruct (setdefault_append key _ (sections st)) as [d|] eqn:Hd; [|done].
  rewrite bind_Ok in H. simplify_eq.
  apply invariant_update; [done|]. eauto using append_keeps_lists.
Qed.

Lemma total_all_step_invariant st row st' :
  total_all_step st row = Ok st' → section_invariant st → section_invariant st'.
Proof.
  unfold total_all_step. intros H Hinv.
  destruct (total_all_cell row) as [cell|];
    [|eauto using subtotal_step_invariant].
  destruct (PyStr.contains "TOTAL ALL SCORE" _);
    [|eauto using subtotal_step_invariant].
  destruct (last_th row) as [th|]; [|done]. rewrite bind_Ok in H.
  simplify_eq. apply invariant_update; [done|].
  intros cur Hc Hl. rewrite dict_get_set_ne; [done|].
  intros <-. discriminate Hc.
Qed.

(** Every iteration that does not raise keeps [section_invariant]. *)
Lemma process_row_invariant st row st' :
  process_row st row = Ok st' → section_invariant st → section_invariant st'.
Proof.
  unfold process_row. intros H Hinv.
  destruct (header_cell row) as [header|];
    [|eauto using total_all_step_invariant].
  destruct (negb _); [|eauto using total_all_step_invariant].
  cbv zeta in H.
  destruct (PyStr.contains "Score in" (get_text_strip header)) eqn:Hs;
    simplify_eq; [|done].
  unfold section_invariant. cbn [current_section sections].
  rewrite dict_get_set_eq. eauto.
Qed.

Lemma for_each_process_row_invariant rows : ∀ st st',
  for_each process_row rows st = Ok st' →
  section_invariant st → section_invariant st'.
Proof.
  induction rows as [|row rows IH]; intros st st' H Hinv; simpl in H.
  - now simplify_eq.
  - destruct (process_row st row) as [st1|] eqn:E; simpl in H; [|done].
    eapply IH; [done|]. eauto using process_row_invariant.
Qed.

(** The invariant holds of every state the loop reaches. *)
Lemma reached_state_invariant rows st :
  for_each process_row rows initial = Ok st → section_invariant st.
Proof.
  intros H. now apply (for_each_process_row_invariant rows initial st H).
Qed.

End Rows.

Section DetailRows.
Import Soup Scraper Samples.

(** With six cells or more the five reads succeed. *)
Lemma read_detail_six (cols : list node) :
  (6 ≤ length cols)%nat → ∃ e, read_detail cols = Ok e.
Proof.
  destruct cols as [|c0 [|c1 [|c2 [|c3 [|c4 [|c5 more]]]]]]; simpl; try lia.
  intros _. eexists. reflexivity.
Qed.

(** C1 (defect of the code).  A row that reaches the detail block with
    exactly five header-or-data cells, the first of them carrying the
    left-border style, passes the test [len(cols) >= 5]; the block then
    reads [cols[5]], which does not exist, and the row raises
    [IndexError] instead of being read. *)
Theorem detail_row_with_five_cells_raises (st : pstate) (row c0 : node) :
  reaches_detail row = true →
  length (cols row) = 5 →
  cols row !! 0 = Some c0 →
  first_cell_styled c0 = true →
  process_row st row = Raised IndexError.
Proof.
  intros Hd Hlen H0 Hs. rewrite process_row_detail by done.
  unfold detail_step, detail_test. rewrite Hlen, H0, Hs. simpl.
  destruct (cols row) as [|x0 [|x1 [|x2 [|x3 [|x4 [|x5 more]]]]]];
    simplify_eq/=; done.
Qed.

Lemma detail_row_with_five_cells_raises_witness :
  let row := five_cell_row "AI1" "Q1 articles" "40" "1,5" "60,0" in
  reaches_detail row = true
  ∧ length (cols row) = 5
  ∧ process_row open_state row = Raised IndexError.
Proof.
  intros row. split_and!; [reflexivity | reflexivity |].
  apply (detail_row_with_five_cells_raises open_state row
           (cell "td" left_border "AI1")); reflexivity.
Defined.

(** The same on a whole page: the exception ends the parse. *)
Lemma five_cell_page_raises :
  parse_metrics_page five_cell_page = Raised IndexError.
Proof. reflexivity. Qed.

End DetailRows.

Section RepeatedCaption.
Import Soup Scraper Samples.

(** C2, as the claim states it, fails: on a page with the same caption
    twice, the row read under the first header is not in the list of the
    result. *)
Lemma repeated_caption_drops_earlier_rows :
  parse_metrics_page repeated_caption_page
  = Ok (Some [(publication,
               SList [ScoreRow "AI2" "Q2 articles" "30" "2.5" "75.0"])])
  ∧ ¬ ∃ d l,
        parse_metrics_page repeated_caption_page = Ok (Some d)
        ∧ dict_get publication d = Some (SList l)
        ∧ In (ScoreRow "AI1" "Q1 articles" "40" "1.5" "60.0") l.
Proof.
  split; [reflexivity|].
  intros (d & l & Hd & Hl & Hin).
  vm_compute in Hd. simplify_eq. vm_compute in Hl. simplify_eq.
  destruct Hin as [|[]]. discriminate.
Qed.

End RepeatedCaption.

Section Subtotals.
Import Soup Scraper Samples.

Lemma process_row_subtotal st row :
  skips_header row = true → skips_total_all row = true →
  process_row st row = subtotal_step st row.
Proof.
  unfold skips_header, skips_total_all, process_row, total_all_step.
  intros H1 H2.
  destruct (header_cell row); [rewrite H1; simpl|];
    (destruct (total_all_cell row);
       [apply negb_true_iff in H2; now rewrite H2 | done]).
Qed.

(** A row with a heading cell has a last heading cell. *)
Lemma last_th_found (p : node → bool) (row x : node) :
  find (fun n => has_name ["th"] n && p n) row = Some x →
  ∃ th, last_th row = Ok th.
Proof.
  intros H. unfold last_th.
  destruct (find_all_last (fun n => has_name ["th"] n && p n)
              (has_name ["th"]) row x) as [th ->]; eauto.
  now intros y [? _]%andb_prop.
Qed.

(** C3 (defect of the code).  A subtotal row met while no section is
    open makes the parser evaluate [None + ' (subtotal)'], which raises
    [TypeError]: no entry is stored under any key, and the parse ends
    with the exception. *)
Theorem subtotal_before_any_section_raises (st : pstate) (row cell : node) :
  skips_header row = true →
  skips_total_all row = true →
  italic_cell row = Some cell →
  PyStr.contains "Total Score" (get_text_strip cell) = true →
  current_section st = None →
  process_row st row = Raised TypeError.
Proof.
  intros H1 H2 Hi Ht Hc. rewrite process_row_subtotal by done.
  unfold subtotal_step. rewrite Hi, Ht.
  destruct (last_th_found _ row cell Hi) as [th ->].
  now rewrite Hc.
Qed.

Lemma subtotal_before_any_section_raises_witness :
  let row := subtotal_row "Total Score Publication" "12,5" in
  current_section initial = None
  ∧ process_row initial row = Raised TypeError.
Proof.
  intros row. split; [reflexivity|].
  apply (subtotal_before_any_section_raises initial row
           (cell "th" [("colspan", AStr "5"); ("style", AStr "font-style: italic;")]
              "Total Score Publication")); reflexivity.
Defined.

(** The same on a whole page. *)
Lemma early_subtotal_page_raises :
  parse_metrics_page early_subtotal_page = Raised TypeError.
Proof. reflexivity. Qed.

(** Once a section is open the subtotal is stored under the caption
    followed by [" (subtotal)"]. *)
Lemma subtotal_in_open_section (st : pstate) (row cell : node) (cur : string) :
  skips_header row = true →
  skips_total_all row = true →
  italic_cell row = Some cell →
  PyStr.contains "Total Score" (get_text_strip cell) = true →
  current_section st = Some cur →
  dict_get (cur +:+ " (subtotal)") (sections st) = None →
  ∃ th, last_th row = Ok th
    ∧ process_row st row
      = Ok (mk_pstate
              (dict_set (cur +:+ " (subtotal)")
                 (SList [SubtotalEntry (get_text_strip cell) (get_text_strip th)])
                 (sections st))
              (Some cur)).
Proof.
  intros H1 H2 Hi Ht Hc Hg. rewrite process_row_subtotal by done.
  unfold subtotal_step. rewrite Hi, Ht.
  destruct (last_th_found _ row cell Hi) as [th Hth]. exists th.
  rewrite Hth, Hc. simpl. unfold setdefault_append. now rewrite Hg.
Qed.

End Subtotals.

Section Classification.
Import Soup Scraper Samples.

(** C4, as the code has it.  A row with a multi-column, left-border-styled
    heading cell whose text has neither "Total" nor "Score in" is
    consumed by the section-header block: the [continue] of that block
    ends the iteration, the state is unchanged, and the later blocks do
    not see the row. *)
Theorem heading_without_score_in_is_skipped (st : pstate) (row header : node) :
  header_cell row = Some header →
  PyStr.contains "Total" (get_text header) = false →
  PyStr.contains "Score in" (get_text_strip header) = false →
  process_row st row = Ok st.
Proof.
  intros Hh Ht Hs. unfold process_row. now rewrite Hh, Ht, Hs.
Qed.

Lemma heading_without_score_in_is_skipped_witness :
  header_cell odd_heading_row
  = Some (cell "th" (("colspan", AStr "2") :: left_border) "Summary")
  ∧ process_row open_state odd_heading_row = Ok open_state.
Proof.
  split; [reflexivity|].
  apply (heading_without_score_in_is_skipped open_state odd_heading_row
           (cell "th" (("colspan", AStr "2") :: left_border) "Summary"));
    reflexivity.
Defined.

(** C4, as the claim states it, fails.  [odd_heading_row] has such a
    heading cell, and the blocks after the section-header block would
    read it as a detail row; the parser leaves the state as it is. *)
Lemma odd_heading_row_is_not_retested :
  let header := cell "th" (("colspan", AStr "2") :: left_border) "Summary" in
  header_cell odd_heading_row = Some header
  ∧ PyStr.contains "Total" (get_text header) = false
  ∧ PyStr.contains "Score in" (get_text_strip header) = false
  ∧ section_caption odd_heading_row = None
  ∧ total_all_step open_state odd_heading_row
    = Ok (mk_pstate
            [(publication, SList [ScoreRow "AI9" "Other" "10" "3.5" "35.0"])]
            (Some publication))
  ∧ process_row open_state odd_heading_row = Ok open_state
  ∧ process_row open_state odd_heading_row
    ≠ total_all_step open_state odd_heading_row.
Proof. split_and!; try reflexivity. discriminate. Qed.

(** The first-match order of the blocks, for the rows an earlier block
    does not consume. *)
Lemma process_row_total_all st row :
  skips_header row = true → process_row st row = total_all_step st row.
Proof.
  unfold skips_header, process_row. intros H.
  destruct (header_cell row); [now rewrite H | done].
Qed.

End Classification.

Section DecimalComma.
Import Soup Scraper Samples.

(** [replace(',', '.')] character by character: a comma becomes a
    period, any other character stays. *)
Lemma comma_to_dot_get (s : string) (i : nat) :
  String.get i (comma_to_dot s)
  = (fun c : ascii => if Ascii.eqb c "," then "."%char else c) <$> String.get i s.
Proof.
  revert i. induction s as [|c s IH]; intros [|i]; simpl; [done..|apply IH].
Qed.

Lemma comma_to_dot_length (s : string) :
  String.length (comma_to_dot s) = String.length s.
Proof.
  unfold comma_to_dot. induction s as [|c s IH]; simpl; [done | now f_equal].
Qed.

Lemma prefix_char (a b : ascii) (s : string) :
  String.prefix (String a "") (String b s) = Ascii.eqb a b.
Proof.
  cbn [String.prefix]. destruct (ascii_dec a b) as [->|Hne].
  - rewrite Ascii.eqb_refl. now destruct s.
  - symmetry. now apply Ascii.eqb_neq.
Qed.

Lemma contains_char (a b : ascii) (s : string) :
  PyStr.contains (String a "") (String b s)
  = Ascii.eqb a b || PyStr.contains (String a "") s.
Proof.
  change (PyStr.contains (String a "") (String b s))
    with (if String.prefix (String a "") (String b s) then true
          else PyStr.contains (String a "") s).
  now rewrite prefix_char.
Qed.

(** No comma is left. *)
Lemma comma_to_dot_no_comma (s : string) :
  PyStr.contains "," (comma_to_dot s) = false.
Proof.
  unfold comma_to_dot. induction s as [|c s IH]; [done|].
  cbn [PyStr.replace_char]. rewrite contains_char, IH, orb_false_r.
  destruct (Ascii.eqb c ",") eqn:E; [done|].
  now rewrite Ascii.eqb_sym.
Qed.

(** The grand-total block stores the text of the row's last heading
    cell, stripped and otherwise as it is. *)
Lemma grand_total_stored_verbatim (st : pstate) (row cell : node) :
  skips_header row = true →
  total_all_cell row = Some cell →
  PyStr.contains "TOTAL ALL SCORE" (get_text cell) = true →
  ∃ th, last (find_all (has_name ["th"]) row) = Some th
    ∧ process_row st row
      = Ok (mk_pstate
              (dict_set "TOTAL ALL SCORE" (SStr (get_text_strip th)) (sections st))
              (current_section st)).
Proof.
  intros H1 Hc Ht. rewrite process_row_total_all by done.
  unfold total_all_step. rewrite Hc, Ht.
  destruct (last_th_found _ row cell Hc) as [th Hth]. exists th.
  rewrite Hth. split; [|done].
  unfold last_th in Hth. now destruct (last _); simplify_eq.
Qed.

Lemma score_in_nonempty (cur : string) :
  PyStr.contains "Score in" cur = true → cur ≠ "".
Proof. now intros H ->. Qed.

(** C6.  For a detail row with cells [c0 .. c5] met while a section is
    open, the stored [value] and [total] are the texts of [c4] and [c5]
    with each comma replaced by a period; for a grand-total row the
    string stored under ["TOTAL ALL SCORE"] is the text of the last
    heading cell with no replacement. *)
Theorem comma_normalization_is_asymmetric
    (st : pstate) (cur : string)
    (drow c0 c1 c2 c3 c4 c5 : node) (more : list node) (trow tcell : node) :
  section_invariant st →
  current_section st = Some cur →
  reaches_detail drow = true →
  cols drow = c0 :: c1 :: c2 :: c3 :: c4 :: c5 :: more →
  first_cell_styled c0 = true →
  skips_header trow = true →
  total_all_cell trow = Some tcell →
  PyStr.contains "TOTAL ALL SCORE" (get_text tcell) = true →
  let swap (c : ascii) := if Ascii.eqb c "," then "."%char else c in
  ∃ l value total th,
    dict_get cur (sections st) = Some (SList l)
    ∧ process_row st drow
      = Ok (mk_pstate
              (dict_set cur
                 (SList (l ++ [ScoreRow (get_text_strip c1) (get_text_strip c2)
                                 (get_text_strip c3) value total]))
                 (sections st))
              (Some cur))
    ∧ (∀ i, String.get i value = swap <$> String.get i (get_text_strip c4))
    ∧ (∀ i, String.get i total = swap <$> String.get i (get_text_strip c5))
    ∧ PyStr.contains "," value = false
    ∧ PyStr.contains "," total = false
    ∧ last (find_all (has_name ["th"]) trow) = Some th
    ∧ (∃ st', process_row st trow = Ok st'
         ∧ current_section st' = current_section st
         ∧ dict_get "TOTAL ALL SCORE" (sections st')
           = Some (SStr (get_text_strip th))).
Proof.
  intros Hinv Hc Hd Hcols Hs Ht1 Ht2 Ht3 swap.
  unfold section_invariant in Hinv. rewrite Hc in Hinv.
  destruct Hinv as [Hne%score_in_nonempty [l Hg]].
  destruct (grand_total_stored_verbatim st trow tcell Ht1 Ht2 Ht3)
    as (th & Hth & Hrow).
  exists l, (comma_to_dot (get_text_strip c4)),
    (comma_to_dot (get_text_strip c5)), th.
  split_and!; auto using comma_to_dot_get, comma_to_dot_no_comma;
    [|eexists; split_and!; [exact Hrow | done | apply dict_get_set_eq]].
  rewrite process_row_detail by done.
  apply detail_step_appends; try done.
  - unfold detail_test. rewrite Hcols. simpl. now rewrite Hs.
  - now rewrite Hcols.
Qed.

Lemma comma_normalization_is_asymmetric_witness :
  section_invariant open_state
  ∧ process_row open_state
      (detail_row "AI1" "Q1 articles" "40" "1,234" "49,36")
    = Ok (mk_pstate
            [(publication,
              SList [ScoreRow "AI1" "Q1 articles" "40" "1.234" "49.36"])]
            (Some publication))
  ∧ process_row open_state (grand_total_row "543,21")
    = Ok (mk_pstate
            [(publication, SList []); ("TOTAL ALL SCORE", SStr "543,21")]
            (Some publication)).
Proof.
  assert (Hinv : section_invariant open_state).
  { split; [reflexivity | eexists; reflexivity]. }
  destruct (comma_normalization_is_asymmetric open_state publication
              (detail_row "AI1" "Q1 articles" "40" "1,234" "49,36")
              (Tag "td" left_border []) (cell "td" [] "AI1")
              (cell "td" [] "Q1 articles") (cell "td" [] "40")
              (cell "td" [] "1,234") (cell "td" [] "49,36") []
              (grand_total_row "543,21")
              (cell "th" [("colspan", AStr "5"); ("style", AStr "color: #FF6B1A;")]
                 "TOTAL ALL SCORE"))
    as (l & value & total & th & Hl & Hrow & _ & _ & _ & _ & Hth & st' & Hst' & _);
    try reflexivity; [exact Hinv|].
  split; [exact Hinv|]. split; reflexivity.
Defined.

(** The two examples of the specification, on a whole page. *)
Lemma grand_total_page_result :
  parse_metrics_page grand_total_page
  = Ok (Some [(publication,
               SList [ScoreRow "AI1" "Q1 articles" "40" "1.234" "49.36"]);
              ("TOTAL ALL SCORE", SStr "543,21")]).
Proof. reflexivity. Qed.

End DecimalComma.

Section NoTable.
Import Soup Scraper Samples.

(** The filter [class_='table'] matches exactly the elements that list
    the class. *)
Lemma class_filter_spec (n : node) :
  attr_matches (equals "table") (get "class" n) = true ↔ carries_class "table" n.
Proof.
  unfold carries_class, attr_matches, equals.
  destruct (get "class" n) as [[s|l]|]; [apply String.eqb_eq | | done].
  rewrite orb_true_iff, existsb_exists. split.
  - intros [(s & Hin & ->%String.eqb_eq)|H]; [done|].
    apply String.eqb_eq in H.
    destruct l as [|s [|s' l]]; simpl in H; [done | left; done |].
    exfalso. clear -H.
    assert (Hsp : ∀ a b : string, a +:+ b = "table" → ¬ In " "%char (list_ascii_of_string b)).
    { intros a b Hab Hb.
      assert (In " "%char (list_ascii_of_string (a +:+ b))) as Hin.
      { clear Hab. induction a; simpl; auto. }
      rewrite Hab in Hin. simpl in Hin. intuition discriminate. }
    apply (Hsp _ _ H). simpl. now left.
  - intros Hin. left. exists "table". split; [done | apply String.eqb_refl].
Qed.

(** C9.  When no element below the root of the document is a [table]
    that lists the class [table], the parser returns [None], and raises
    nothing. *)
Theorem no_table_returns_none (soup : node) :
  (∀ n, In n (descendants soup) →
        has_name ["table"] n = true → ¬ carries_class "table" n) →
  parse_metrics_page soup = Ok None.
Proof.
  intros H. unfold parse_metrics_page.
  assert (find_table soup = None) as ->; [|done].
  apply find_None. intros x Hx.
  destruct (has_name ["table"] x) eqn:Hn; [|done]. simpl.
  apply not_true_is_false. intros Hc%class_filter_spec. exact (H x Hx Hn Hc).
Qed.

Lemma no_table_returns_none_witness :
  parse_metrics_page page_without_table = Ok None.
Proof.
  apply (no_table_returns_none page_without_table).
  intros n Hin Hn Hc. simpl in Hin.
  repeat (destruct Hin as [<-|Hin]; [try discriminate Hn|]); [|destruct Hin].
  unfold carries_class in Hc. simpl in Hc. destruct Hc as [Hc|[]].
  discriminate Hc.
Defined.

End NoTable.

(** * Properties of [SintaDataManager] *)

Section Store.
Import DataManager.

(** ** Reading and writing one value *)

(** The exceptions of [float()]. *)
Lemma float_raises (v : pyval) (e : exn) :
  float v = Raised e → e = ValueError ∨ e = TypeError ∨ e = OverflowError.
Proof.
  assert (Hint : ∀ n, PyFloat.of_int n = Raised e → e = OverflowError).
  { intros n. unfold PyFloat.of_int.
    destruct (binary_normalize _ _ _ _ _); congruence. }
  destruct v as [|b|n|f|s|l|l]; simpl; try (intros [= <-]; auto).
  - intros H%Hint. auto.
  - intros H%Hint. auto.
  - destruct (PyFloat.of_string s); intros [= <-]; auto.
Qed.

(** [get_value] with a float default returns a float unless the stored
    value is an integer too large for one. *)
Lemma get_value_outcome (st : session) (key : string) (d : spec_float) :
  (∃ f, get_value st key (PFloat d) = Ok f)
  ∨ (get_value st key (PFloat d) = Raised OverflowError
     ∧ ∃ v, SINTA_DB st !! key = Some v ∧ float v = Raised OverflowError).
Proof.
  unfold get_value. destruct (SINTA_DB st !! key) as [v|] eqn:E; simpl.
  - destruct (float v) as [f|e] eqn:Hf; simpl; [left; eauto|].
    destruct (float_raises v e Hf) as [->|[->| ->]]; simpl;
      [left; eauto | left; eauto | right; eauto].
  - left. now exists d.
Qed.

(** When the stored value is not numeric the default comes back. *)
Lemma get_value_falls_back (st : session) (key : string) (v : pyval)
    (e : exn) (d : spec_float) :
  SINTA_DB st !! key = Some v →
  float v = Raised e → value_or_type_error e = true →
  get_value st key (PFloat d) = Ok d.
Proof.
  intros Hv Hf He. unfold get_value. rewrite Hv. simpl. rewrite Hf. simpl.
  now rewrite He.
Qed.

(** [set_value] with a value [float()] rejects stores it as it is and
    warns. *)
Lemma set_value_raw (st : session) (key : string) (v : pyval) (e : exn) :
  float v = Raised e → value_or_type_error e = true →
  str_raises v = false →
  set_value st key v
  = Ok (mk_session (<[key := v]> (SINTA_DB st)) (default_values st),
        [NotNumericWarning key v]).
Proof.
  intros Hf He Hs. unfold set_value, set_value_state, format.
  now rewrite Hf, He, Hs.
Qed.

(** The example of the specification: after [set_value("AI1",
    "not-a-number")] the store holds the string, one warning was shown,
    and [get_value("AI1", 0.0)] is [0.0]. *)
Lemma set_then_get_not_a_number (st : session) :
  ∃ st',
    set_value st "AI1" (PStr "not-a-number")
    = Ok (st', [NotNumericWarning "AI1" (PStr "not-a-number")])
    ∧ SINTA_DB st' !! "AI1" = Some (PStr "not-a-number")
    ∧ get_value st' "AI1" (PFloat PyFloat.zero) = Ok PyFloat.zero.
Proof.
  eexists. split_and!.
  - now apply (set_value_raw st "AI1" (PStr "not-a-number") ValueError).
  - apply lookup_insert_eq.
  - eapply (get_value_falls_back _ _ (PStr "not-a-number") ValueError);
      [apply lookup_insert_eq | done..].
Qed.

(** C7 (defect of the code).  [get_value] catches [ValueError] and
    [TypeError] only.  A store loaded from a JSON file may hold an
    integer beyond the range of a float; [float()] then raises
    [OverflowError], which [get_value] lets through instead of returning
    the default. *)
Theorem get_value_raises_on_huge_int :
  let fs := fun _ : string => JsonObject {["AI1" := PInt (10 ^ 400)]} in
  let st0 := _ensure_session_state (mk_session_state None None) in
  let '(st, loaded, _) := load_from_file fs st0 "sinta_data.json" in
  loaded = true
  ∧ SINTA_DB st !! "AI1" = Some (PInt (10 ^ 400))
  ∧ get_value st "AI1" (PFloat PyFloat.zero) = Raised OverflowError.
Proof. vm_compute. done. Qed.

(** C10.  For a key that is not in the store and a float default,
    [get_value] returns the default, which is also what [float(default)],
    the value of the fallback path, is. *)
Theorem get_value_missing_key (st : session) (key : string) (d : spec_float) :
  SINTA_DB st !! key = None →
  get_value st key (PFloat d) = Ok d
  ∧ get_value st key (PFloat d) = float (PFloat d).
Proof.
  intros H. unfold get_value. now rewrite H.
Qed.

Lemma get_value_missing_key_witness :
  let st := _ensure_session_state (mk_session_state None None) in
  SINTA_DB st !! "XYZ1" = None
  ∧ get_value st "XYZ1" (PFloat PyFloat.zero) = Ok PyFloat.zero.
Proof.
  intros st. split; [reflexivity|].
  apply (get_value_missing_key st "XYZ1" PyFloat.zero). reflexivity.
Defined.

(** For any default, the result for a missing key is that of
    [float(default)], exception included. *)
Lemma get_value_missing_key_any (st : session) (key : string) (dflt : pyval) :
  SINTA_DB st !! key = None → get_value st key dflt = float dflt.
Proof.
  intros H. unfold get_value. rewrite H. simpl.
  destruct (float dflt) as [f|e]; simpl; [done|]. now destruct e.
Qed.

(** ** Backup, restore and loading *)

(** C5, as the code has it.  [restore_from_backup] makes the given data
    the store: nothing of the old store is kept.  The merge is what
    [load_from_file] does with the object read from the file: its keys
    overwrite or add, every other key keeps its value. *)
Theorem restore_replaces_and_load_merges
    (st : session) (data : gmap string pyval)
    (fs : string → file) (filename : string) (loaded_data : gmap string pyval) :
  fs filename = JsonObject loaded_data →
  SINTA_DB (restore_from_backup st data) = data
  ∧ ∃ st', load_from_file fs st filename = (st', true, [])
      ∧ ∀ key, SINTA_DB st' !! key
               = match loaded_data !! key with
                 | Some v => Some v
                 | None => SINTA_DB st !! key
                 end.
Proof.
  intros Hfs. split; [done|].
  unfold load_from_file. rewrite Hfs. eexists. split; [done|].
  intros key. simpl. rewrite lookup_union.
  now destruct (loaded_data !! key), (SINTA_DB st !! key).
Qed.

Lemma restore_replaces_and_load_merges_witness :
  let st := mk_session {["AI1" := lit "1.5"]} canonical_defaults in
  let data : gmap string pyval := {["AI2" := lit "2.0"]} in
  SINTA_DB (restore_from_backup st data) = data
  ∧ ∃ st', load_from_file (fun _ => JsonObject data) st "sinta_data.json"
           = (st', true, [])
      ∧ SINTA_DB st' !! "AI1" = Some (lit "1.5")
      ∧ SINTA_DB st' !! "AI2" = Some (lit "2.0").
Proof.
  intros st data.
  destruct (restore_replaces_and_load_merges st data
              (fun _ => JsonObject data) "sinta_data.json" data eq_refl)
    as [Hr (st' & Hl & Hm)].
  split; [exact Hr|]. exists st'. split; [exact Hl|].
  split; [rewrite (Hm "AI1") | rewrite (Hm "AI2")]; reflexivity.
Defined.

(** C5, as the claim states it, fails: a key of the store that the data
    does not have is gone after [restore_from_backup]. *)
Lemma restore_from_backup_drops_keys :
  let st := mk_session {["AI1" := lit "1.5"]} canonical_defaults in
  let data : gmap string pyval := {["AI2" := lit "2.0"]} in
  SINTA_DB st !! "AI1" = Some (lit "1.5")
  ∧ data !! "AI1" = None
  ∧ SINTA_DB (restore_from_backup st data) !! "AI1" = None.
Proof. split_and!; reflexivity. Qed.

(** ** Reset and validation *)

Lemma is_non_negative_float_spec (v : pyval) :
  is_non_negative_float v = true →
  ∃ f, float v = Ok f ∧ PyFloat.ltb f PyFloat.zero = false.
Proof.
  unfold is_non_negative_float. destruct (float v) as [f|]; [|done].
  intros H%negb_true_iff. eauto.
Qed.

Lemma canonical_defaults_non_negative :
  forallb (fun kv : string * pyval => is_non_negative_float kv.2)
    (map_to_list canonical_defaults) = true.
Proof. vm_compute. reflexivity. Qed.

(** C8.  In a session whose defaults are the canonical table,
    [reset_data] followed by [validate_data] gives the empty mapping;
    after the reset every field of the table is in the store, and every
    stored value converts to a float that is not below zero. *)
Theorem reset_then_validate_is_clean (st : session) :
  default_values st = canonical_defaults →
  validate_data (reset_data st) = Ok ∅
  ∧ (∀ field, is_Some (canonical_defaults !! field) →
              is_Some (SINTA_DB (reset_data st) !! field))
  ∧ (∀ key value, SINTA_DB (reset_data st) !! key = Some value →
       ∃ f, float value = Ok f ∧ PyFloat.ltb f PyFloat.zero = false).
Proof.
  intros Hd. unfold reset_data. rewrite Hd. split_and!.
  - vm_compute. reflexivity.
  - done.
  - simpl. intros key value Hl%elem_of_map_to_list%list_elem_of_In.
    pose proof canonical_defaults_non_negative as Hall.
    rewrite forallb_forall in Hall.
    exact (is_non_negative_float_spec value (Hall _ Hl)).
Qed.

Lemma reset_then_validate_is_clean_witness :
  let st := _ensure_session_state (mk_session_state None None) in
  validate_data (reset_data st) = Ok ∅.
Proof.
  intros st.
  apply (reset_then_validate_is_clean st). reflexivity.
Defined.

End Store.

(** * Further properties of [parse_metrics_page] *)

Section ParserShape.
Import Soup Scraper Shape Samples.

Lemma length_append (a b : string) :
  String.length (a +:+ b) = String.length a + String.length b.
Proof. induction a as [|c a IH]; simpl; [done | now rewrite IH]. Qed.

Lemma subtotal_key_not_total (cur : string) :
  cur +:+ " (subtotal)" ≠ "TOTAL ALL SCORE".
Proof.
  intros H. pose proof (f_equal String.length H) as Hlen.
  rewrite length_append in Hlen. simpl in Hlen.
  destruct cur as [|a [|b [|c [|d [|e cur]]]]]; simpl in Hlen; try lia.
  discriminate H.
Qed.

Lemma subtotal_key_not_caption (cur : string) : cur +:+ " (subtotal)" ≠ cur.
Proof.
  intros H. pose proof (f_equal String.length H) as Hlen.
  rewrite length_append in Hlen. simpl in Hlen. lia.
Qed.

Lemma score_in_not_total (c : string) :
  PyStr.contains "Score in" c = true → c ≠ "TOTAL ALL SCORE".
Proof. now intros H ->. Qed.

Lemma well_shaped_set_list k l d :
  k ≠ "TOTAL ALL SCORE" → well_shaped d → well_shaped (dict_set k (SList l) d).
Proof.
  intros Hk Hd k' v. destruct (String.eqb_spec k k') as [<-|Hne].
  - rewrite dict_get_set_eq. now intros [= <-].
  - rewrite dict_get_set_ne by done. apply Hd.
Qed.

Lemma well_shaped_set_total s d :
  well_shaped d → well_shaped (dict_set "TOTAL ALL SCORE" (SStr s) d).
Proof.
  intros Hd k' v. destruct (String.eqb_spec "TOTAL ALL SCORE" k') as [<-|Hne].
  - rewrite dict_get_set_eq. now intros [= <-].
  - rewrite dict_get_set_ne by done. apply Hd.
Qed.

(** In a well-shaped dictionary the two appends do not meet a string. *)
Lemma setdefault_append_shaped key e d :
  key ≠ "TOTAL ALL SCORE" → well_shaped d →
  ∃ l, setdefault_append key e d = Ok (dict_set key (SList (l ++ [e])) d)
       ∧ (dict_get key d = Some (SList l) ∨ dict_get key d = None ∧ l = []).
Proof.
  intros Hk Hd. unfold setdefault_append.
  destruct (dict_get key d) as [[l|s]|] eqn:E.
  - eauto.
  - now specialize (Hd _ _ E).
  - exists []. eauto.
Qed.

(** *** What each block does, by the tests of the blocks before it *)

(** A row the section-header block consumes never raises. *)
Lemma process_row_header_consumed st row :
  skips_header row = false →
  process_row st row = Ok st
  ∨ ∃ c, section_caption row = Some c
         ∧ process_row st row
           = Ok (mk_pstate (dict_set c (SList []) (sections st)) (Some c)).
Proof.
  unfold skips_header, process_row, section_caption.
  destruct (header_cell row) as [header|]; [|done]. intros ->. simpl.
  destruct (PyStr.contains "Score in" (get_text_strip header)); eauto.
Qed.

(** A row the grand-total block consumes never raises. *)
Lemma process_row_total_consumed st row :
  skips_header row = true → skips_total_all row = false →
  ∃ total, reads_grand_total row total
    ∧ process_row st row
      = Ok (mk_pstate (dict_set "TOTAL ALL SCORE" (SStr total) (sections st))
                      (current_section st)).
Proof.
  intros H1 H2. rewrite process_row_total_all by done.
  unfold skips_total_all in H2. unfold total_all_step, reads_grand_total.
  destruct (total_all_cell row) as [cell|] eqn:Hc; [|done].
  apply negb_false_iff in H2. rewrite H2.
  destruct (last_th_found _ row cell Hc) as [th Hth]. rewrite Hth.
  exists (get_text_strip th). split; [|done]. split; [done|].
  now exists cell, th.
Qed.

(** [read_detail] fails exactly on fewer than six cells, with
    [IndexError]. *)
Lemma read_detail_raises (cells : list node) (e : exn) :
  read_detail cells = Raised e ↔ e = IndexError ∧ length cells < 6.
Proof.
  destruct cells as [|c0 [|c1 [|c2 [|c3 [|c4 [|c5 more]]]]]]; simpl;
    (split;
       [ intros H; inversion H; subst; split; first [done | simpl; lia]
       | intros [-> Hl]; simpl in Hl; first [done | lia] ]).
Qed.

(** The detail block fails exactly on a row that passes its test with
    five cells. *)
Lemma detail_step_raises st row e :
  section_invariant st →
  detail_step st row = Raised e
  ↔ e = IndexError ∧ detail_test (cols row) = true ∧ length (cols row) = 5.
Proof.
  intros Hinv. unfold detail_step.
  destruct (detail_test (cols row)) eqn:Ht; [|split; [done | now intros (_ & ? & _)]].
  assert (Hlen : (5 ≤ length (cols row))%nat).
  { unfold detail_test in Ht. apply andb_prop in Ht as [Hl _].
    now apply Nat.leb_le in Hl. }
  destruct (read_detail (cols row)) as [entry|e'] eqn:Hr.
  - rewrite bind_Ok. split.
    + destruct (current_section st) as [[|a cur]|] eqn:Hc; try done.
      unfold section_invariant in Hinv. rewrite Hc in Hinv.
      destruct Hinv as [_ [l Hl]]. unfold getitem_append. now rewrite Hl.
    + intros (_ & _ & H5).
      assert (read_detail (cols row) = Raised IndexError) as Hx
        by (apply read_detail_raises; split; [done | lia]).
      congruence.
  - apply read_detail_raises in Hr as [-> Hr]. simpl. split.
    + intros [= <-]. split_and!; [done..|lia].
    + now intros [-> _].
Qed.

(** The subtotal block fails exactly when it has an entry to store and
    no section is open, with [TypeError]. *)
Lemma subtotal_step_raises st row cell e :
  well_shaped (sections st) →
  italic_cell row = Some cell →
  subtotal_step st row = Raised e
  ↔ e = TypeError
    ∧ PyStr.contains "Total Score" (get_text_strip cell) = true
    ∧ current_section st = None.
Proof.
  intros Hd Hc. unfold subtotal_step. rewrite Hc.
  destruct (PyStr.contains "Total Score" _); [|split; [done | now intros (_ & ? & _)]].
  destruct (last_th_found _ row cell Hc) as [th ->]. rewrite bind_Ok.
  destruct (current_section st) as [cur|]; simpl.
  - destruct (setdefault_append_shaped (cur +:+ " (subtotal)")
                (SubtotalEntry (get_text_strip cell) (get_text_strip th))
                (sections st) (subtotal_key_not_total cur) Hd) as (l & -> & _).
    split; [done | now intros (_ & _ & ?)].
  - split; [now intros [= <-] | now intros (-> & _)].
Qed.

(** The subtotal block in an open section: the entry goes to the end of
    the list under the caption followed by [" (subtotal)"]. *)
Lemma process_row_subtotal_appends st row e cur :
  well_shaped (sections st) →
  reads_subtotal row e →
  current_section st = Some cur →
  ∃ l,
    (dict_get (cur +:+ " (subtotal)") (sections st) = Some (SList l)
     ∨ dict_get (cur +:+ " (subtotal)") (sections st) = None ∧ l = [])
    ∧ process_row st row
      = Ok (mk_pstate
              (dict_set (cur +:+ " (subtotal)") (SList (l ++ [e])) (sections st))
              (Some cur)).
Proof.
  intros Hd (H1 & H2 & cell & th & Hc & Ht & Hth & ->) Hcur.
  rewrite process_row_subtotal by done. unfold subtotal_step.
  rewrite Hc, Ht, Hth, bind_Ok, Hcur. simpl.
  destruct (setdefault_append_shaped (cur +:+ " (subtotal)")
              (SubtotalEntry (get_text_strip cell) (get_text_strip th))
              (sections st) (subtotal_key_not_total cur) Hd) as (l & -> & Hl).
  exists l. split; [done|]. now rewrite bind_Ok.
Qed.

(** *** The shape is kept *)

Lemma process_row_shaped st row st' :
  process_row st row = Ok st' →
  section_invariant st → well_shaped (sections st) →
  well_shaped (sections st').
Proof.
  intros H Hinv Hd.
  destruct (skips_header row) eqn:H1.
  2: { destruct (process_row_header_consumed st row H1) as [Hs|(c & Hc & Hs)];
         rewrite Hs in H; simplify_eq; [done|].
       apply well_shaped_set_list; [|done].
       unfold section_caption in Hc.
       destruct (header_cell row); [|done]. destruct (negb _); [|done].
       simpl in Hc.
       destruct (PyStr.contains "Score in" _) eqn:Hsc; simplify_eq.
       now apply score_in_not_total. }
  destruct (skips_total_all row) eqn:H2.
  2: { destruct (process_row_total_consumed st row H1 H2) as (t & _ & Hs).
       rewrite Hs in H. simplify_eq. now apply well_shaped_set_total. }
  rewrite process_row_subtotal in H by done. unfold subtotal_step in H.
  destruct (italic_cell row) as [cell|] eqn:Hc.
  - destruct (PyStr.contains "Total Score" _); [|by simplify_eq].
    destruct (last_th row) as [th|]; [|done]. rewrite bind_Ok in H.
    destruct (current_section st) as [cur|]; [|done].
    cbn [subtotal_key] in H. rewrite bind_Ok in H.
    destruct (setdefault_append_shaped (cur +:+ " (subtotal)")
                (SubtotalEntry (get_text_strip cell) (get_text_strip th))
                (sections st) (subtotal_key_not_total cur) Hd) as (l & Hl & _).
    rewrite Hl, bind_Ok in H. simplify_eq.
    apply well_shaped_set_list; [apply subtotal_key_not_total | done].
  - unfold detail_step in H.
    destruct (detail_test (cols row)); [|by simplify_eq].
    destruct (read_detail (cols row)) as [e|]; [|done]. rewrite bind_Ok in H.
    destruct (current_section st) as [[|a cur]|] eqn:Hcur; try (by simplify_eq).
    unfold section_invariant in Hinv. rewrite Hcur in Hinv.
    destruct Hinv as [Hs [l Hl]]. unfold getitem_append in H.
    rewrite Hl, bind_Ok in H. simplify_eq.
    apply well_shaped_set_list; [now apply score_in_not_total | done].
Qed.

(** Both invariants hold of every state the loop reaches. *)
Lemma reached_state_shaped rows : ∀ st st',
  for_each process_row rows st = Ok st' →
  section_invariant st → well_shaped (sections st) →
  section_invariant st' ∧ well_shaped (sections st').
Proof.
  induction rows as [|row rows IH]; intros st st' H Hinv Hd; simpl in H.
  - now simplify_eq.
  - destruct (process_row st row) as [st1|] eqn:E; [|done].
    rewrite bind_Ok in H. eapply IH; [done | |];
      eauto using process_row_invariant, process_row_shaped.
Qed.

Lemma initial_shaped : section_invariant initial ∧ well_shaped (sections initial).
Proof. split; [done | now intros k v]. Qed.

(** The first iteration that raises, when the loop raises. *)
Lemma for_each_raised {S X} (body : S → X → outcome S) (xs : list X) :
  ∀ (s : S) (e : exn),
    for_each body xs s = Raised e
    ↔ ∃ pre x post s',
        xs = pre ++ x :: post
        ∧ for_each body pre s = Ok s'
        ∧ body s' x = Raised e.
Proof.
  induction xs as [|x xs IH]; intros s e; simpl.
  - split; [done|]. intros (pre & x & post & s' & H & _). now destruct pre.
  - destruct (body s x) as [s1|e1] eqn:Hb.
    + rewrite bind_Ok, IH. split.
      * intros (pre & y & post & s' & -> & Hpre & Hy).
        exists (x :: pre), y, post, s'. simpl. now rewrite Hb.
      * intros (pre & y & post & s' & Hxs & Hpre & Hy).
        destruct pre as [|x' pre]; simplify_eq/=; [congruence|].
        rewrite Hb, bind_Ok in Hpre. eauto 10.
    + split.
      * intros [= ->]. now exists [], x, xs, s.
      * intros (pre & y & post & s' & Hxs & Hpre & Hy).
        destruct pre as [|x' pre]; simplify_eq/=; [congruence|].
        now rewrite Hb in Hpre.
Qed.

Lemma process_row_raises st row e :
  section_invariant st → well_shaped (sections st) →
  process_row st row = Raised e ↔ fails_with st row e.
Proof.
  intros Hinv Hd. unfold fails_with, reaches_detail, reads_subtotal.
  destruct (skips_header row) eqn:H1.
  2: { split.
       - destruct (process_row_header_consumed st row H1) as [->|(c & _ & ->)];
           done.
       - intros [(_ & ? & _)|(_ & _ & ? & ? & _)]; done. }
  destruct (skips_total_all row) eqn:H2.
  2: { split.
       - now destruct (process_row_total_consumed st row H1 H2) as (t & _ & ->).
       - intros [(_ & ? & _)|(_ & _ & ? & _ & ? & _)]; done. }
  rewrite process_row_subtotal by done.
  unfold skips_subtotal. destruct (italic_cell row) as [cell|] eqn:Hc.
  - rewrite (subtotal_step_raises st row cell e Hd Hc). split.
    + intros (-> & Ht & Hcur). right. split_and!; try done.
      destruct (last_th_found _ row cell Hc) as [th Hth].
      eexists. split_and!; try done. exists cell, th. eauto.
    + intros [(_ & ? & _)|(-> & Hcur & entry & _ & _ & cell' & th & Hc' & Ht & _)];
        [done|]. now simplify_eq.
  - unfold subtotal_step. rewrite Hc, (detail_step_raises st row e Hinv). split.
    + intros (-> & ? & ?). now left.
    + intros [(-> & _ & ? & ?)|(_ & _ & entry & _ & _ & c & t & ? & _)]; done.
Qed.

(** *** What an iteration that returns has done *)

Lemma detail_entry_reads (row : node) (e : entry) :
  detail_entry row = Some e ↔ reads row e.
Proof.
  unfold detail_entry, reads.
  destruct (reaches_detail row); simpl; [|split; [done | now intros [? _]]].
  destruct (detail_test (cols row)); simpl;
    [|split; [done | now intros (_ & ? & _)]].
  destruct (read_detail (cols row)) as [e'|].
  - split; [now intros [= ->] | now intros (_ & _ & [= ->])].
  - split; [done | now intros (_ & _ & ?)].
Qed.

Lemma section_caption_score_in (row : node) (c : string) :
  section_caption row = Some c → PyStr.contains "Score in" c = true.
Proof.
  unfold section_caption. destruct (header_cell row) as [header|]; [|done].
  destruct (negb _); [|done]. simpl.
  destruct (PyStr.contains "Score in" (get_text_strip header)) eqn:E; [|done].
  now intros [= <-].
Qed.

Lemma caption_not_skipped (row : node) (c : string) :
  section_caption row = Some c → skips_header row = false.
Proof.
  unfold section_caption, skips_header.
  destruct (header_cell row) as [header|]; [|done].
  now destruct (PyStr.contains "Total" (get_text header)).
Qed.

Lemma detail_entry_reaches (row : node) :
  reaches_detail row = false → detail_entry row = None.
Proof. unfold detail_entry. now intros ->. Qed.

(** An iteration that returns has opened a section, or has left the
    current section as it was and either changed nothing, or stored the
    grand total, or appended a subtotal under the subtotal key of the
    current section, or appended the entry of its row to the list of the
    current section. *)
Lemma process_row_effect st row st' :
  process_row st row = Ok st' →
  section_invariant st → well_shaped (sections st) →
  (∃ c, section_caption row = Some c
        ∧ st' = mk_pstate (dict_set c (SList []) (sections st)) (Some c))
  ∨ (section_caption row = None
     ∧ current_section st' = current_section st
     ∧ ((sections st' = sections st
         ∧ (detail_entry row = None ∨ current_section st = None))
        ∨ (detail_entry row = None
           ∧ ∃ total, sections st'
                      = dict_set "TOTAL ALL SCORE" (SStr total) (sections st))
        ∨ (detail_entry row = None
           ∧ ∃ cur l e,
               current_section st = Some cur
               ∧ sections st'
                 = dict_set (cur +:+ " (subtotal)") (SList (l ++ [e]))
                     (sections st))
        ∨ (∃ cur l e,
             current_section st = Some cur
             ∧ dict_get cur (sections st) = Some (SList l)
             ∧ detail_entry row = Some e
             ∧ sections st' = dict_set cur (SList (l ++ [e])) (sections st)))).
Proof.
  intros H Hinv Hd.
  destruct (section_caption row) as [c|] eqn:Hcap.
  { left. exists c. split; [done|].
    rewrite (process_row_section st row c Hcap) in H. now simplify_eq. }
  right. split; [done|].
  destruct (skips_header row) eqn:H1.
  2: { destruct (process_row_header_consumed st row H1) as [Hs|(c & Hc & _)];
         [|congruence].
       rewrite Hs in H. simplify_eq. split; [done|]. left. split; [done|].
       left. apply detail_entry_reaches. unfold reaches_detail. now rewrite H1. }
  destruct (skips_total_all row) eqn:H2.
  2: { destruct (process_row_total_consumed st row H1 H2) as (t & _ & Hs).
       rewrite Hs in H. simplify_eq. split; [done|]. right. left.
       split; [|eauto]. apply detail_entry_reaches. unfold reaches_detail.
       now rewrite H1, H2. }
  rewrite process_row_subtotal in H by done. unfold subtotal_step in H.
  destruct (italic_cell row) as [cell|] eqn:Hc.
  - assert (Hnone : detail_entry row = None).
    { apply detail_entry_reaches. unfold reaches_detail, skips_subtotal.
      now rewrite H1, H2, Hc. }
    destruct (PyStr.contains "Total Score" _).
    2: { simplify_eq. split; [done|]. left. auto. }
    destruct (last_th row) as [th|]; [|done]. rewrite bind_Ok in H.
    destruct (current_section st) as [cur|] eqn:Hcur; [|done].
    cbn [subtotal_key] in H. rewrite bind_Ok in H.
    destruct (setdefault_append_shaped (cur +:+ " (subtotal)")
                (SubtotalEntry (get_text_strip cell) (get_text_strip th))
                (sections st) (subtotal_key_not_total cur) Hd) as (l & Hl & _).
    rewrite Hl, bind_Ok in H. simplify_eq. simpl. split; [done|].
    right. right. left. split; [done|]. eauto 10.
  - assert (Hreach : reaches_detail row = true).
    { unfold reaches_detail, skips_subtotal. now rewrite H1, H2, Hc. }
    unfold detail_step in H. unfold detail_entry. rewrite Hreach. simpl.
    destruct (detail_test (cols row)).
    2: { simplify_eq. split; [done|]. left. auto. }
    destruct (read_detail (cols row)) as [e|]; [|done]. rewrite bind_Ok in H.
    destruct (current_section st) as [cur|] eqn:Hcur.
    2: { simplify_eq. split; [done|]. left. auto. }
    unfold section_invariant in Hinv. rewrite Hcur in Hinv.
    destruct Hinv as [Hs [l Hl]].
    destruct cur as [|a cur]; [discriminate Hs|].
    unfold getitem_append in H. rewrite Hl, bind_Ok in H. simplify_eq. simpl.
    split; [done|]. right. right. right. eauto 10.
Qed.

(** A key that holds a list keeps holding one. *)
Lemma process_row_keeps_lists st row st' k :
  process_row st row = Ok st' →
  section_invariant st → well_shaped (sections st) →
  (∃ l, dict_get k (sections st) = Some (SList l)) →
  ∃ l, dict_get k (sections st') = Some (SList l).
Proof.
  intros H Hinv Hd [l Hl].
  assert (Hk : k ≠ "TOTAL ALL SCORE") by exact (Hd _ _ Hl).
  destruct (process_row_effect st row st' H Hinv Hd)
    as [(c & _ & ->)
       |(_ & _ & [[-> _]|[(_ & t & ->)|[(_ & cur & x & e & _ & ->)
                                        |(cur & x & e & _ & _ & _ & ->)]]])];
    simpl; eauto using dict_set_list_keeps.
  rewrite dict_get_set_ne by done. eauto.
Qed.

Lemma for_each_keeps_lists rows k : ∀ st st',
  for_each process_row rows st = Ok st' →
  section_invariant st → well_shaped (sections st) →
  (∃ l, dict_get k (sections st) = Some (SList l)) →
  ∃ l, dict_get k (sections st') = Some (SList l).
Proof.
  induction rows as [|row rows IH]; intros st st' H Hinv Hd Hl; simpl in H.
  - now simplify_eq.
  - destruct (process_row st row) as [st1|] eqn:E; [|done].
    rewrite bind_Ok in H. eapply (IH st1); [done | | |];
      eauto using process_row_invariant, process_row_shaped,
        process_row_keeps_lists.
Qed.

(** In an open section, a row that is neither a section header nor a
    styled row of five cells is read without error, and what it adds to
    the list of the section is its entry, when it has one. *)
Lemma process_row_in_section st row c l :
  section_invariant st → well_shaped (sections st) →
  current_section st = Some c →
  dict_get c (sections st) = Some (SList l) →
  section_caption row = None →
  five_cell_detail row = false →
  ∃ st',
    process_row st row = Ok st'
    ∧ current_section st' = Some c
    ∧ dict_get c (sections st')
      = Some (SList (l ++ option_list (detail_entry row))).
Proof.
  intros Hinv Hd Hcur Hl Hcap Hfive.
  assert (Hc : PyStr.contains "Score in" c = true).
  { unfold section_invariant in Hinv. rewrite Hcur in Hinv. apply Hinv. }
  destruct (process_row st row) as [st'|e] eqn:E.
  2: { apply process_row_raises in E as [(_ & H1 & H2 & H3)|(_ & ? & _)];
         [|congruence|done..].
       unfold five_cell_detail in Hfive. rewrite H1, H2, H3 in Hfive.
       discriminate Hfive. }
  exists st'. split; [done|].
  destruct (process_row_effect st row st' E Hinv Hd)
    as [(c' & ? & _)
       |(_ & Hcur' & [[Hs [Hn|?]]|[(Hn & t & Hs)|[(Hn & cur & x & e & Hx & Hs)
                                        |(cur & x & e & Hx & Hlx & Hn & Hs)]]])];
    try congruence; (split; [congruence|]); rewrite Hs, ?Hn; simpl.
  - now rewrite app_nil_r.
  - rewrite dict_get_set_ne, app_nil_r; [done|].
    intros <-. discriminate Hc.
  - rewrite dict_get_set_ne, app_nil_r; [done|].
    assert (cur = c) as -> by congruence. apply subtotal_key_not_caption.
  - assert (cur = c) as -> by congruence.
    rewrite dict_get_set_eq. congruence.
Qed.

Lemma rows_in_section rows : ∀ st c l,
  section_invariant st → well_shaped (sections st) →
  current_section st = Some c →
  dict_get c (sections st) = Some (SList l) →
  Forall (fun row => section_caption row = None) rows →
  Forall (fun row => five_cell_detail row = false) rows →
  ∃ st',
    for_each process_row rows st = Ok st'
    ∧ current_section st' = Some c
    ∧ dict_get c (sections st') = Some (SList (l ++ omap detail_entry rows)).
Proof.
  induction rows as [|row rows IH]; intros st c l Hinv Hd Hcur Hl Hcap Hfive.
  - exists st. simpl. now rewrite app_nil_r.
  - apply Forall_cons in Hcap as [Hcap Hcaps].
    apply Forall_cons in Hfive as [Hfive Hfives].
    destruct (process_row_in_section st row c l Hinv Hd Hcur Hl Hcap Hfive)
      as (st1 & E & Hcur1 & Hl1).
    destruct (IH st1 c (l ++ option_list (detail_entry row)))
      as (st' & Hrun & Hcur' & Hl');
      eauto using process_row_invariant, process_row_shaped.
    exists st'. cbn [for_each]. rewrite E, bind_Ok.
    split_and!; [done..|].
    rewrite Hl', <- app_assoc. do 2 f_equal. simpl.
    now destruct (detail_entry row).
Qed.

(** While the current section is neither the one of a key nor one whose
    subtotal key it is, and as long as no such section is opened, the
    rows leave what is under the key as it is. *)
Lemma process_row_elsewhere st row k cur :
  section_invariant st → well_shaped (sections st) →
  k ≠ "TOTAL ALL SCORE" →
  current_section st = Some cur → cur ≠ k → cur +:+ " (subtotal)" ≠ k →
  (∀ c', section_caption row = Some c' → c' ≠ k ∧ c' +:+ " (subtotal)" ≠ k) →
  five_cell_detail row = false →
  ∃ st' cur',
    process_row st row = Ok st'
    ∧ current_section st' = Some cur'
    ∧ cur' ≠ k ∧ cur' +:+ " (subtotal)" ≠ k
    ∧ dict_get k (sections st') = dict_get k (sections st).
Proof.
  intros Hinv Hd Hk Hcur Hne1 Hne2 Hcap Hfive.
  destruct (process_row st row) as [st'|e] eqn:E.
  2: { apply process_row_raises in E as [(_ & H1 & H2 & H3)|(_ & ? & _)];
         [|congruence|done..].
       unfold five_cell_detail in Hfive. rewrite H1, H2, H3 in Hfive.
       discriminate Hfive. }
  exists st'.
  destruct (process_row_effect st row st' E Hinv Hd)
    as [(c' & Hc' & ->)
       |(Hnone & Hcur' & [[Hs _]|[(_ & t & Hs)|[(_ & cur0 & x & e & Hx & Hs)
                                        |(cur0 & x & e & Hx & _ & _ & Hs)]]])].
  - exists c'. simpl. destruct (Hcap c' Hc') as [? ?].
    split_and!; try done. now rewrite dict_get_set_ne.
  - exists cur. rewrite Hcur', Hs. split_and!; done.
  - exists cur. rewrite Hcur', Hs. split_and!; try done.
    now rewrite dict_get_set_ne.
  - exists cur. rewrite Hcur', Hs. split_and!; try done.
    assert (cur0 = cur) as -> by congruence. now rewrite dict_get_set_ne.
  - exists cur. rewrite Hcur', Hs. split_and!; try done.
    assert (cur0 = cur) as -> by congruence. now rewrite dict_get_set_ne.
Qed.

Lemma rows_elsewhere rows k : ∀ st cur,
  section_invariant st → well_shaped (sections st) →
  k ≠ "TOTAL ALL SCORE" →
  current_section st = Some cur → cur ≠ k → cur +:+ " (subtotal)" ≠ k →
  Forall (fun row => ∀ c', section_caption row = Some c' →
                           c' ≠ k ∧ c' +:+ " (subtotal)" ≠ k) rows →
  Forall (fun row => five_cell_detail row = false) rows →
  ∃ st',
    for_each process_row rows st = Ok st'
    ∧ dict_get k (sections st') = dict_get k (sections st).
Proof.
  induction rows as [|row rows IH];
    intros st cur Hinv Hd Hk Hcur Hne1 Hne2 Hcap Hfive.
  - now exists st.
  - apply Forall_cons in Hcap as [Hcap Hcaps].
    apply Forall_cons in Hfive as [Hfive Hfives].
    destruct (process_row_elsewhere st row k cur Hinv Hd Hk Hcur Hne1 Hne2
                Hcap Hfive)
      as (st1 & cur1 & E & Hcur1 & Hn1 & Hn2 & Hk1).
    destruct (IH st1 cur1) as (st' & Hrun & Hk');
      eauto using process_row_invariant, process_row_shaped.
    exists st'. cbn [for_each]. rewrite E, bind_Ok. split; [done|].
    congruence.
Qed.

End ParserShape.

Section RepeatedCaptionRows.
Import Soup Scraper Shape Samples.

(** C2, as the code has it.  Take a table with two section headers of
    the same caption, where after the later one come rows that open no
    section and then, if the table goes on, other sections, none of them
    under this caption or under the caption it is the subtotal key of.
    When the rows up to the later header parse and no row after it is a
    styled row of five cells, the parser returns; when the later header
    is reached there is a list under the caption, filled since the
    earlier header; the later header replaces it by a new empty list, so
    that the result has one entry under the caption, and its list holds
    the entries of the detail rows that follow the later header, in
    document order, and nothing of what was collected before. *)
Theorem repeated_caption_keeps_later_rows
    (soup table : node) (pre mid post rest : list node) (st1 : pstate)
    (hdr1 hdr2 : node) (c : string) :
  find_table soup = Some table →
  find_all (has_name ["tr"]) table
  = pre ++ hdr1 :: mid ++ hdr2 :: post ++ rest →
  section_caption hdr1 = Some c →
  section_caption hdr2 = Some c →
  for_each process_row (pre ++ hdr1 :: mid) initial = Ok st1 →
  Forall (fun row => section_caption row = None) post →
  (∀ h, head rest = Some h → is_Some (section_caption h)) →
  Forall (fun row => ∀ c', section_caption row = Some c' →
                           c' ≠ c ∧ c' +:+ " (subtotal)" ≠ c) rest →
  Forall (fun row => five_cell_detail row = false) (post ++ rest) →
  (∃ l1, dict_get c (sections st1) = Some (SList l1))
  ∧ ∃ d,
      parse_metrics_page soup = Ok (Some d)
      ∧ NoDup (keys d)
      ∧ dict_get c d = Some (SList (omap detail_entry post)).
Proof.
  intros Ht Hrows Hc1 Hc2 Hrun1 Hpost Hhead Hrest Hfive.
  apply Forall_app in Hfive as [Hfive1 Hfive2].
  pose proof (section_caption_score_in hdr2 c Hc2) as Hc.
  pose proof (score_in_not_total c Hc) as Hct.
  split.
  { rewrite for_each_app in Hrun1.
    destruct (for_each process_row pre initial) as [st0|] eqn:Hpre; [|done].
    rewrite bind_Ok in Hrun1. cbn [for_each] in Hrun1.
    rewrite (process_row_section _ _ c Hc1), bind_Ok in Hrun1.
    destruct (reached_state_shaped _ _ _ Hpre) as [_ Hd0];
      [apply initial_shaped..|].
    apply (for_each_keeps_lists mid c _ st1 Hrun1).
    - unfold section_invariant. simpl. rewrite dict_get_set_eq. eauto.
    - now apply well_shaped_set_list.
    - simpl. rewrite dict_get_set_eq. eauto. }
  destruct (reached_state_shaped _ _ _ Hrun1) as [_ Hd1];
    [apply initial_shaped..|].
  set (st2 := mk_pstate (dict_set c (SList []) (sections st1)) (Some c)).
  assert (Hinv2 : section_invariant st2).
  { unfold section_invariant. simpl. rewrite dict_get_set_eq. eauto. }
  assert (Hd2 : well_shaped (sections st2)) by now apply well_shaped_set_list.
  destruct (rows_in_section post st2 c []) as (st3 & Hrun3 & Hcur3 & Hl3);
    [done.. | apply dict_get_set_eq | done | done |].
  destruct (reached_state_shaped _ _ _ Hrun3 Hinv2 Hd2) as [Hinv3 Hd3].
  assert (Hall : ∀ tail st,
    for_each process_row tail st3 = Ok st →
    for_each process_row (pre ++ hdr1 :: mid ++ hdr2 :: post ++ tail) initial
    = Ok st).
  { intros tail st Htail.
    replace (pre ++ hdr1 :: mid ++ hdr2 :: post ++ tail)
      with ((pre ++ hdr1 :: mid) ++ hdr2 :: post ++ tail)
      by now rewrite <- app_assoc.
    rewrite for_each_app, Hrun1, bind_Ok. cbn [for_each].
    rewrite (process_row_section _ _ c Hc2), bind_Ok. fold st2.
    now rewrite for_each_app, Hrun3, bind_Ok. }
  assert (Hend : ∀ st,
    for_each process_row rest st3 = Ok st →
    dict_get c (sections st) = dict_get c (sections st3) →
    ∃ d, parse_metrics_page soup = Ok (Some d)
         ∧ NoDup (keys d)
         ∧ dict_get c d = Some (SList (omap detail_entry post))).
  { intros st Htail Hsame. exists (sections st).
    unfold parse_metrics_page. rewrite Ht, Hrows, (Hall rest st Htail).
    split_and!; [done | | now rewrite Hsame, Hl3].
    apply (for_each_process_row_NoDup _ initial st (Hall rest st Htail)).
    constructor. }
  destruct rest as [|h rest].
  { now apply (Hend st3). }
  destruct (Hhead h eq_refl) as [c' Hc'].
  apply Forall_cons in Hrest as [Hh Hrest].
  apply Forall_cons in Hfive2 as [_ Hfive2].
  destruct (Hh c' Hc') as [Hne1 Hne2].
  set (st4 := mk_pstate (dict_set c' (SList []) (sections st3)) (Some c')).
  assert (Hc't : c' ≠ "TOTAL ALL SCORE")
    by eauto using score_in_not_total, section_caption_score_in.
  destruct (rows_elsewhere rest c st4 c') as (st5 & Hrun5 & Hl5); try done.
  { apply (process_row_invariant st3 h); [|done].
    apply (process_row_section _ _ c' Hc'). }
  { now apply well_shaped_set_list. }
  apply (Hend st5).
  - cbn [for_each]. now rewrite (process_row_section _ _ c' Hc'), bind_Ok.
  - rewrite Hl5. unfold st4. simpl. now rewrite dict_get_set_ne.
Qed.

Lemma repeated_caption_keeps_later_rows_witness :
  ∃ st1,
    for_each process_row
      [ section_row publication;
        detail_row "AI1" "Q1 articles" "40" "1,5" "60,0";
        subtotal_row "Total Score Publication" "60,0";
        section_row research;
        detail_row "P1" "Grants" "10" "2,0" "20,0" ] initial = Ok st1
    ∧ dict_get publication (sections st1)
      = Some (SList [ScoreRow "AI1" "Q1 articles" "40" "1.5" "60.0"])
    ∧ ∃ d,
        parse_metrics_page reopened_page = Ok (Some d)
        ∧ NoDup (keys d)
        ∧ dict_get publication d
          = Some (SList [ ScoreRow "AI2" "Q2 articles" "30" "2.5" "75.0";
                          ScoreRow "AI3" "Q3 articles" "20" "1.0" "20.0" ]).
Proof.
  eexists. split; [reflexivity|]. split; [reflexivity|].
  refine (proj2 (repeated_caption_keeps_later_rows reopened_page
           (Tag "table" [("class", AList ["table"; "table-bordered"])]
              [ section_row publication;
                detail_row "AI1" "Q1 articles" "40" "1,5" "60,0";
                subtotal_row "Total Score Publication" "60,0";
                section_row research;
                detail_row "P1" "Grants" "10" "2,0" "20,0";
                section_row publication;
                detail_row "AI2" "Q2 articles" "30" "2,5" "75,0";
                subtotal_row "Total Score Publication" "75,0";
                grand_total_row "543,21";
                detail_row "AI3" "Q3 articles" "20" "1,0" "20,0";
                section_row research;
                detail_row "P2" "Contracts" "5" "4,0" "20,0" ])
           []
           [ detail_row "AI1" "Q1 articles" "40" "1,5" "60,0";
             subtotal_row "Total Score Publication" "60,0";
             section_row research;
             detail_row "P1" "Grants" "10" "2,0" "20,0" ]
           [ detail_row "AI2" "Q2 articles" "30" "2,5" "75,0";
             subtotal_row "Total Score Publication" "75,0";
             grand_total_row "543,21";
             detail_row "AI3" "Q3 articles" "20" "1,0" "20,0" ]
           [ section_row research;
             detail_row "P2" "Contracts" "5" "4,0" "20,0" ]
           _ (section_row publication) (section_row publication) publication
           eq_refl eq_refl eq_refl eq_refl eq_refl _ _ _ _)).
  - repeat constructor.
  - intros h [= <-]. now eexists.
  - constructor; [|constructor; [|constructor]];
      intros c' Hc'; vm_compute in Hc'; [|discriminate Hc'].
    injection Hc' as <-. split; discriminate.
  - repeat constructor.
Defined.

End RepeatedCaptionRows.

Section ParserExtras.
Import Soup Scraper Shape Samples.

(** X1.  [parse_metrics_page] raises in two situations only, each at the
    first row that meets it: a row that reaches the detail block with
    exactly five cells and a styled first cell ([IndexError]), and a
    subtotal row met while no section is open ([TypeError]).  It raises
    neither [KeyError] nor [AttributeError]. *)
Theorem parse_metrics_page_raises (soup : node) (e : exn) :
  parse_metrics_page soup = Raised e
  ↔ ∃ table pre row post st,
      find_table soup = Some table
      ∧ find_all (has_name ["tr"]) table = pre ++ row :: post
      ∧ for_each process_row pre initial = Ok st
      ∧ fails_with st row e.
Proof.
  unfold parse_metrics_page. destruct (find_table soup) as [table|].
  2: { split; [done | now intros (? & ? & ? & ? & ? & ? & _)]. }
  assert (Hfe : for_each process_row (find_all (has_name ["tr"]) table) initial
                = Raised e
      ↔ ∃ pre row post st,
          find_all (has_name ["tr"]) table = pre ++ row :: post
          ∧ for_each process_row pre initial = Ok st
          ∧ fails_with st row e).
  { rewrite for_each_raised. do 4 (apply exist_proper; intros ?).
    split; intros (Hrows & Hpre & Hrow); split_and!; try done.
    - destruct (reached_state_shaped _ _ _ Hpre) as [Hinv Hd];
        [apply initial_shaped..|]. now apply process_row_raises.
    - destruct (reached_state_shaped _ _ _ Hpre) as [Hinv Hd];
        [apply initial_shaped..|]. now apply process_row_raises. }
  split.
  - intros H. exists table.
    destruct (for_each process_row _ initial) as [st|e'] eqn:E; [done|].
    simpl in H. simplify_eq.
    destruct (proj1 Hfe eq_refl) as (pre & row & post & st & ?). eauto 10.
  - intros (table' & pre & row & post & st & [= <-] & Hrest).
    rewrite (proj2 Hfe); [done|]. eauto 10.
Qed.

Lemma parse_result_shaped (soup : node) (d : dict) :
  parse_metrics_page soup = Ok (Some d) → well_shaped d.
Proof.
  unfold parse_metrics_page. destruct (find_table soup) as [table|]; [|done].
  destruct (for_each process_row _ initial) as [st|] eqn:E; [|done].
  intros [= <-].
  now destruct (reached_state_shaped _ _ _ E) as [_ Hd];
    [apply initial_shaped..|].
Qed.

(** X2.  A result is well shaped: the key ["TOTAL ALL SCORE"] is the
    only one that holds a string, every other key holds a list. *)
Theorem parse_metrics_page_shape (soup : node) (d : dict) :
  parse_metrics_page soup = Ok (Some d) → well_shaped d.
Proof.
  unfold parse_metrics_page. destruct (find_table soup) as [table|]; [|done].
  destruct (for_each process_row _ initial) as [st|] eqn:E; [|done].
  intros [= <-].
  now destruct (reached_state_shaped _ _ _ E) as [_ Hd];
    [apply initial_shaped..|].
Qed.

Lemma parse_metrics_page_shape_witness :
  well_shaped
    [ (publication, SList [ScoreRow "AI1" "Q1 articles" "40" "1.234" "49.36"]);
      ("TOTAL ALL SCORE", SStr "543,21") ].
Proof. apply (parse_metrics_page_shape grand_total_page). reflexivity. Defined.

(** X3.  After any rows that parse, a section header followed by detail
    rows up to the end of the table gives, under the caption of the
    header, exactly the entries of those rows in document order. *)
Theorem detail_rows_in_document_order
    (soup table : node) (pre : list node) (st0 : pstate)
    (hdr : node) (c : string) (ds : list node) (es : list entry) :
  find_table soup = Some table →
  find_all (has_name ["tr"]) table = pre ++ hdr :: ds →
  for_each process_row pre initial = Ok st0 →
  section_caption hdr = Some c →
  Forall2 reads ds es →
  parse_metrics_page soup
  = Ok (Some (dict_set c (SList es) (sections st0)))
  ∧ dict_get c (dict_set c (SList es) (sections st0)) = Some (SList es).
Proof.
  intros Ht Hrows Hpre Hc Hd. split; [|apply dict_get_set_eq].
  unfold parse_metrics_page. rewrite Ht, Hrows, for_each_app, Hpre, bind_Ok.
  simpl. rewrite (process_row_section _ _ c Hc), bind_Ok.
  rewrite (detail_rows_append ds es _ c []);
    [|done|done|eauto using section_caption_nonempty|apply dict_get_set_eq].
  simpl. now rewrite dict_set_set.
Qed.

Lemma detail_rows_in_document_order_witness :
  parse_metrics_page leading_rows_page
  = Ok (Some [(publication,
               SList [ScoreRow "AI1" "Q1 articles" "40" "1.5" "60.0"])]).
Proof.
  apply (detail_rows_in_document_order leading_rows_page
           (Tag "table" [("class", AList ["table"; "table-bordered"])]
              [ detail_row "AI0" "Orphan" "1" "2,0" "2,0";
                section_row publication;
                detail_row "AI1" "Q1 articles" "40" "1,5" "60,0" ])
           [detail_row "AI0" "Orphan" "1" "2,0" "2,0"] initial
           (section_row publication) publication
           [detail_row "AI1" "Q1 articles" "40" "1,5" "60,0"]
           [ScoreRow "AI1" "Q1 articles" "40" "1.5" "60.0"]);
    try reflexivity.
  constructor; [split_and!; reflexivity | constructor].
Defined.

(** Before any section header, a row that gets to the detail block is
    read and dropped, unless it is a styled row of five cells: the reads
    come before the test of [current_section]. *)
Lemma process_row_before_sections st row :
  current_section st = None → reaches_detail row = true →
  process_row st row
  = if five_cell_detail row then Raised IndexError else Ok st.
Proof.
  intros Hc Hreach. rewrite process_row_detail by done.
  unfold detail_step, five_cell_detail. rewrite Hreach, Hc. simpl.
  destruct (detail_test (cols row)) eqn:Ht; [|done]. simpl.
  assert (Hlen : (5 ≤ length (cols row))%nat).
  { unfold detail_test in Ht. apply andb_prop in Ht as [Hl _].
    now apply Nat.leb_le in Hl. }
  destruct (read_detail (cols row)) as [e|e] eqn:Hr; simpl.
  - destruct (Nat.eqb_spec (length (cols row)) 5) as [H5|_]; [|done].
    assert (read_detail (cols row) = Raised IndexError) as Hx
      by (apply read_detail_raises; split; [done | lia]).
    congruence.
  - apply read_detail_raises in Hr as [-> Hr].
    destruct (Nat.eqb_spec (length (cols row)) 5) as [_|?]; [done | lia].
Qed.

Lemma leading_rows_dropped rows : ∀ st,
  current_section st = None →
  Forall (fun row => reaches_detail row = true) rows →
  (Forall (fun row => five_cell_detail row = false) rows →
   for_each process_row rows st = Ok st)
  ∧ (Exists (fun row => five_cell_detail row = true) rows →
     for_each process_row rows st = Raised IndexError).
Proof.
  induction rows as [|row rows IH]; intros st Hc Hall.
  { split; [done | intros H; inversion H]. }
  apply Forall_cons in Hall as [Hreach Hall]. cbn [for_each].
  rewrite (process_row_before_sections st row Hc Hreach).
  destruct (IH st Hc Hall) as [IH1 IH2].
  destruct (five_cell_detail row) eqn:Hfive.
  - split; [|done]. intros [? _]%Forall_cons. congruence.
  - rewrite bind_Ok. split.
    + intros [_ ?]%Forall_cons. auto.
    + intros [?|?]%Exists_cons; [congruence | auto].
Qed.

(** X4.  Rows that get to the detail block before the first section
    header are dropped, whatever the number of their cells, and the
    result is that of the table without them; except that a styled row
    of exactly five cells among them makes the parser raise
    [IndexError], although no section is open. *)
Theorem leading_detail_rows_are_dropped
    (soup table : node) (ds rest : list node) :
  find_table soup = Some table →
  find_all (has_name ["tr"]) table = ds ++ rest →
  Forall (fun row => reaches_detail row = true) ds →
  (Forall (fun row => five_cell_detail row = false) ds →
   parse_metrics_page soup
   = st ← for_each process_row rest initial; Ok (Some (sections st)))
  ∧ (Exists (fun row => five_cell_detail row = true) ds →
     parse_metrics_page soup = Raised IndexError).
Proof.
  intros Ht Hrows Hd. unfold parse_metrics_page.
  rewrite Ht, Hrows, for_each_app.
  destruct (leading_rows_dropped ds initial eq_refl Hd) as [Hdrop Hraise].
  split.
  - intros H. now rewrite (Hdrop H), bind_Ok.
  - intros H. now rewrite (Hraise H).
Qed.

Lemma leading_detail_rows_are_dropped_witness :
  parse_metrics_page leading_rows_page
  = Ok (Some [(publication,
               SList [ScoreRow "AI1" "Q1 articles" "40" "1.5" "60.0"])])
  ∧ parse_metrics_page leading_five_cell_page = Raised IndexError.
Proof.
  split.
  - refine (proj1 (leading_detail_rows_are_dropped leading_rows_page
             (Tag "table" [("class", AList ["table"; "table-bordered"])]
                [ detail_row "AI0" "Orphan" "1" "2,0" "2,0";
                  section_row publication;
                  detail_row "AI1" "Q1 articles" "40" "1,5" "60,0" ])
             [detail_row "AI0" "Orphan" "1" "2,0" "2,0"]
             [ section_row publication;
               detail_row "AI1" "Q1 articles" "40" "1,5" "60,0" ]
             eq_refl eq_refl _) _); repeat constructor.
  - refine (proj2 (leading_detail_rows_are_dropped leading_five_cell_page
             (Tag "table" [("class", AList ["table"; "table-bordered"])]
                [ five_cell_row "AI0" "Orphan" "1" "2,0" "2,0";
                  section_row publication;
                  detail_row "AI1" "Q1 articles" "40" "1,5" "60,0" ])
             [five_cell_row "AI0" "Orphan" "1" "2,0" "2,0"]
             [ section_row publication;
               detail_row "AI1" "Q1 articles" "40" "1,5" "60,0" ]
             eq_refl eq_refl _) _); repeat constructor.
Defined.

Lemma listed_set_eq key l d : listed key (dict_set key (SList l) d) = l.
Proof. unfold listed. now rewrite dict_get_set_eq. Qed.

Lemma listed_set_ne k key v d :
  k ≠ key → listed key (dict_set k v d) = listed key d.
Proof. intros H. unfold listed. now rewrite dict_get_set_ne. Qed.

(** A run of subtotal rows in an open section extends the list under the
    subtotal key and touches no other key. *)
Lemma subtotal_rows_append rows es : ∀ st cur,
  Forall2 reads_subtotal rows es →
  current_section st = Some cur →
  well_shaped (sections st) →
  ∃ st',
    for_each process_row rows st = Ok st'
    ∧ current_section st' = Some cur
    ∧ well_shaped (sections st')
    ∧ listed (cur +:+ " (subtotal)") (sections st')
      = listed (cur +:+ " (subtotal)") (sections st) ++ es
    ∧ ∀ k, k ≠ cur +:+ " (subtotal)" →
           dict_get k (sections st') = dict_get k (sections st).
Proof.
  intros st cur H. revert st.
  induction H as [|row e rows es Hrow _ IH]; intros st Hc Hd; simpl.
  - exists st. now rewrite app_nil_r.
  - destruct (process_row_subtotal_appends st row e cur Hd Hrow Hc)
      as (l & Hl & ->).
    rewrite bind_Ok.
    destruct (IH (mk_pstate
                    (dict_set (cur +:+ " (subtotal)") (SList (l ++ [e]))
                       (sections st)) (Some cur)))
      as (st' & Hrun & Hc' & Hd' & Hlist & Hother); [done| |].
    { apply well_shaped_set_list; [apply subtotal_key_not_total | done]. }
    exists st'. split_and!; try done.
    + rewrite Hlist. simpl. rewrite listed_set_eq, <- app_assoc. f_equal.
      unfold listed. now destruct Hl as [->|[-> ->]].
    + intros k Hk. rewrite (Hother k Hk). simpl.
      now rewrite dict_get_set_ne.
Qed.

(** X5.  Subtotals are not reset when a section is opened again: with the
    same caption in two headers, each followed by subtotal rows, the list
    under the caption followed by [" (subtotal)"] holds what it held,
    then the subtotals after the first header, then those after the
    second, while the list under the caption itself is the new empty
    one. *)
Theorem subtotals_survive_reopening
    (soup table : node) (pre : list node) (st0 : pstate)
    (hdr1 hdr2 : node) (c : string)
    (subs1 subs2 : list node) (es1 es2 : list entry) :
  find_table soup = Some table →
  find_all (has_name ["tr"]) table = pre ++ hdr1 :: subs1 ++ hdr2 :: subs2 →
  for_each process_row pre initial = Ok st0 →
  section_caption hdr1 = Some c → Forall2 reads_subtotal subs1 es1 →
  section_caption hdr2 = Some c → Forall2 reads_subtotal subs2 es2 →
  ∃ d, parse_metrics_page soup = Ok (Some d)
       ∧ listed (c +:+ " (subtotal)") d
         = listed (c +:+ " (subtotal)") (sections st0) ++ es1 ++ es2
       ∧ dict_get c d = Some (SList []).
Proof.
  intros Ht Hrows Hpre Hc1 Hs1 Hc2 Hs2.
  destruct (reached_state_shaped _ _ _ Hpre) as [_ Hd0];
    [apply initial_shaped..|].
  assert (Hc : c ≠ "TOTAL ALL SCORE").
  { unfold section_caption in Hc1. destruct (header_cell hdr1); [|done].
    destruct (negb _); [|done]. simpl in Hc1.
    destruct (PyStr.contains "Score in" _) eqn:E; simplify_eq.
    now apply score_in_not_total. }
  pose proof (subtotal_key_not_caption c) as Hk.
  set (key := c +:+ " (subtotal)") in *.
  destruct (subtotal_rows_append subs1 es1
              (mk_pstate (dict_set c (SList []) (sections st0)) (Some c)) c)
    as (st1 & Hrun1 & Hcur1 & Hd1 & Hl1 & Ho1);
    [done.. | now apply well_shaped_set_list |].
  destruct (subtotal_rows_append subs2 es2
              (mk_pstate (dict_set c (SList []) (sections st1)) (Some c)) c)
    as (st2 & Hrun2 & Hcur2 & Hd2 & Hl2 & Ho2);
    [done.. | now apply well_shaped_set_list |].
  exists (sections st2). unfold parse_metrics_page.
  rewrite Ht, Hrows, for_each_app, Hpre, bind_Ok. simpl.
  rewrite (process_row_section _ _ c Hc1), bind_Ok, for_each_app, Hrun1, bind_Ok.
  simpl. rewrite (process_row_section _ _ c Hc2), bind_Ok, Hrun2, bind_Ok.
  split_and!; [done | |].
  - fold key in Hl1, Hl2. rewrite Hl2. simpl.
    rewrite listed_set_ne, Hl1 by done. simpl.
    rewrite listed_set_ne by done. now rewrite <- app_assoc.
  - rewrite Ho2 by done. simpl. apply dict_get_set_eq.
Qed.

Lemma subtotals_survive_reopening_witness :
  ∃ d, parse_metrics_page subtotal_page = Ok (Some d)
       ∧ listed (publication +:+ " (subtotal)") d
         = [ SubtotalEntry "Total Score Publication" "12,5";
             SubtotalEntry "Total Score Ternormal" "0,75" ]
       ∧ dict_get publication d = Some (SList []).
Proof.
  apply (subtotals_survive_reopening subtotal_page
           (Tag "table" [("class", AList ["table"; "table-bordered"])]
              [ section_row publication;
                subtotal_row "Total Score Publication" "12,5";
                section_row publication;
                subtotal_row "Total Score Ternormal" "0,75" ])
           [] initial (section_row publication) (section_row publication)
           publication
           [subtotal_row "Total Score Publication" "12,5"]
           [subtotal_row "Total Score Ternormal" "0,75"]
           [SubtotalEntry "Total Score Publication" "12,5"]
           [SubtotalEntry "Total Score Ternormal" "0,75"]);
    try reflexivity;
    (constructor; [|constructor]);
    (split; [reflexivity|]; split; [reflexivity|]);
    eexists _, _; split_and!; reflexivity.
Defined.

(** X6.  A grand-total row does not close the open section: the detail
    rows after it go to the same list as those before it, and the
    string under ["TOTAL ALL SCORE"] is the text of its last heading
    cell. *)
Theorem grand_total_keeps_section_open
    (soup table : node) (pre : list node) (st0 : pstate)
    (hdr trow : node) (c total : string)
    (ds1 ds2 : list node) (es1 es2 : list entry) :
  find_table soup = Some table →
  find_all (has_name ["tr"]) table = pre ++ hdr :: ds1 ++ trow :: ds2 →
  for_each process_row pre initial = Ok st0 →
  section_caption hdr = Some c → Forall2 reads ds1 es1 →
  reads_grand_total trow total → Forall2 reads ds2 es2 →
  ∃ d, parse_metrics_page soup = Ok (Some d)
       ∧ dict_get c d = Some (SList (es1 ++ es2))
       ∧ dict_get "TOTAL ALL SCORE" d = Some (SStr total).
Proof.
  intros Ht Hrows Hpre Hc Hd1 (Hsk & cell & th & Hcell & Htxt & Hth & ->) Hd2.
  pose proof (section_caption_nonempty _ _ Hc) as Hne.
  assert (Hct : c ≠ "TOTAL ALL SCORE").
  { unfold section_caption in Hc. destruct (header_cell hdr); [|done].
    destruct (negb _); [|done]. simpl in Hc.
    destruct (PyStr.contains "Score in" _) eqn:E; simplify_eq.
    now apply score_in_not_total. }
  eexists. unfold parse_metrics_page.
  rewrite Ht, Hrows, for_each_app, Hpre, bind_Ok. simpl.
  rewrite (process_row_section _ _ c Hc), bind_Ok, for_each_app.
  rewrite (detail_rows_append ds1 es1 _ c []);
    [|done|done|done|apply dict_get_set_eq].
  rewrite bind_Ok. simpl.
  rewrite process_row_total_all by done. unfold total_all_step.
  rewrite Hcell, Htxt, Hth, !bind_Ok. simpl.
  rewrite (detail_rows_append ds2 es2 _ c es1); [|done|done|done|].
  2: { simpl. rewrite dict_get_set_ne by done. apply dict_get_set_eq. }
  simpl. split_and!; [done | apply dict_get_set_eq |].
  rewrite dict_get_set_ne by done. apply dict_get_set_eq.
Qed.

Lemma grand_total_keeps_section_open_witness :
  ∃ d, parse_metrics_page interleaved_total_page = Ok (Some d)
       ∧ dict_get publication d
         = Some (SList [ ScoreRow "AI1" "Q1 articles" "40" "1.5" "60.0";
                         ScoreRow "AI2" "Q2 articles" "30" "2.5" "75.0" ])
       ∧ dict_get "TOTAL ALL SCORE" d = Some (SStr "543,21").
Proof.
  apply (grand_total_keeps_section_open interleaved_total_page
           (Tag "table" [("class", AList ["table"; "table-bordered"])]
              [ section_row publication;
                detail_row "AI1" "Q1 articles" "40" "1,5" "60,0";
                grand_total_row "543,21";
                detail_row "AI2" "Q2 articles" "30" "2,5" "75,0" ])
           [] initial (section_row publication) (grand_total_row "543,21")
           publication "543,21"
           [detail_row "AI1" "Q1 articles" "40" "1,5" "60,0"]
           [detail_row "AI2" "Q2 articles" "30" "2,5" "75,0"]
           [ScoreRow "AI1" "Q1 articles" "40" "1.5" "60.0"]
           [ScoreRow "AI2" "Q2 articles" "30" "2.5" "75.0"]);
    try reflexivity.
  - constructor; [split_and!; reflexivity | constructor].
  - split; [reflexivity|]. eexists _, _. split_and!; reflexivity.
  - constructor; [split_and!; reflexivity | constructor].
Defined.

End ParserExtras.

(** * Properties of the fetch loops *)

Section FetchLoops.
Import Soup Scraper Fetch.

Context {cell : Type} (str : cell → string)
  (requests_get : string → option response)
  (BeautifulSoup : string → node)
  (read_csv : string → option (list (csv_row cell)))
  (writes : string → list (institution cell) → bool)
  (timestamp : string)
  (time_sleep : pyval → outcome unit).

#[local] Open Scope nat_scope.

#[local] Abbreviation scraped := (scraped cell str requests_get BeautifulSoup).
#[local] Abbreviation scrape_row :=
  (scrape_row cell str requests_get BeautifulSoup time_sleep).
#[local] Abbreviation script_row := (script_row cell str requests_get BeautifulSoup).
#[local] Abbreviation perform_scraping :=
  (perform_scraping cell str requests_get BeautifulSoup read_csv writes
     timestamp time_sleep).
#[local] Abbreviation script :=
  (script cell str requests_get BeautifulSoup read_csv writes).
#[local] Abbreviation sleeps := (sleeps cell).
#[local] Abbreviation time_sleeps := (time_sleeps cell).

Lemma omap_cons_list {A B} (f : A → option B) (x : A) (l : list A) :
  omap f (x :: l) = option_list (f x) ++ omap f l.
Proof. simpl. now destruct (f x). Qed.

Lemma omap_length_le {A B} (f : A → option B) (l : list A) :
  length (omap f l) ≤ length l.
Proof.
  induction l as [|x l IH]; [done|]. rewrite omap_cons_list, length_app.
  destruct (f x); simpl; lia.
Qed.

Lemma sleeps_app lg lg' : sleeps (lg ++ lg') = sleeps lg ++ sleeps lg'.
Proof. apply List.filter_app. Qed.

Lemma sleeps_shown ns : sleeps (map (Shown cell) ns) = [].
Proof. induction ns as [|n ns IH]; [done | exact IH]. Qed.

(** One iteration, up to its sleep: the record is appended when there is
    one, the count goes up by one, and the sleep comes last, unless the
    count has reached the total. *)
Lemma scrape_row_unfold total delay p row :
  ∃ lg,
    sleeps lg = sleeps (log _ p)
    ∧ scrape_row total delay p row
      = if S (processed_count _ p) <? total then
          _ ← time_sleep delay;
          Ok (mk_progress cell (results _ p ++ option_list (scraped row))
                (S (processed_count _ p))
                (lg ++ [Progress cell (S (processed_count _ p)) total;
                        Sleep cell delay]))
        else
          Ok (mk_progress cell (results _ p ++ option_list (scraped row))
                (S (processed_count _ p))
                (lg ++ [Progress cell (S (processed_count _ p)) total])).
Proof.
  unfold Fetch.scrape_row, Fetch.scraped.
  destruct (scrape_institution_data _ _ _ _ _ _ _ _) as [result notices].
  rewrite Nat.add_1_r. cbn [fst].
  exists ((log _ p
           ++ [StatusScraping cell (column_nama_institusi _ row)
                 (column_sinta_id_link _ row) (S (processed_count _ p)) total])
          ++ map (Shown cell) notices).
  split.
  - rewrite !sleeps_app, sleeps_shown. simpl. now rewrite !app_nil_r.
  - assert (Hr : match result with
                 | Some r => results _ p ++ [r]
                 | None => results _ p
                 end = results _ p ++ option_list result).
    { destruct result; [done | now rewrite app_nil_r]. }
    rewrite Hr. destruct (S (processed_count _ p) <? total); [|done].
    destruct (time_sleep delay) as [[]|e]; [|done]. simpl.
    now rewrite <- app_assoc.
Qed.

(** An iteration that returns has appended the record of its row. *)
Lemma scrape_row_results total delay p row p' :
  scrape_row total delay p row = Ok p' →
  results _ p' = results _ p ++ option_list (scraped row).
Proof.
  destruct (scrape_row_unfold total delay p row) as (lg & _ & ->).
  destruct (S (processed_count _ p) <? total).
  - destruct (time_sleep delay) as [[]|e]; [|done]. now intros [= <-].
  - now intros [= <-].
Qed.

(** The records of a loop that comes to its end. *)
Lemma scrape_rows_results total delay rows : ∀ p p',
  for_each (scrape_row total delay) rows p = Ok p' →
  results _ p' = results _ p ++ omap scraped rows.
Proof.
  induction rows as [|row rows IH]; intros p p'; cbn [for_each].
  - intros [= <-]. simpl. now rewrite app_nil_r.
  - destruct (scrape_row total delay p row) as [p1|e] eqn:E; [|done].
    rewrite bind_Ok. intros H%IH.
    rewrite H, (scrape_row_results _ _ _ _ _ E), omap_cons_list.
    now rewrite <- app_assoc.
Qed.

(** The loop of [perform_scraping], from any point of its run, when
    [time.sleep(delay)] returns or is not called. *)
Lemma scrape_rows_run total delay rows : ∀ p,
  processed_count _ p + length rows ≤ total →
  time_sleep delay = Ok () ∨ total ≤ S (processed_count _ p) →
  ∃ p',
    for_each (scrape_row total delay) rows p = Ok p'
    ∧ results _ p' = results _ p ++ omap scraped rows
    ∧ processed_count _ p' = processed_count _ p + length rows
    ∧ sleeps (log _ p')
      = sleeps (log _ p)
        ++ replicate (length rows
                      - (if processed_count _ p + length rows =? total
                         then 1 else 0))
             (Sleep cell delay)
    ∧ (rows ≠ [] →
       ∃ lg, log _ p'
             = lg ++ Progress cell (processed_count _ p + length rows) total
                  :: (if processed_count _ p + length rows <? total
                      then [Sleep cell delay] else [])).
Proof.
  induction rows as [|row rows IH]; intros p Hle Hsleep.
  - exists p. simpl. rewrite Nat.add_0_r, !app_nil_r. split_and!; done.
  - simpl in Hle. cbn [for_each].
    destruct (scrape_row_unfold total delay p row) as (lg1 & Hs1 & Hrow).
    assert (∃ p1,
      scrape_row total delay p row = Ok p1
      ∧ results _ p1 = results _ p ++ option_list (scraped row)
      ∧ processed_count _ p1 = S (processed_count _ p)
      ∧ log _ p1
        = lg1 ++ Progress cell (S (processed_count _ p)) total
              :: (if S (processed_count _ p) <? total
                  then [Sleep cell delay] else [])) as (p1 & Hp1 & Hr & Hc & Hl).
    { rewrite Hrow.
      destruct (Nat.ltb_spec (S (processed_count _ p)) total) as [Hlt|Hge].
      - destruct Hsleep as [->|?]; [|lia]. eexists. split_and!; done.
      - eexists. split_and!; done. }
    rewrite Hp1, bind_Ok.
    destruct (IH p1) as (p' & Hrun & Hr' & Hc' & Hs' & Hl').
    { rewrite Hc. lia. }
    { destruct Hsleep as [?|?]; [now left | right; rewrite Hc; lia]. }
    exists p'. split; [exact Hrun|].
    rewrite Hr', Hc', Hs', Hr, Hc, Hl, omap_cons_list. cbn [length].
    replace (S (processed_count _ p) + length rows)
      with (processed_count _ p + S (length rows)) by lia.
    split_and!.
    + now rewrite <- app_assoc.
    + done.
    + rewrite sleeps_app, Hs1, <- app_assoc. f_equal.
      destruct (Nat.ltb_spec (S (processed_count _ p)) total) as [Hlt|Hge];
        destruct (Nat.eqb_spec (processed_count _ p + S (length rows)) total)
          as [Heq|Hne]; simpl.
      * destruct rows; simpl in *; [lia|]. now rewrite Nat.sub_0_r.
      * now rewrite Nat.sub_0_r.
      * assert (length rows = 0) as -> by lia. done.
      * lia.
    + intros _. destruct rows as [|row' rows].
      * simpl in Hrun. injection Hrun as <-. rewrite Hl, Nat.add_1_r. eauto.
      * destruct Hl' as [lg Hlg]; [done|]. exists lg.
        rewrite Hlg, Hc. cbn [length].
        now replace (S (processed_count _ p) + S (length rows))
          with (processed_count _ p + S (S (length rows))) by lia.
Qed.

(** With two rows or more, the first iteration sleeps: what
    [time.sleep(delay)] raises there ends the loop. *)
Lemma scrape_rows_raise delay rows e :
  2 ≤ length rows →
  time_sleep delay = Raised e →
  for_each (scrape_row (length rows) delay) rows
    (mk_progress cell [] 0 [ProgressBar cell]) = Raised e.
Proof.
  intros Hlen Hsleep. destruct rows as [|row rows]; [simpl in Hlen; lia|].
  cbn [for_each].
  destruct (scrape_row_unfold (length (row :: rows)) delay
              (mk_progress cell [] 0 [ProgressBar cell]) row) as (lg & _ & ->).
  cbn [processed_count].
  destruct (Nat.ltb_spec 1 (length (row :: rows))) as [_|?]; [|lia].
  now rewrite Hsleep.
Qed.

(** X7.  When [time.sleep(delay)] returns, or the frame has no second
    row so that it is not called, [perform_scraping] returns, in the
    order of the rows of the frame, the records of exactly the rows for
    which [scrape_institution_data] returned one, under the file name
    made of the timestamp; the last two effects are the writing of these
    records and the final status.  When [time.sleep(delay)] raises and
    the frame has two rows or more, the call raises and nothing is
    written. *)
Theorem perform_scraping_results csv_input delay df :
  read_csv csv_input = Some df →
  writes ("sinta_metrics_cluster_" +:+ timestamp +:+ ".json")
         (omap scraped df) = true →
  (time_sleep delay = Ok () ∨ length df ≤ 1 →
   ∃ lg,
     perform_scraping csv_input delay
     = Some ("sinta_metrics_cluster_" +:+ timestamp +:+ ".json",
             omap scraped df,
             lg ++ [ WriteJson cell
                       ("sinta_metrics_cluster_" +:+ timestamp +:+ ".json")
                       (omap scraped df);
                     StatusDone cell
                       ("sinta_metrics_cluster_" +:+ timestamp +:+ ".json") ])
     ∧ length (omap scraped df) ≤ length df)
  ∧ (∀ e, time_sleep delay = Raised e → 2 ≤ length df →
          perform_scraping csv_input delay = None).
Proof.
  intros Hread Hw. unfold Fetch.perform_scraping. rewrite Hread. simpl. split.
  - intros Hsleep.
    destruct (scrape_rows_run (length df) delay df
                (mk_progress cell [] 0 [ProgressBar cell]))
      as (p & -> & Hr & _); [done | simpl; tauto |].
    simpl in Hr. rewrite Hr, Hw. eexists. split; [done|].
    apply omap_length_le.
  - intros e Hsleep Hlen. now rewrite (scrape_rows_raise delay df e).
Qed.

(** X8.  When [time.sleep(delay)] returns, [perform_scraping] calls it
    once less than there are rows, whether the rows give a record or
    not; when there is a row, nothing happens between the last update of
    the progress bar, at [n/n], and the writing of the file: there is no
    sleep after the last institution.  With a single row or none it is
    not called at all, so that a delay it would refuse goes unnoticed. *)
Theorem perform_scraping_sleeps csv_input delay df :
  read_csv csv_input = Some df →
  writes ("sinta_metrics_cluster_" +:+ timestamp +:+ ".json")
         (omap scraped df) = true →
  time_sleep delay = Ok () ∨ length df ≤ 1 →
  ∃ name rs lg,
    perform_scraping csv_input delay = Some (name, rs, lg)
    ∧ sleeps lg = replicate (length df - 1) (Sleep cell delay)
    ∧ (df ≠ [] →
       ∃ lg0, lg = lg0 ++ [ Progress cell (length df) (length df);
                            WriteJson cell name rs; StatusDone cell name ]).
Proof.
  intros Hread Hw Hsleep. unfold Fetch.perform_scraping. rewrite Hread. simpl.
  destruct (scrape_rows_run (length df) delay df
              (mk_progress cell [] 0 [ProgressBar cell]))
    as (p & -> & Hr & _ & Hs & Hl); [done | simpl; tauto |].
  simpl in Hr, Hs, Hl. rewrite Hr, Hw. do 3 eexists. split; [done|].
  rewrite Nat.eqb_refl in Hs. rewrite Nat.ltb_irrefl in Hl. split.
  - rewrite sleeps_app, Hs. simpl. now rewrite app_nil_r.
  - intros Hne. destruct (Hl Hne) as [lg0 ->]. exists lg0.
    now rewrite <- app_assoc.
Qed.

Lemma time_sleeps_app out out' :
  time_sleeps (out ++ out') = time_sleeps out ++ time_sleeps out'.
Proof. apply List.filter_app. Qed.

(** One iteration of the script: the record is appended when there is
    one, and then only is there a sleep. *)
Lemma script_row_step total rs out idx row :
  ∃ out',
    script_row total (rs, out) (idx, row)
    = (rs ++ option_list (scraped row), out')
    ∧ time_sleeps out'
      = time_sleeps out
        ++ replicate (length (option_list (scraped row)))
             (TimeSleep cell DELAY).
Proof.
  unfold Fetch.script_row, Fetch.scraped, scrape_institution_data.
  destruct (requests_get _) as [response|].
  2: { eexists. split; [now rewrite app_nil_r|].
       rewrite !time_sleeps_app. simpl. now rewrite !app_nil_r. }
  destruct (negb _).
  { eexists. split; [now rewrite app_nil_r|].
    rewrite !time_sleeps_app. simpl. now rewrite !app_nil_r. }
  destruct (parse_metrics_page _) as [[metrics|]|e];
    eexists; (split; [simpl; now rewrite ?app_nil_r|]);
    rewrite !time_sleeps_app; simpl; now rewrite ?app_nil_r.
Qed.

Lemma script_rows_run total rows : ∀ k rs out,
  ∃ out',
    foldl (script_row total) (rs, out) (imap (fun idx row => (k + idx, row)) rows)
    = (rs ++ omap scraped rows, out')
    ∧ time_sleeps out'
      = time_sleeps out
        ++ replicate (length (omap scraped rows)) (TimeSleep cell DELAY).
Proof.
  induction rows as [|row rows IH]; intros k rs out.
  - exists out. simpl. now rewrite !app_nil_r.
  - rewrite imap_cons. cbn [foldl]. rewrite Nat.add_0_r.
    destruct (script_row_step total rs out k row) as (out1 & -> & Hs1).
    rewrite (imap_ext _ (fun idx row => (S k + idx, row))).
    2: { intros i x _. simpl. f_equal. lia. }
    destruct (IH (S k) (rs ++ option_list (scraped row)) out1)
      as (out2 & -> & Hs2).
    exists out2. rewrite omap_cons_list, length_app, replicate_add.
    split; [now rewrite <- app_assoc|]. now rewrite Hs2, Hs1, <- app_assoc.
Qed.

(** X9.  The script of new_scraping.py calls [time.sleep(DELAY)] exactly
    once for each record it gathers, the last one included, and not for
    an institution that gives none. *)
Theorem script_sleeps_once_per_record df :
  read_csv CSV_INPUT = Some df →
  writes OUTPUT_JSON (omap scraped df) = true →
  ∃ out,
    script
    = Some (omap scraped df,
            out ++ [ DumpJson cell OUTPUT_JSON (omap scraped df);
                     PrintDone cell OUTPUT_JSON ])
    ∧ time_sleeps out
      = replicate (length (omap scraped df)) (TimeSleep cell DELAY).
Proof.
  intros Hread Hw. unfold Fetch.script. rewrite Hread. simpl.
  destruct (script_rows_run (length df) df 0 [] []) as (out & Hrun & Hs).
  rewrite (imap_ext _ (fun idx row => (0 + idx, row))) by done.
  rewrite Hrun. simpl. rewrite Hw. now exists out.
Qed.

(** X10.  From the same frame and the same responses the script and
    [perform_scraping] gather the same records, in the same order,
    whatever the delay. *)
Theorem script_and_module_agree delay name rs lg rs' out :
  perform_scraping CSV_INPUT delay = Some (name, rs, lg) →
  script = Some (rs', out) →
  rs = rs'.
Proof.
  unfold Fetch.perform_scraping, Fetch.script.
  destruct (read_csv CSV_INPUT) as [df|]; [|done]. simpl.
  destruct (for_each _ df _) as [p|] eqn:Hloop; [|done].
  apply scrape_rows_results in Hloop. simpl in Hloop. rewrite Hloop.
  destruct (script_rows_run (length df) df 0 [] []) as (out1 & Hrun & _).
  rewrite (imap_ext _ (fun idx row => (0 + idx, row))) by done.
  rewrite Hrun. simpl.
  destruct (writes _ _); [|done]. destruct (writes _ _); [|done].
  now intros [= _ <- _] [= <- _].
Qed.

(** When [scrape_institution_data] returns a record. *)
Lemma scraped_Some (row : csv_row cell) (r : institution cell) :
  scraped row = Some r
  ↔ ∃ response metrics,
      requests_get (profile_url cell str (column_sinta_id_link _ row))
      = Some response
      ∧ status_code response = 200%Z
      ∧ parse_metrics_page (BeautifulSoup (text response)) = Ok (Some metrics)
      ∧ r = mk_institution cell (column_kode_pt _ row)
              (column_nama_institusi _ row) (column_klaster _ row)
              (column_sinta_id_link _ row) metrics.
Proof.
  unfold Fetch.scraped, scrape_institution_data.
  destruct (requests_get _) as [response|].
  2: { split; [done | now intros (? & ? & ? & _)]. }
  destruct (Z.eqb_spec (status_code response) 200) as [Hs|Hs]; simpl.
  2: { split; [done | intros (? & ? & [= <-] & ? & _); done]. }
  destruct (parse_metrics_page _) as [[metrics|]|e] eqn:Hp; simpl.
  - split.
    + intros [= <-]. now exists response, metrics.
    + intros (? & ? & [= <-] & _ & Hm & ->). congruence.
  - split; [done | intros (? & ? & [= <-] & _ & ? & _); congruence].
  - split; [done | intros (? & ? & [= <-] & _ & ? & _); congruence].
Qed.

(** X21.  The records [perform_scraping] returns are exactly those of the
    rows of the frame whose page was fetched with status 200 and parsed
    into a mapping: each record carries the four cells of its row and
    the mapping parsed from its page, which is well shaped; a row whose
    request fails, whose status is not 200, whose page has no table or
    makes the parser raise gives no record. *)
Theorem perform_scraping_records csv_input delay df name rs lg
    (r : institution cell) :
  read_csv csv_input = Some df →
  perform_scraping csv_input delay = Some (name, rs, lg) →
  r ∈ rs
  ↔ ∃ row response,
      row ∈ df
      ∧ requests_get (profile_url cell str (column_sinta_id_link _ row))
        = Some response
      ∧ status_code response = 200%Z
      ∧ parse_metrics_page (BeautifulSoup (text response))
        = Ok (Some (Metrics _ r))
      ∧ Shape.well_shaped (Metrics _ r)
      ∧ Kode_PT _ r = column_kode_pt _ row
      ∧ Nama_Institusi _ r = column_nama_institusi _ row
      ∧ Klaster _ r = column_klaster _ row
      ∧ Sinta_ID _ r = column_sinta_id_link _ row.
Proof.
  intros Hread. unfold Fetch.perform_scraping. rewrite Hread. simpl.
  destruct (for_each _ df _) as [p|] eqn:Hloop; [|done].
  apply scrape_rows_results in Hloop. simpl in Hloop. rewrite Hloop.
  destruct (writes _ _); [|done].
  intros [= _ <- _]. rewrite list_elem_of_omap. split.
  - intros (row & Hin & (response & metrics & Hg & Hs & Hp & ->)%scraped_Some).
    exists row, response. simpl. split_and!; try done.
    now apply (parse_result_shaped _ _ Hp).
  - intros (row & response & Hin & Hg & Hs & Hp & _ & H1 & H2 & H3 & H4).
    exists row. split; [done|]. apply scraped_Some.
    exists response, (Metrics _ r). split_and!; try done.
    destruct r. simpl in *. now subst.
Qed.

End FetchLoops.

Section FetchRuns.
Import Soup Scraper Fetch.

#[local] Open Scope nat_scope.

Lemma perform_scraping_results_witness :
  (∃ lg,
     Fetch.perform_scraping string FetchSamples.str FetchSamples.requests_get
       FetchSamples.BeautifulSoup FetchSamples.read_csv FetchSamples.writes
       FetchSamples.timestamp FetchSamples.time_sleep
       "hasil_sinta_metric.csv" (PInt 1)
     = Some ("sinta_metrics_cluster_20260101_120000.json",
             [ mk_institution string "001001" "Universitas A" "Mandiri" "101"
                 [ (Samples.publication,
                    SList [ScoreRow "AI1" "Q1 articles" "40" "1.234" "49.36"]);
                   ("TOTAL ALL SCORE", SStr "543,21") ] ],
             lg))
  ∧ Fetch.perform_scraping string FetchSamples.str FetchSamples.requests_get
      FetchSamples.BeautifulSoup FetchSamples.read_csv FetchSamples.writes
      FetchSamples.timestamp FetchSamples.time_sleep
      "hasil_sinta_metric.csv" (PInt (-1))
    = None.
Proof.
  split.
  - destruct (perform_scraping_results FetchSamples.str
                FetchSamples.requests_get FetchSamples.BeautifulSoup
                FetchSamples.read_csv FetchSamples.writes
                FetchSamples.timestamp FetchSamples.time_sleep
                "hasil_sinta_metric.csv" (PInt 1) FetchSamples.frame
                eq_refl eq_refl) as [Hreturns _].
    destruct (Hreturns (or_introl eq_refl)) as (lg & H & _).
    eexists. exact H.
  - destruct (perform_scraping_results FetchSamples.str
                FetchSamples.requests_get FetchSamples.BeautifulSoup
                FetchSamples.read_csv FetchSamples.writes
                FetchSamples.timestamp FetchSamples.time_sleep
                "hasil_sinta_metric.csv" (PInt (-1)) FetchSamples.frame
                eq_refl eq_refl) as [_ Hraises].
    apply (Hraises ValueError eq_refl). simpl. lia.
Defined.

Lemma perform_scraping_sleeps_witness :
  ∃ name rs lg,
    Fetch.perform_scraping string FetchSamples.str FetchSamples.requests_get
      FetchSamples.BeautifulSoup FetchSamples.read_csv FetchSamples.writes
      FetchSamples.timestamp FetchSamples.time_sleep
      "hasil_sinta_metric.csv" (PInt 1)
    = Some (name, rs, lg)
    ∧ Fetch.sleeps string lg
      = [Sleep string (PInt 1); Sleep string (PInt 1)].
Proof.
  destruct (perform_scraping_sleeps FetchSamples.str FetchSamples.requests_get
              FetchSamples.BeautifulSoup FetchSamples.read_csv
              FetchSamples.writes FetchSamples.timestamp
              FetchSamples.time_sleep
              "hasil_sinta_metric.csv" (PInt 1) FetchSamples.frame
              eq_refl eq_refl (or_introl eq_refl)) as (name & rs & lg & H & Hs & _).
  exists name, rs, lg. split; [exact H | exact Hs].
Defined.

Lemma script_sleeps_once_per_record_witness :
  ∃ out rs,
    Fetch.script string FetchSamples.str FetchSamples.requests_get
      FetchSamples.BeautifulSoup FetchSamples.read_csv FetchSamples.writes
    = Some (rs, out ++ [ DumpJson string OUTPUT_JSON rs;
                         PrintDone string OUTPUT_JSON ])
    ∧ length rs = 1
    ∧ Fetch.time_sleeps string out = [TimeSleep string (PInt 1)].
Proof.
  destruct (script_sleeps_once_per_record FetchSamples.str
              FetchSamples.requests_get FetchSamples.BeautifulSoup
              FetchSamples.read_csv FetchSamples.writes FetchSamples.frame
              eq_refl eq_refl) as (out & H & Hs).
  exists out. eexists. split; [exact H|]. split; [reflexivity | exact Hs].
Defined.

Lemma script_and_module_agree_witness :
  ∃ name rs lg out,
    Fetch.perform_scraping string FetchSamples.str FetchSamples.requests_get
      FetchSamples.BeautifulSoup FetchSamples.read_csv FetchSamples.writes
      FetchSamples.timestamp FetchSamples.time_sleep
      CSV_INPUT (PFloat PyFloat.zero)
    = Some (name, rs, lg)
    ∧ Fetch.script string FetchSamples.str FetchSamples.requests_get
        FetchSamples.BeautifulSoup FetchSamples.read_csv FetchSamples.writes
      = Some (rs, out).
Proof.
  destruct (Fetch.perform_scraping string FetchSamples.str
              FetchSamples.requests_get FetchSamples.BeautifulSoup
              FetchSamples.read_csv FetchSamples.writes FetchSamples.timestamp
              FetchSamples.time_sleep CSV_INPUT (PFloat PyFloat.zero))
    as [[[name rs] lg]|] eqn:E1; [|vm_compute in E1; discriminate E1].
  destruct (Fetch.script string FetchSamples.str FetchSamples.requests_get
              FetchSamples.BeautifulSoup FetchSamples.read_csv
              FetchSamples.writes)
    as [[rs' out]|] eqn:E2; [|vm_compute in E2; discriminate E2].
  exists name, rs, lg, out. split; [reflexivity|].
  now rewrite (script_and_module_agree FetchSamples.str
                 FetchSamples.requests_get FetchSamples.BeautifulSoup
                 FetchSamples.read_csv FetchSamples.writes
                 FetchSamples.timestamp FetchSamples.time_sleep
                 _ _ _ _ _ _ E1 E2).
Defined.

Lemma perform_scraping_records_witness :
  ∃ name rs lg r,
    Fetch.perform_scraping string FetchSamples.str FetchSamples.requests_get
      FetchSamples.BeautifulSoup FetchSamples.read_csv FetchSamples.writes
      FetchSamples.timestamp FetchSamples.time_sleep CSV_INPUT (PInt 1)
    = Some (name, rs, lg)
    ∧ r ∈ rs
    ∧ Nama_Institusi _ r = "Universitas A"
    ∧ Shape.well_shaped (Metrics _ r).
Proof.
  pose (r := mk_institution string "001001" "Universitas A" "Mandiri" "101"
               [ (Samples.publication,
                  SList [ScoreRow "AI1" "Q1 articles" "40" "1.234" "49.36"]);
                 ("TOTAL ALL SCORE", SStr "543,21") ]).
  destruct (perform_scraping_results FetchSamples.str
              FetchSamples.requests_get FetchSamples.BeautifulSoup
              FetchSamples.read_csv FetchSamples.writes
              FetchSamples.timestamp FetchSamples.time_sleep
              CSV_INPUT (PInt 1) FetchSamples.frame
              eq_refl eq_refl) as [Hreturns _].
  destruct (Hreturns (or_introl eq_refl)) as (lg & E & _).
  assert (Hin : r ∈ omap (Fetch.scraped string FetchSamples.str
                            FetchSamples.requests_get
                            FetchSamples.BeautifulSoup) FetchSamples.frame)
    by apply list_elem_of_here.
  destruct (proj1 (perform_scraping_records FetchSamples.str
                     FetchSamples.requests_get FetchSamples.BeautifulSoup
                     FetchSamples.read_csv FetchSamples.writes
                     FetchSamples.timestamp FetchSamples.time_sleep
                     CSV_INPUT (PInt 1)
                     FetchSamples.frame _ _ _ r eq_refl E) Hin)
    as (row & response & _ & _ & _ & _ & Hshape & _).
  do 3 eexists. exists r. split; [exact E|].
  split; [exact Hin|]. split; [reflexivity | exact Hshape].
Defined.

End FetchRuns.

(** * Further properties of [SintaDataManager] *)

Section FloatRange.

#[local] Open Scope Z_scope.

Lemma digits2_pos_size (m : positive) : digits2_pos m = Pos.size m.
Proof. induction m; simpl; congruence. Qed.

Lemma Zpos_size_bounds (m : positive) :
  2 ^ (Zpos (Pos.size m) - 1) <= Zpos m < 2 ^ Zpos (Pos.size m).
Proof.
  split.
  - pose proof (Pos.size_le m) as H.
    assert (Hp : (2 ^ Pos.size m <= m~0)%positive) by exact H.
    apply Pos2Z.pos_le_pos in Hp. rewrite Pos2Z.inj_pow in Hp.
    change (Z.pos m~0) with (2 * Z.pos m) in Hp.
    replace (Zpos (Pos.size m)) with (Z.succ (Zpos (Pos.size m) - 1)) in Hp by lia.
    rewrite Z.pow_succ_r in Hp by lia. lia.
  - pose proof (Pos.size_gt m) as H. apply Pos2Z.pos_lt_pos in H.
    now rewrite Pos2Z.inj_pow in H.
Qed.

Lemma shr_1_m (mrs : shr_record) :
  0 <= shr_m mrs → shr_m (shr_1 mrs) = Z.div2 (shr_m mrs).
Proof.
  destruct mrs as [m r s]. simpl. destruct m as [|[p|p|]|p]; simpl; try reflexivity.
  intros H. lia.
Qed.

Lemma iter_pos_shr_1_m (p : positive) : forall mrs,
  0 <= shr_m mrs →
  shr_m (SpecFloat.iter_pos shr_1 p mrs) = Z.shiftr (shr_m mrs) (Zpos p).
Proof.
  assert (Hd : forall m, 0 <= m -> 0 <= Z.div2 m).
  { intros m Hm. rewrite Z.div2_div. apply Z.div_pos; lia. }
  induction p as [p IH|p IH|]; intros mrs Hm; simpl.
  - rewrite IH, IH, shr_1_m by (rewrite ?IH, ?shr_1_m; try apply Z.shiftr_nonneg; auto; rewrite ?shr_1_m; auto).
    rewrite Z.div2_spec, !Z.shiftr_shiftr by lia. f_equal. lia.
  - rewrite IH, IH by (rewrite ?IH; try apply Z.shiftr_nonneg; auto).
    rewrite !Z.shiftr_shiftr by lia. f_equal. lia.
  - rewrite shr_1_m by auto. now rewrite Z.div2_spec.
Qed.

Lemma Zdigits2_log2 (m : Z) : 0 < m -> Zdigits2 m = Z.log2 m + 1.
Proof.
  destruct m as [|p|p]; try lia. intros _. simpl.
  rewrite digits2_pos_size.
  destruct p; simpl; rewrite ?Pos2Z.inj_succ; lia.
Qed.

(** An integer of 1025 bits or more is beyond the largest float. *)
Lemma binary_round_overflow (sx : bool) (m : positive) :
  2 ^ 1024 <= Zpos m ->
  binary_round PyFloat.prec PyFloat.emax sx m 0 = S754_infinity sx.
Proof.
  intros Hm. unfold binary_round.
  pose proof (Zpos_size_bounds m) as [Hlo Hhi].
  set (d := Zpos (Pos.size m)) in *.
  assert (Hd : 1025 <= d).
  { destruct (Z.le_gt_cases 1025 d) as [?|Hlt]; [assumption|].
    assert (2 ^ d <= 2 ^ 1024) by (apply Z.pow_le_mono_r; lia). lia. }
  rewrite digits2_pos_size. fold d.
  assert (Hfexp : forall e, 972 <= e - 53 -> fexp PyFloat.prec PyFloat.emax e = e - 53).
  { intros e He. unfold fexp, emin, PyFloat.prec, PyFloat.emax. lia. }
  rewrite Z.add_0_r, (Hfexp d) by lia.
  unfold shl_align. replace (d - 53 - 0) with (d - 53) by lia.
  destruct (d - 53) as [|p|p] eqn:Hp; try lia.
  unfold binary_round_aux, shr_fexp.
  cbn [Zdigits2]. rewrite digits2_pos_size. fold d.
  rewrite Z.add_0_r, (Hfexp d) by lia.
  replace (d - 53 - 0) with (Zpos p) by lia.
  cbn [shr shr_record_of_loc].
  set (mrs := SpecFloat.iter_pos shr_1 p {| shr_m := Zpos m; shr_r := false; shr_s := false |}).
  assert (Hmrs : shr_m mrs = Z.shiftr (Zpos m) (Zpos p)).
  { unfold mrs. now rewrite iter_pos_shr_1_m. }
  assert (Hb : 2 ^ 52 <= shr_m mrs < 2 ^ 53).
  { rewrite Hmrs, Z.shiftr_div_pow2 by lia. split.
    - apply Z.div_le_lower_bound; [apply Z.pow_pos_nonneg; lia|].
      rewrite <- Z.pow_add_r by lia. replace (Zpos p + 52) with (d - 1) by lia.
      assumption.
    - apply Z.div_lt_upper_bound; [apply Z.pow_pos_nonneg; lia|].
      rewrite <- Z.pow_add_r by lia. replace (Zpos p + 53) with d by lia.
      assumption. }
  set (m1 := round_nearest_even (shr_m mrs) (loc_of_shr_record mrs)).
  assert (Hm1 : 2 ^ 52 <= m1 <= 2 ^ 53).
  { unfold m1, round_nearest_even.
    destruct (loc_of_shr_record mrs) as [|[]]; try destruct (Z.even _); lia. }
  assert (Hdig : Zdigits2 m1 = 53 \/ Zdigits2 m1 = 54).
  { rewrite Zdigits2_log2 by lia.
    assert (52 <= Z.log2 m1).
    { replace 52 with (Z.log2 (2 ^ 52)) by (apply Z.log2_pow2; lia).
      apply Z.log2_le_mono; lia. }
    assert (Z.log2 m1 <= 53).
    { replace 53 with (Z.log2 (2 ^ 53)) by (apply Z.log2_pow2; lia).
      apply Z.log2_le_mono; lia. }
    lia. }
  rewrite (Hfexp (Zdigits2 m1 + (0 + Zpos p))) by lia.
  destruct Hdig as [Hdig|Hdig]; rewrite Hdig.
  - replace (53 + (0 + Zpos p) - 53 - (0 + Zpos p)) with 0 by lia.
    cbn [shr shr_record_of_loc shr_m].
    destruct m1 as [|q|q] eqn:Hq; try lia.
    destruct (Z.leb_spec (0 + Zpos p) (PyFloat.emax - PyFloat.prec)) as [Hle|_]; [|reflexivity].
    unfold PyFloat.emax, PyFloat.prec in Hle. lia.
  - replace (54 + (0 + Zpos p) - 53 - (0 + Zpos p)) with 1 by lia.
    cbn [shr shr_record_of_loc SpecFloat.iter_pos].
    rewrite shr_1_m by (simpl; lia). cbn [shr_m].
    assert (0 < Z.div2 m1).
    { rewrite Z.div2_div. apply Z.div_str_pos. lia. }
    destruct (Z.div2 m1) as [|q|q] eqn:Hq; try lia.
    destruct (Z.leb_spec (0 + Zpos p + 1) (PyFloat.emax - PyFloat.prec)) as [Hle|_]; [|reflexivity].
    unfold PyFloat.emax, PyFloat.prec in Hle. lia.
Qed.

(** [float(n)] returns only for an integer below [2 ^ 1024]. *)
Lemma of_int_bound (n : Z) (f : spec_float) :
  PyFloat.of_int n = Ok f → Z.abs n < 2 ^ 1024.
Proof.
  unfold PyFloat.of_int. intros H.
  destruct (Z.lt_ge_cases (Z.abs n) (2 ^ 1024)) as [?|Hge]; [assumption|].
  destruct n as [|m|m]; cbn [Z.abs] in Hge.
  - apply Z.leb_le in Hge. discriminate Hge.
  - cbn [binary_normalize] in H.
    now rewrite (binary_round_overflow false m Hge) in H.
  - cbn [binary_normalize] in H.
    now rewrite (binary_round_overflow true m Hge) in H.
Qed.

(** What [float()] converts, [str()] writes: an integer that has a float
    has fewer digits than the limit. *)
Lemma float_ok_printable (v : pyval) (f : spec_float) :
  float v = Ok f → str_raises v = false.
Proof.
  destruct v as [|b|n|x|s|l|l]; try done. cbn [float str_raises].
  intros H%of_int_bound. apply Z.leb_gt.
  eapply Z.lt_le_trans; [exact H|].
  apply Z.leb_le. vm_compute. reflexivity.
Qed.

End FloatRange.

Section Validation.
Import DataManager Manager.

#[local] Open Scope nat_scope.

(** The first loop of [validate_data]: a field is recorded as missing
    when it is among the required ones and not in the store. *)
Lemma missing_fields_lookup (db : gmap string pyval) (fields : list string) :
  ∀ (errors : gmap string issue) (k : string),
    foldl (fun (errors : gmap string issue) field =>
             match db !! field with
             | None => <[field := MissingField field]> errors
             | Some _ => errors
             end) errors fields !! k
    = if decide (k ∈ fields ∧ db !! k = None)
      then Some (MissingField k) else errors !! k.
Proof.
  induction fields as [|field fields IH]; intros errors k; cbn [foldl].
  - rewrite decide_False; [done|]. intros [H _]. now apply elem_of_nil in H.
  - rewrite IH.
    destruct (decide (k ∈ fields ∧ db !! k = None)) as [[Hin Hk]|Hn].
    { rewrite decide_True; [done|]. split; [now right | done]. }
    destruct (decide (k = field)) as [->|Hne].
    + destruct (db !! field) eqn:Hf.
      * rewrite decide_False; [done|]. now intros [_ ?].
      * rewrite lookup_insert_eq, decide_True; [done|]. split; [now left | done].
    + rewrite decide_False.
      * destruct (db !! field); [done | now rewrite lookup_insert_ne].
      * intros [[?|?]%elem_of_cons ?]; [done|]. now apply Hn.
Qed.

(** One iteration of the second loop: it raises what [refusal] says,
    and otherwise records what [check] says. *)
Lemma validate_item_step (errors : gmap string issue) (key : string)
    (value : pyval) :
  validate_item errors (key, value)
  = match refusal value with
    | Some e => Raised e
    | None => Ok (match check key value with
                  | Some i => <[key := i]> errors
                  | None => errors
                  end)
    end.
Proof.
  unfold validate_item, refusal, check, format.
  destruct (float value) as [f|e] eqn:Hf; simpl.
  - rewrite (float_ok_printable value f Hf).
    now destruct (PyFloat.ltb f PyFloat.zero).
  - destruct (float_raises value e Hf) as [->|[->| ->]]; simpl;
      now destruct (str_raises value).
Qed.

Lemma checks_run (l : list (string * pyval)) :
  NoDup l.*1 →
  (∀ k v, (k, v) ∈ l → refusal v = None) →
  ∀ errors : gmap string issue,
  ∃ errors',
    for_each validate_item l errors = Ok errors'
    ∧ ∀ k, errors' !! k
           = match (list_to_map l : gmap string pyval) !! k with
             | Some v =>
                 match check k v with
                 | Some i => Some i
                 | None => errors !! k
                 end
             | None => errors !! k
             end.
Proof.
  induction l as [|[key value] l IH]; intros Hnd Hno errors.
  - exists errors. split; [done|]. intros k. now rewrite list_to_map_nil, lookup_empty.
  - apply NoDup_cons in Hnd as [Hkey Hnd]. cbn [for_each].
    rewrite validate_item_step.
    rewrite (Hno key value) by now left.
    destruct (IH Hnd (fun k v H => Hno k v (proj2 (elem_of_cons _ _ _) (or_intror H)))
                (match check key value with
                 | Some i => <[key := i]> errors
                 | None => errors
                 end)) as (errors' & Hrun & Hlook).
    exists errors'. split; [exact Hrun|].
    intros k. rewrite Hlook, list_to_map_cons.
    destruct (decide (k = key)) as [->|Hne].
    + rewrite lookup_insert_eq.
      rewrite (not_elem_of_list_to_map_1 _ key Hkey).
      destruct (check key value); [apply lookup_insert_eq | done].
    + rewrite lookup_insert_ne by done.
      destruct (list_to_map l !! k) as [v|];
        [destruct (check k v); [done|] |];
        (destruct (check key value); [now rewrite lookup_insert_ne | done]).
Qed.

(** When an item of the list is refused, the loop raises, and what it
    raises is the refusal of an item of the list. *)
Lemma checks_refused (l : list (string * pyval)) :
  (∃ k v e, (k, v) ∈ l ∧ refusal v = Some e) →
  ∀ errors : gmap string issue,
  ∃ k v e, (k, v) ∈ l ∧ refusal v = Some e
           ∧ for_each validate_item l errors = Raised e.
Proof.
  induction l as [|[key value] l IH]; intros (k & v & e & Hin & Hv) errors.
  - now apply elem_of_nil in Hin.
  - cbn [for_each]. rewrite validate_item_step.
    destruct (refusal value) as [e'|] eqn:Hr.
    + exists key, value, e'. split_and!; [now left | done..].
    + rewrite bind_Ok.
      apply elem_of_cons in Hin as [[= -> ->]|Hin]; [congruence|].
      destruct (IH (ex_intro _ k (ex_intro _ v (ex_intro _ e (conj Hin Hv))))
                  (match check key value with
                   | Some i => <[key := i]> errors
                   | None => errors
                   end)) as (k1 & v1 & e1 & Hin1 & Hv1 & Hrun).
      exists k1, v1, e1. split_and!; [now right | done..].
Qed.

(** Whether some stored value is refused. *)
Lemma refusal_cases (db : gmap string pyval) :
  (∃ key value e, db !! key = Some value ∧ refusal value = Some e)
  ∨ (∀ key value, db !! key = Some value → refusal value = None).
Proof.
  destruct (List.existsb
              (fun kv : string * pyval =>
                 match refusal kv.2 with Some _ => true | None => false end)
              (map_to_list db)) eqn:Hex.
  - left. apply existsb_exists in Hex as ([k v] & Hin & Hv). simpl in Hv.
    destruct (refusal v) as [e|] eqn:Hr; [|done].
    exists k, v, e. split; [|done].
    now apply elem_of_map_to_list, list_elem_of_In.
  - right. intros k v Hl%elem_of_map_to_list%list_elem_of_In.
    destruct (refusal v) as [e|] eqn:Hr; [|done].
    assert (List.existsb
              (fun kv : string * pyval =>
                 match refusal kv.2 with Some _ => true | None => false end)
              (map_to_list db) = true) as Ht.
    { apply existsb_exists. exists (k, v). simpl. now rewrite Hr. }
    congruence.
Qed.

Lemma validate_data_refused (st : session) :
  (∃ key value e, SINTA_DB st !! key = Some value ∧ refusal value = Some e) →
  ∃ key value e,
    SINTA_DB st !! key = Some value ∧ refusal value = Some e
    ∧ validate_data st = Raised e.
Proof.
  intros (k & v & e & Hk & Hv). unfold validate_data.
  edestruct (checks_refused (map_to_list (SINTA_DB st)))
    as (k1 & v1 & e1 & Hin & Hv1 & Hrun).
  { exists k, v, e. split; [now apply elem_of_map_to_list | done]. }
  exists k1, v1, e1. split_and!; [now apply elem_of_map_to_list | done |].
  exact Hrun.
Qed.

Lemma validate_data_ok (st : session) :
  (∀ key value, SINTA_DB st !! key = Some value → refusal value = None) →
  ∃ errors, validate_data st = Ok errors
            ∧ ∀ key, errors !! key = expected_issue st key.
Proof.
  intros Hno. unfold validate_data.
  edestruct (checks_run (map_to_list (SINTA_DB st)))
    as (errors & Hrun & Hlook); [apply NoDup_fst_map_to_list | |].
  { intros k v Hin. apply (Hno k). now apply elem_of_map_to_list. }
  exists errors. split; [exact Hrun|].
  intros key. rewrite Hlook, list_to_map_to_list, missing_fields_lookup.
  unfold expected_issue.
  destruct (SINTA_DB st !! key) as [v|] eqn:Hk.
  - destruct (check key v); [done|]. case_decide as H; [|done].
    now destruct H.
  - rewrite lookup_empty. destruct (default_values st !! key) as [d|] eqn:Hd.
    + rewrite decide_True; [done|]. split; [|done].
      apply list_elem_of_fmap. exists (key, d).
      split; [done | now apply elem_of_map_to_list].
    + rewrite decide_False; [done|]. intros [Hin _].
      apply list_elem_of_fmap in Hin as ([k' d'] & -> & Hin).
      apply elem_of_map_to_list in Hin. simpl in Hd. congruence.
Qed.

(** X11.  What [validate_data] returns, for a store of shallow values.
    It raises when a stored value is refused: an integer beyond the largest float ([OverflowError]), or
    a list or dictionary holding an integer of more than 4300 digits
    ([ValueError], from the text of its issue); what it raises is the
    refusal of one of the stored values.  Otherwise it returns a mapping
    that has, for every key, the entry [expected_issue] gives: a numeric
    or sign issue for a stored value that has one, a missing field for a
    default field that is not in the store, and nothing for any other
    key. *)
Theorem validate_data_result (st : session) :
  (∀ key value, SINTA_DB st !! key = Some value → shallow value) →
  (∃ key value e, SINTA_DB st !! key = Some value
                  ∧ refusal value = Some e
                  ∧ validate_data st = Raised e)
  ∨ ((∀ key value, SINTA_DB st !! key = Some value → refusal value = None)
     ∧ ∃ errors, validate_data st = Ok errors
                 ∧ ∀ key, errors !! key = expected_issue st key).
Proof.
  intros _. destruct (refusal_cases (SINTA_DB st)) as [Hsome|Hno].
  - left. exact (validate_data_refused st Hsome).
  - right. split; [exact Hno|]. exact (validate_data_ok st Hno).
Qed.

(** A store is shallow when each of its items is. *)
Lemma shallow_store (db : gmap string pyval) :
  forallb (fun kv : string * pyval => (nesting kv.2 <=? nesting_bound)%nat)
    (map_to_list db) = true →
  ∀ key value, db !! key = Some value → shallow value.
Proof.
  intros Hall key value Hk%elem_of_map_to_list%list_elem_of_In.
  rewrite forallb_forall in Hall. apply Hall in Hk.
  now apply Nat.leb_le in Hk.
Qed.

Lemma validate_data_result_witness :
  let defaults : gmap string pyval :=
    {["AI1" := lit "0.092"; "AI2" := lit "0.076"; "AI3" := lit "0.139"]} in
  let st :=
    mk_session {["AI1" := PStr "not-a-number"; "AI2" := PInt (-3)]} defaults in
  let st' := mk_session {["AI1" := PList [PInt (10 ^ 4300)]]} defaults in
  (∃ errors,
     validate_data st = Ok errors
     ∧ errors !! "AI1" = Some (MustBeNumeric "AI1" (PStr "not-a-number"))
     ∧ errors !! "AI2" = Some (MustBeNonNegative "AI2" (PInt (-3)))
     ∧ errors !! "AI3" = Some (MissingField "AI3"))
  ∧ validate_data st' = Raised ValueError.
Proof.
  intros defaults st st'. split.
  - destruct (validate_data_result st)
      as [(key & value & e & _ & _ & Hraise)|(_ & errors & Hrun & Hlook)].
    + apply shallow_store. vm_compute. reflexivity.
    + exfalso. revert Hraise. vm_compute. discriminate.
    + exists errors. split; [exact Hrun|].
      rewrite !Hlook. split_and!; vm_compute; reflexivity.
  - assert (Hrefused : refusal (PList [PInt (10 ^ 4300)]) = Some ValueError)
      by (vm_compute; reflexivity).
    destruct (validate_data_result st')
      as [(key & value & e & Hk & He & Hraise)|(Hno & _)].
    + apply shallow_store. vm_compute. reflexivity.
    + unfold st' in Hk. cbn [SINTA_DB] in Hk.
      apply lookup_singleton_Some in Hk as [_ <-].
      rewrite Hrefused in He. now injection He as <-.
    + specialize (Hno "AI1" _ (lookup_singleton_eq _ _)). congruence.
Defined.

Lemma check_None (key : string) (value : pyval) :
  check key value = None ↔ is_non_negative_float value = true.
Proof.
  unfold check, is_non_negative_float.
  destruct (float value) as [f|e]; [|done].
  now destruct (PyFloat.ltb f PyFloat.zero).
Qed.

(** X12.  [validate_sinta_data] returns [True], and shows nothing,
    exactly when every field of the default table is in the store and
    every stored value converts to a float that is not below zero. *)
Theorem validate_sinta_data_passes (st : session) :
  validate_sinta_data st = Ok (true, ∅)
  ↔ (∀ field, is_Some (default_values st !! field) →
              is_Some (SINTA_DB st !! field))
    ∧ (∀ key value, SINTA_DB st !! key = Some value →
                    is_non_negative_float value = true).
Proof.
  unfold validate_sinta_data.
  destruct (refusal_cases (SINTA_DB st)) as [Hsome|Hno];
    [destruct (validate_data_refused st Hsome) as (k & v & e & Hk & Hv & ->)
    |destruct (validate_data_ok st Hno) as (errors & -> & Hlook)].
  - split; [done|]. intros [_ H]. specialize (H k v Hk).
    apply is_non_negative_float_spec in H as (f & Hf & _).
    unfold refusal in Hv. rewrite Hf, (float_ok_printable v f Hf) in Hv.
    discriminate Hv.
  - rewrite bind_Ok. destruct (Nat.eqb_spec (size errors) 0) as [Hs|Hs].
    + apply map_size_empty_iff in Hs. subst errors. split; [intros _|done].
      split.
      * intros field [d Hd]. specialize (Hlook field).
        rewrite lookup_empty in Hlook. unfold expected_issue in Hlook.
        destruct (SINTA_DB st !! field); [done|]. now rewrite Hd in Hlook.
      * intros key value Hkv. specialize (Hlook key).
        rewrite lookup_empty in Hlook. unfold expected_issue in Hlook.
        rewrite Hkv in Hlook. now apply (check_None key).
    + split; [done|]. intros [Hfields Hvalues]. destruct Hs.
      apply map_size_empty_iff, map_eq. intros key.
      rewrite Hlook, lookup_empty. unfold expected_issue.
      destruct (SINTA_DB st !! key) as [v|] eqn:Hk.
      * apply check_None. eauto.
      * destruct (default_values st !! key) as [d|] eqn:Hd; [|done].
        destruct (Hfields key) as [v Hv]; [eauto | congruence].
Qed.

End Validation.

Section Writes.
Import DataManager Manager.

#[local] Open Scope nat_scope.

(** X13.  A value that [float()] accepts is stored as that float without
    a warning, and is what [get_value] then returns for the key, whatever
    the default; the other keys read as before. *)
Theorem set_value_then_get_value
    (st : session) (key : string) (value : pyval) (f : spec_float) :
  float value = Ok f →
  ∃ st',
    set_value st key value = Ok (st', [])
    ∧ SINTA_DB st' !! key = Some (PFloat f)
    ∧ (∀ dflt, get_value st' key dflt = Ok f)
    ∧ (∀ key' dflt, key' ≠ key →
                    get_value st' key' dflt = get_value st key' dflt).
Proof.
  intros Hf. unfold set_value, set_value_state. rewrite Hf. simpl.
  eexists. split_and!.
  - done.
  - apply lookup_insert_eq.
  - intros dflt. unfold get_value. simpl. now rewrite lookup_insert_eq.
  - intros key' dflt Hne. unfold get_value. simpl.
    now rewrite lookup_insert_ne.
Qed.

Lemma set_value_then_get_value_witness :
  ∃ st',
    set_value (_ensure_session_state (mk_session_state None None))
      "AI1" (PStr " 12.5 ")
    = Ok (st', [])
    ∧ get_value st' "AI1" PNone = float (PStr "12.5").
Proof.
  destruct (set_value_then_get_value
              (_ensure_session_state (mk_session_state None None))
              "AI1" (PStr " 12.5 ")
              (default S754_nan (PyFloat.of_string "12.5")) eq_refl)
    as (st' & Hset & _ & Hget & _).
  exists st'. split; [exact Hset | exact (Hget PNone)].
Defined.

(** What a call of [set_value] leaves, whether it returns or raises:
    the session as it was, when [float(value)] overflows, and otherwise
    under the key a float, or the value itself when [float()] rejects it
    with a caught exception. *)
Lemma set_value_state_entry (st : session) (key : string) (value : pyval) :
  default_values (set_value_state st key value).1 = default_values st
  ∧ ((set_value_state st key value).1 = st
     ∨ ∃ v, SINTA_DB (set_value_state st key value).1
            = <[key := v]> (SINTA_DB st)
            ∧ float v ≠ Raised OverflowError).
Proof.
  unfold set_value_state. destruct (float value) as [f|e] eqn:Hf; simpl.
  - split; [done|]. right. now exists (PFloat f).
  - destruct (value_or_type_error e) eqn:He; simpl; [|auto].
    split; [done|]. right. exists value. split; [done|].
    rewrite Hf. intros [= ->]. done.
Qed.

Lemma canonical_defaults_no_overflow (key : string) (value : pyval) :
  canonical_defaults !! key = Some value → float value ≠ Raised OverflowError.
Proof.
  intros Hl%elem_of_map_to_list%list_elem_of_In.
  pose proof canonical_defaults_non_negative as Hall.
  rewrite forallb_forall in Hall.
  destruct (is_non_negative_float_spec value (Hall _ Hl)) as (f & Hf & _).
  clear Hl Hall. rewrite Hf. discriminate.
Qed.

(** In a session written through [set_value] and [reset_data] only, the
    default table is the canonical one and no stored value makes
    [float()] overflow. *)
Lemma written_no_overflow (st : session) :
  written st →
  default_values st = canonical_defaults
  ∧ ∀ key value, SINTA_DB st !! key = Some value →
                 float value ≠ Raised OverflowError.
Proof.
  induction 1 as [|st key value _ [IHd IHv]|st _ [IHd IHv]].
  - split; [done|]. apply canonical_defaults_no_overflow.
  - destruct (set_value_state_entry st key value)
      as [Hd [->|(v & Hdb & Hv)]]; [done|].
    split; [congruence|]. intros k x. rewrite Hdb.
    destruct (decide (key = k)) as [->|Hne].
    + rewrite lookup_insert_eq. now intros [= <-].
    + rewrite lookup_insert_ne by done. apply IHv.
  - split; [done|]. simpl. rewrite IHd. apply canonical_defaults_no_overflow.
Qed.

(** Without an overflow, a value is refused exactly when its text
    cannot be written. *)
Lemma refusal_without_overflow (value : pyval) :
  float value ≠ Raised OverflowError →
  refusal value = if str_raises value then Some ValueError else None.
Proof.
  unfold refusal. destruct (float value) as [f|[]]; done.
Qed.

(** X14.  As long as the store is written through [set_value] and
    [reset_data] only, starting from a fresh session, no stored value is
    an integer beyond the largest float, whatever values were given to
    [set_value]: [get_value] with a float default returns, and
    [validate_data] does not raise [OverflowError].  On a store of
    shallow values it returns, unless [set_value] was given a list or a
    dictionary holding an integer of more than 4300 digits that is still
    in the store: then it raises [ValueError]. *)
Theorem written_store_never_overflows (st : session) :
  written st →
  (∀ key value, SINTA_DB st !! key = Some value →
                float value ≠ Raised OverflowError)
  ∧ (∀ key d, ∃ f, get_value st key (PFloat d) = Ok f)
  ∧ ((∀ key value, SINTA_DB st !! key = Some value → shallow value) →
     ((∀ key value, SINTA_DB st !! key = Some value →
                    str_raises value = false) →
      ∃ errors, validate_data st = Ok errors)
     ∧ ((∃ key value, SINTA_DB st !! key = Some value
                      ∧ str_raises value = true) →
        validate_data st = Raised ValueError)).
Proof.
  intros [_ Hno]%written_no_overflow.
  split; [exact Hno|]. split; [|intros _; split].
  - intros key d.
    destruct (get_value_outcome st key d) as [?|(_ & v & Hv & Hf)]; [done|].
    now destruct (Hno key v Hv).
  - intros Htext. destruct (validate_data_ok st) as (errors & ? & _); [|eauto].
    intros key value Hk.
    rewrite (refusal_without_overflow value (Hno key value Hk)).
    now rewrite (Htext key value Hk).
  - intros (key & value & Hk & Htext).
    destruct (validate_data_refused st) as (k & v & e & Hv & He & ->).
    { exists key, value, ValueError. split; [done|].
      rewrite (refusal_without_overflow value (Hno key value Hk)).
      now rewrite Htext. }
    rewrite (refusal_without_overflow v (Hno k v Hv)) in He.
    destruct (str_raises v); now simplify_eq.
Qed.

Lemma written_store_never_overflows_witness :
  let st :=
    (set_value_state
       (set_value_state (_ensure_session_state (mk_session_state None None))
          "AI1" (PStr "not-a-number")).1
       "AI2" (PInt (10 ^ 400))).1 in
  let st' := (set_value_state st "AI3" (PList [PInt (10 ^ 4300)])).1 in
  SINTA_DB st !! "AI1" = Some (PStr "not-a-number")
  ∧ SINTA_DB st !! "AI2" = Some (lit "0.076")
  ∧ (∃ f, get_value st "AI2" (PFloat PyFloat.zero) = Ok f)
  ∧ (∃ errors, validate_data st = Ok errors)
  ∧ (set_value_state st "AI3" (PList [PInt (10 ^ 4300)])).2
    = Raised ValueError
  ∧ SINTA_DB st' !! "AI3" = Some (PList [PInt (10 ^ 4300)])
  ∧ validate_data st' = Raised ValueError.
Proof.
  intros st st'.
  assert (Hst : written st) by (do 2 apply written_set; apply written_fresh).
  assert (Hst' : written st') by now apply written_set.
  assert (Htext : ∀ key value, SINTA_DB st !! key = Some value →
                               str_raises value = false).
  { intros key value Hk%elem_of_map_to_list%list_elem_of_In.
    assert (Hall : forallb (fun kv : string * pyval => negb (str_raises kv.2))
                     (map_to_list (SINTA_DB st)) = true)
      by (vm_compute; reflexivity).
    rewrite forallb_forall in Hall. apply Hall in Hk.
    clear Hall Hst Hst'. now apply negb_true_iff in Hk. }
  assert (H3 : SINTA_DB st' !! "AI3" = Some (PList [PInt (10 ^ 4300)]))
    by apply lookup_insert_eq.
  assert (Hshallow : ∀ key value, SINTA_DB st !! key = Some value →
                                  shallow value)
    by (apply shallow_store; vm_compute; reflexivity).
  assert (Hshallow' : ∀ key value, SINTA_DB st' !! key = Some value →
                                   shallow value)
    by (apply shallow_store; vm_compute; reflexivity).
  destruct (written_store_never_overflows st Hst) as (_ & Hget & Hvalid).
  destruct (Hvalid Hshallow) as [Hval _].
  destruct (written_store_never_overflows st' Hst') as (_ & _ & Hvalid').
  destruct (Hvalid' Hshallow') as [_ Hraise].
  split_and!.
  - vm_compute. reflexivity.
  - vm_compute. reflexivity.
  - apply Hget.
  - exact (Hval Htext).
  - vm_compute. reflexivity.
  - exact H3.
  - apply Hraise. exists "AI3", (PList [PInt (10 ^ 4300)]).
    split; [exact H3 | vm_compute; reflexivity].
Defined.

(** X22.  The two ways [set_value] raises, for a shallow value.  For an
    integer beyond the
    largest float, [float(value)] raises [OverflowError], which the
    [except] clause lets through: the store is as it was.  For a value
    [float()] rejects and [str()] cannot write, a list or a dictionary
    holding an integer of more than 4300 digits, the text of the warning
    raises [ValueError] in the [except] clause: by then the value has
    been stored. *)
Theorem set_value_raises (st : session) (key : string) (value : pyval)
    (e : exn) :
  shallow value →
  (set_value_state st key value).2 = Raised e
  ↔ (e = OverflowError
     ∧ float value = Raised OverflowError
     ∧ (set_value_state st key value).1 = st)
    ∨ (e = ValueError
       ∧ (float value = Raised ValueError ∨ float value = Raised TypeError)
       ∧ str_raises value = true
       ∧ (set_value_state st key value).1
         = mk_session (<[key := value]> (SINTA_DB st)) (default_values st)).
Proof.
  intros _. unfold set_value_state, format.
  destruct (float value) as [f|e'] eqn:Hf; simpl.
  { split; [done | intros [(_ & ? & _)|(_ & [?|?] & _)]; done]. }
  destruct (float_raises value e' Hf) as [->|[->| ->]]; simpl.
  - destruct (str_raises value); simpl.
    + split; [intros [= <-]; right; auto|].
      now intros [(_ & ? & _)|(-> & _)].
    + split; [done | intros [(_ & ? & _)|(_ & _ & ? & _)]; done].
  - destruct (str_raises value); simpl.
    + split; [intros [= <-]; right; auto|].
      now intros [(_ & ? & _)|(-> & _)].
    + split; [done | intros [(_ & ? & _)|(_ & _ & ? & _)]; done].
  - split; [intros [= <-]; left; auto|].
    now intros [(-> & _)|(_ & [?|?] & _)].
Qed.

Lemma set_value_raises_witness :
  let st := _ensure_session_state (mk_session_state None None) in
  set_value st "AI1" (PList [PInt (10 ^ 4300)]) = Raised ValueError
  ∧ SINTA_DB (set_value_state st "AI1" (PList [PInt (10 ^ 4300)])).1 !! "AI1"
    = Some (PList [PInt (10 ^ 4300)])
  ∧ set_value st "AI1" (PInt (10 ^ 400)) = Raised OverflowError
  ∧ (set_value_state st "AI1" (PInt (10 ^ 400))).1 = st.
Proof.
  intros st.
  assert (Hlist : shallow (PList [PInt (10 ^ 4300)]))
    by (apply Nat.leb_le; vm_compute; reflexivity).
  assert (Hint : shallow (PInt (10 ^ 400)))
    by (apply Nat.leb_le; vm_compute; reflexivity).
  destruct (proj1 (set_value_raises st "AI1" (PList [PInt (10 ^ 4300)])
                     ValueError Hlist) ltac:(vm_compute; reflexivity))
    as [(? & _)|(_ & _ & _ & Hstored)]; [discriminate|].
  destruct (proj1 (set_value_raises st "AI1" (PInt (10 ^ 400))
                     OverflowError Hint) ltac:(vm_compute; reflexivity))
    as [(_ & _ & Hkept)|(? & _)]; [|discriminate].
  split_and!.
  - vm_compute. reflexivity.
  - rewrite Hstored. apply lookup_insert_eq.
  - vm_compute. reflexivity.
  - exact Hkept.
Defined.

(** A loop raises when one of its iterations raises from every state. *)
Lemma for_each_some_raises {S X} (body : S → X → outcome S) (xs : list X) :
  (∃ x, x ∈ xs ∧ ∀ s, ∃ e, body s x = Raised e) →
  ∀ s, ∃ e, for_each body xs s = Raised e.
Proof.
  induction xs as [|y xs IH]; intros (x & Hin & Hx) s.
  - now apply elem_of_nil in Hin.
  - simpl. destruct (body s y) as [s'|e] eqn:Hy; [|eauto].
    rewrite bind_Ok. apply IH. exists x. split; [|done].
    apply elem_of_cons in Hin as [->|?]; [|done].
    destruct (Hx s) as [e He]. congruence.
Qed.

(** X15.  [get_data_summary] converts every stored value with an
    unguarded [float()]: when the store holds a value that [float()]
    rejects, such as one [set_value] stored with only a warning, it
    raises instead of returning a summary. *)
Theorem get_data_summary_raises
    (now : string) (sum_of_digit_values : gmap string pyval → outcome spec_float)
    (st : session) (key : string) (value : pyval) (e : exn) :
  SINTA_DB st !! key = Some value →
  float value = Raised e →
  ∃ e', get_data_summary now sum_of_digit_values st = Raised e'.
Proof.
  intros Hk Hf. unfold get_data_summary, count_non_zero.
  edestruct (for_each_some_raises
               (fun (ks : list string) '(k, v) =>
                  f ← float v;
                  Ok (if PyFloat.ltb PyFloat.zero f then ks ++ [k] else ks))
               (map_to_list (SINTA_DB st))) as [e' He'].
  - exists (key, value). split; [now apply elem_of_map_to_list|].
    intros ks. exists e. now rewrite Hf.
  - exists e'. now rewrite He'.
Qed.

Lemma get_data_summary_raises_witness :
  ∃ st shown e',
    set_value (_ensure_session_state (mk_session_state None None))
      "AI1" (PStr "not-a-number") = Ok (st, shown)
    ∧ get_data_summary "2026-01-01T12:00:00" (fun _ => Ok PyFloat.zero) st
      = Raised e'.
Proof.
  destruct (get_data_summary_raises "2026-01-01T12:00:00"
              (fun _ => Ok PyFloat.zero)
              (mk_session
                 (<["AI1" := PStr "not-a-number"]>
                    (SINTA_DB (_ensure_session_state (mk_session_state None None))))
                 (default_values (_ensure_session_state (mk_session_state None None))))
              "AI1" (PStr "not-a-number") ValueError
              (lookup_insert_eq _ _ _) eq_refl) as [e' He'].
  do 3 eexists. split; [|exact He'].
  now apply (set_value_raw _ "AI1" (PStr "not-a-number") ValueError).
Defined.

(** [d.update(pairs)] is a union that prefers the later pairs. *)
Lemma update_pairs_union (pairs : list (string * pyval)) :
  ∀ d, update_pairs pairs d = list_to_map (reverse pairs) ∪ d.
Proof.
  unfold update_pairs.
  induction pairs as [|[key value] pairs IH]; intros d; cbn [foldl].
  - now rewrite reverse_nil, list_to_map_nil, (left_id_L ∅ (∪)).
  - rewrite IH, reverse_cons, list_to_map_app, <- (assoc_L (∪)).
    f_equal. rewrite list_to_map_cons, list_to_map_nil.
    now rewrite insert_empty, insert_union_singleton_l.
Qed.

(** X16.  Loading the same file a second time changes nothing more: the
    session, the boolean and the messages are those of the first load,
    also when the load stops part of the way. *)
Theorem load_from_file_twice (fs : string → file) (st : session)
    (filename : string) :
  load_from_file fs (load_from_file fs st filename).1.1 filename
  = load_from_file fs st filename.
Proof.
  unfold load_from_file.
  destruct (fs filename) as [| |loaded|pairs finished]; try done; simpl.
  - now rewrite (assoc_L (∪)), (idemp_L (∪)).
  - now rewrite !update_pairs_union, (assoc_L (∪)), (idemp_L (∪)).
Qed.

(** X17.  Building the manager again runs [_ensure_session_state] on the
    stored session.  It leaves the default table as it is and a store
    that is not empty as it is, whatever was written to it; a store that
    has been emptied, as [restore_from_backup] does with an empty
    dictionary, it fills with the default table, as [reset_data] would;
    and a second run after any first one changes nothing. *)
Theorem ensure_session_state_again (ss : session_state) (st : session) :
  (SINTA_DB st ≠ ∅ → _ensure_session_state (stored st) = st)
  ∧ (SINTA_DB st = ∅ → _ensure_session_state (stored st) = reset_data st)
  ∧ _ensure_session_state (stored (restore_from_backup st ∅)) = reset_data st
  ∧ _ensure_session_state (stored (_ensure_session_state ss))
    = _ensure_session_state ss.
Proof.
  assert (Hkeep : ∀ st, SINTA_DB st ≠ ∅ → _ensure_session_state (stored st) = st).
  { intros [db dv] Hne. unfold _ensure_session_state, stored. simpl in *.
    destruct (Nat.eqb_spec (size db) 0) as [Hs|Hs]; [|done].
    now apply map_size_empty_iff in Hs. }
  assert (Hfill : ∀ st, SINTA_DB st = ∅ →
                        _ensure_session_state (stored st) = reset_data st).
  { intros [db dv] He. simpl in He. subst db. done. }
  split_and!; [apply Hkeep | apply Hfill | done |].
  destruct (decide (SINTA_DB (_ensure_session_state ss) = ∅)) as [He|Hne];
    [|now apply Hkeep].
  rewrite (Hfill _ He). unfold reset_data.
  destruct (_ensure_session_state ss) as [db dv] eqn:E. simpl in *. subst db.
  f_equal. unfold _ensure_session_state in E.
  destruct (Nat.eqb_spec (size (default ∅ (raw_db ss))) 0) as [Hs|Hs];
    injection E as E1 E2; [congruence|].
  subst. now apply map_size_empty_iff in E1.
Qed.

Lemma ensure_session_state_again_witness :
  let st := mk_session {["AI1" := PStr "not-a-number"]} canonical_defaults in
  _ensure_session_state (stored st) = st.
Proof.
  intros st.
  apply (ensure_session_state_again (mk_session_state None None) st).
  apply (insert_non_empty (M := gmap string)).
Defined.

End Writes.

(** * The store as a shared object *)

Section SharedStore.
Import DataManager Shared.

#[local] Open Scope nat_scope.

Lemma deref_insert_eq (h : heap) (l : nat) (d : gmap string pyval) :
  deref (<[l := d]> h) l = d.
Proof. unfold deref. now rewrite lookup_insert_eq. Qed.









(** X20.  [restore_from_backup] makes the given dictionary the store, it
    does not copy it: a value set afterwards is written into the
    caller's backup, so that restoring the same backup again gives the
    value set, not the one backed up. *)
Theorem restore_shares_the_backup
    (w : world) (backup_data : nat) (key : string) (value : pyval)
    (f : spec_float) (w2 : world) (shown : list message) :
  float value = Ok f →
  Shared.set_value (Shared.restore_from_backup w backup_data) key value
  = Ok (w2, shown) →
  deref (objects w2) backup_data !! key = Some (PFloat f)
  ∧ ∀ dflt,
      Shared.get_value (Shared.restore_from_backup w2 backup_data) key dflt
      = Ok f.
Proof.
  intros Hf. unfold Shared.set_value, Shared.set_value_state, setitem.
  rewrite Hf. simpl.
  intros [= <- _]. simpl. rewrite deref_insert_eq, lookup_insert_eq.
  split; [done|]. intros dflt. unfold Shared.get_value. simpl.
  now rewrite deref_insert_eq, lookup_insert_eq.
Qed.

Lemma restore_shares_the_backup_witness :
  ∃ l w1 w2 shown,
    Shared.backup_current_state start = (l, w1)
    ∧ deref (objects w1) l !! "AI1" = Some (lit "0.092")
    ∧ Shared.set_value (Shared.restore_from_backup w1 l) "AI1" (PInt 7)
      = Ok (w2, shown)
    ∧ deref (objects w2) l !! "AI1" = Some (lit "7.0").
Proof.
  destruct (Shared.backup_current_state start) as [l w1] eqn:Hb.
  injection Hb as <- <-.
  match goal with
  | |- ∃ l' w1' w2 shown, (?l0, ?w0) = _ ∧ _ =>
      destruct (Shared.set_value (Shared.restore_from_backup w0 l0)
                  "AI1" (PInt 7)) as [[w2 shown]|] eqn:Hs;
        [|discriminate Hs];
      exists l0, w0, w2, shown
  end.
  split; [reflexivity|]. split; [reflexivity|]. split; [exact Hs|].
  eapply (restore_shares_the_backup _ _ "AI1" (PInt 7)); [|exact Hs].
  reflexivity.
Defined.

End SharedStore.
